(** * LHDC A2DP source encoder: pacing and packet assembly

    A shallow embedding of the frame pacer and of the per-tick
    encode-and-packetize routine of the LHDC vendor codec glue
    ([stack/a2dp/a2dp_vendor_lhdc_encoder.cc], and the older single-buffer
    variant of the same file), with the properties of the design document
    stated and settled against it.

    Conventions.  C integers are [Z] with the wrap-around of their type
    written out ([u8], [u16], [u32], [i32]).  The global control block
    [a2dp_lhdc_encoder_cb] is a record that is passed along explicitly.  The
    three callbacks (PCM read, codec encode, packet enqueue) and the
    allocator are parameters acting on an abstract [World]; every call to
    them is also appended to a log, so that statements can speak about what
    was read, encoded and handed to the sink, in order. *)

From Stdlib Require Import ZArith List Lia Bool.
From Stdlib Require Init.Byte Strings.Byte.
Import ListNotations.
Open Scope Z_scope.

(** ** Fixed-width arithmetic *)

Definition u8 (x : Z) : Z := x mod 2 ^ 8.
Definition u16 (x : Z) : Z := x mod 2 ^ 16.
Definition u32 (x : Z) : Z := x mod 2 ^ 32.
(** [size_t] of the statistics counters. *)
Definition usize (x : Z) : Z := x mod 2 ^ 64.

(** Conversion of a 32-bit pattern to [int]. *)
Definition i32 (x : Z) : Z :=
  let y := x mod 2 ^ 32 in if y <? 2 ^ 31 then y else y - 2 ^ 32.

(** ** Constants of the sources *)

(** [a2dp_vendor_lhdc_encoder.cc] *)
Definition A2DP_LHDC_ENCODER_INTERVAL_MS : Z := 20.

(** [a2dp_vendor_lhdc_constants.h] *)
Definition A2DP_LHDC_MPL_HDR_LEN : Z := 1.
Definition A2DP_LHDC_HDR_F_MSK : Z := 0x80.
Definition A2DP_LHDC_HDR_S_MSK : Z := 0x40.
Definition A2DP_LHDC_HDR_L_MSK : Z := 0x20.

(** Size of the local array [BT_HDR * p_btBufs[16]] of
    [a2dp_lhdc_encode_frames]. *)
Definition P_BTBUFS_LEN : Z := 16.

(** ** Data *)

Record tA2DP_FEEDING_PARAMS := mkFeedingParams {
  sample_rate : Z;        (* uint32_t *)
  bits_per_sample : Z;    (* uint8_t *)
  channel_count : Z       (* uint8_t *)
}.

Record tA2DP_LHDC_FEEDING_STATE := mkFeedingState {
  counter : Z;            (* uint32_t *)
  bytes_per_tick : Z;     (* uint32_t: pcm bytes read each media task tick *)
  last_frame_us : Z       (* uint64_t *)
}.

Record a2dp_lhdc_encoder_stats_t := mkStats {
  media_read_total_expected_packets : Z;
  media_read_total_expected_reads_count : Z;
  media_read_total_expected_read_bytes : Z;
  media_read_total_dropped_packets : Z;
  media_read_total_actual_reads_count : Z;
  media_read_total_actual_read_bytes : Z
}.

(** The fields of the control block that the pacer and the packetizer read
    or write.  [lhdc_handle] is [true] when the handle is not NULL. *)
Record tA2DP_LHDC_ENCODER_CB := mkCb {
  TxAaMtuSize : Z;                       (* uint16_t *)
  timestamp : Z;                         (* uint32_t *)
  lhdc_handle : bool;
  feeding_params : tA2DP_FEEDING_PARAMS;
  latency_mode_index : Z;                (* int, of lhdc_encoder_params *)
  lhdc_feeding_state : tA2DP_LHDC_FEEDING_STATE;
  stats : a2dp_lhdc_encoder_stats_t;
  buf_seq : Z                            (* uint32_t *)
}.

Definition set_feeding_state (s : tA2DP_LHDC_FEEDING_STATE)
  (cb : tA2DP_LHDC_ENCODER_CB) : tA2DP_LHDC_ENCODER_CB :=
  mkCb (TxAaMtuSize cb) (timestamp cb) (lhdc_handle cb) (feeding_params cb)
       (latency_mode_index cb) s (stats cb) (buf_seq cb).

Definition set_counter (c : Z) (cb : tA2DP_LHDC_ENCODER_CB) :=
  set_feeding_state
    (mkFeedingState c (bytes_per_tick (lhdc_feeding_state cb))
                    (last_frame_us (lhdc_feeding_state cb))) cb.

Definition set_timestamp (t : Z) (cb : tA2DP_LHDC_ENCODER_CB) :=
  mkCb (TxAaMtuSize cb) t (lhdc_handle cb) (feeding_params cb)
       (latency_mode_index cb) (lhdc_feeding_state cb) (stats cb) (buf_seq cb).

Definition set_buf_seq (s : Z) (cb : tA2DP_LHDC_ENCODER_CB) :=
  mkCb (TxAaMtuSize cb) (timestamp cb) (lhdc_handle cb) (feeding_params cb)
       (latency_mode_index cb) (lhdc_feeding_state cb) (stats cb) s.

Definition set_stats (s : a2dp_lhdc_encoder_stats_t)
  (cb : tA2DP_LHDC_ENCODER_CB) :=
  mkCb (TxAaMtuSize cb) (timestamp cb) (lhdc_handle cb) (feeding_params cb)
       (latency_mode_index cb) (lhdc_feeding_state cb) s (buf_seq cb).

Definition byte := Byte.byte.

(** A transport buffer.  [payload] holds the [len] bytes stored at
    [(uint8_t* )(p_buf + 1) + offset]; [media_timestamp] is the [uint32_t]
    stored at [(p_buf + 1)], absent until it is written. *)
Record BT_HDR := mkBuf {
  offset : Z;                    (* uint16_t *)
  len : Z;                       (* uint16_t *)
  layer_specific : Z;            (* uint16_t *)
  media_timestamp : option Z;
  payload : list byte
}.

(** The two header bytes that [A2DP_VendorBuildCodecHeaderLhdc] later copies
    out of [layer_specific]: the metadata byte (flags, latency, frame
    count) and the sequence byte. *)
Definition hdr_meta (p : BT_HDR) : Z := Z.land (layer_specific p) 0xff.
Definition hdr_seq (p : BT_HDR) : Z := Z.land (Z.shiftr (layer_specific p) 8) 0xff.
Definition hdr_fragment (p : BT_HDR) : bool := Z.testbit (layer_specific p) 7.
Definition hdr_start (p : BT_HDR) : bool := Z.testbit (layer_specific p) 6.
Definition hdr_end (p : BT_HDR) : bool := Z.testbit (layer_specific p) 5.

(** Early returns of the packetizer, and the ways in which it leaves the
    behaviour C defines. *)
Inductive halt :=
| AllocationFailure | CodecFailure | InvalidHandle | SinkBackpressure.

Inductive fault :=
| ArrayOverrun (index : Z)     (* p_btBufs[index] with index >= 16 *)
| BadMemcpy (size : Z)         (* memcpy with a negative int as its size *)
| SourceOverread               (* memcpy reading past write_buffer *)
| DivideByZero
| LoopFuel.                    (* never an outcome, see [encode_frames_fuel] *)

(** ** The pacer *)

Module Pacer.

(** [a2dp_vendor_lhdc_feeding_reset]: the feeding state is cleared, the PCM
    bytes per tick are recomputed in [uint32_t] arithmetic, and the packet
    sequence counter restarts. *)
Definition a2dp_vendor_lhdc_feeding_reset (cb : tA2DP_LHDC_ENCODER_CB)
  : tA2DP_LHDC_ENCODER_CB :=
  let fp := feeding_params cb in
  let bpt :=
    u32 (u32 (u32 (sample_rate fp * bits_per_sample fp) / 8 * channel_count fp)
         * A2DP_LHDC_ENCODER_INTERVAL_MS) / 1000 in
  set_buf_seq 0 (set_feeding_state (mkFeedingState 0 bpt 0) cb).

(** [a2dp_vendor_lhdc_feeding_flush] *)
Definition a2dp_vendor_lhdc_feeding_flush (cb : tA2DP_LHDC_ENCODER_CB) :=
  set_counter 0 cb.

Section WithFrameSize.

(** [A2DP_LHDC_MEDIA_BYTES_PER_FRAME] is 512 in the fragmenting encoder and
    128 in the single-buffer one; the pacer is otherwise the same text. *)
Variable A2DP_LHDC_MEDIA_BYTES_PER_FRAME : Z.

Definition pcm_bytes_per_frame (cb : tA2DP_LHDC_ENCODER_CB) : Z :=
  u32 (A2DP_LHDC_MEDIA_BYTES_PER_FRAME * channel_count (feeding_params cb)
       * bits_per_sample (feeding_params cb) / 8).

(** The value of [us_this_tick] (a [uint32_t]). *)
Definition us_this_tick (cb : tA2DP_LHDC_ENCODER_CB) (timestamp_us : Z) : Z :=
  if last_frame_us (lhdc_feeding_state cb) =? 0
  then A2DP_LHDC_ENCODER_INTERVAL_MS * 1000
  else u32 (timestamp_us - last_frame_us (lhdc_feeding_state cb)).

(** [a2dp_lhdc_get_num_frame_iteration]: returns
    [(num_of_iterations, num_of_frames, cb')], or [None] when the division
    by [pcm_bytes_per_frame] traps. *)
Definition a2dp_lhdc_get_num_frame_iteration
  (cb : tA2DP_LHDC_ENCODER_CB) (timestamp_us : Z)
  : option (Z * Z * tA2DP_LHDC_ENCODER_CB) :=
  let fs := lhdc_feeding_state cb in
  let noi := 1 in
  let bpf := pcm_bytes_per_frame cb in
  let us := us_this_tick cb timestamp_us in
  let now_us := timestamp_us in
  let counter1 :=
    u32 (counter fs
         + u32 (bytes_per_tick fs * us) / (A2DP_LHDC_ENCODER_INTERVAL_MS * 1000)) in
  if bpf =? 0 then None
  else
    let result := counter1 / bpf in
    let counter2 := u32 (counter1 - u32 (result * bpf)) in
    let nof := u8 result in
    Some (noi, nof,
          set_feeding_state (mkFeedingState counter2 (bytes_per_tick fs) now_us) cb).

(** A run of the pacer alone over a sequence of tick timestamps: the frame
    counts handed out, in order, and the final control block. *)
Fixpoint pacer_run (tss : list Z) (cb : tA2DP_LHDC_ENCODER_CB)
  : option (list Z * tA2DP_LHDC_ENCODER_CB) :=
  match tss with
  | [] => Some ([], cb)
  | t :: tss' =>
      match a2dp_lhdc_get_num_frame_iteration cb t with
      | None => None
      | Some (_, nof, cb1) =>
          match pacer_run tss' cb1 with
          | None => None
          | Some (nofs, cb2) => Some (nof :: nofs, cb2)
          end
      end
  end.

(** *** The quantities of the conservation law of the design document *)

(** Elapsed time of a tick as the document defines it. *)
Definition elapsed_us (last now : Z) : Z :=
  if last =? 0 then A2DP_LHDC_ENCODER_INTERVAL_MS * 1000 else now - last.

(** [sum (bytes_per_tick * elapsed_us_i / interval_us)] *)
Fixpoint budget_earned (bpt last : Z) (tss : list Z) : Z :=
  match tss with
  | [] => 0
  | t :: tss' =>
      bpt * elapsed_us last t / (A2DP_LHDC_ENCODER_INTERVAL_MS * 1000)
      + budget_earned bpt t tss'
  end.

(** [sum (frameCount_i * bytes_per_frame)] *)
Definition budget_spent (bpf : Z) (nofs : list Z) : Z :=
  fold_right (fun n acc => n * bpf + acc) 0 nofs.

(** The conservation law as the document states it, for a run that starts
    with an empty accumulator: spent plus remainder equals earned, up to one
    byte of rounding per tick. *)
Definition conservation (tss : list Z) (cb : tA2DP_LHDC_ENCODER_CB) : Prop :=
  forall nofs cb',
    pacer_run tss cb = Some (nofs, cb') ->
    Z.abs (budget_spent (pcm_bytes_per_frame cb) nofs
           + counter (lhdc_feeding_state cb')
           - budget_earned (bytes_per_tick (lhdc_feeding_state cb))
                           (last_frame_us (lhdc_feeding_state cb)) tss)
    <= Z.of_nat (length tss).

(** A tick on which no fixed-width operation of the pacer loses
    information: the elapsed time fits [uint32_t], neither the product nor
    the accumulation wraps, and the frame quotient fits [uint8_t]. *)
Definition tick_in_range (cb : tA2DP_LHDC_ENCODER_CB) (t : Z) : bool :=
  let fs := lhdc_feeding_state cb in
  let el := elapsed_us (last_frame_us fs) t in
  let inc := bytes_per_tick fs * el / (A2DP_LHDC_ENCODER_INTERVAL_MS * 1000) in
  (0 <=? el) && (el <? 2 ^ 32)
  && (0 <=? bytes_per_tick fs) && (bytes_per_tick fs * el <? 2 ^ 32)
  && (0 <=? counter fs) && (counter fs + inc <? 2 ^ 32)
  && ((counter fs + inc) / pcm_bytes_per_frame cb <? 2 ^ 8).

Fixpoint run_in_range (tss : list Z) (cb : tA2DP_LHDC_ENCODER_CB) : bool :=
  match tss with
  | [] => true
  | t :: tss' =>
      tick_in_range cb t
      && match a2dp_lhdc_get_num_frame_iteration cb t with
         | None => false
         | Some (_, _, cb1) => run_in_range tss' cb1
         end
  end.

End WithFrameSize.

End Pacer.

(** ** The fragmenting packetizer ([stack/a2dp/a2dp_vendor_lhdc_encoder.cc]) *)

Module Fragmenting.

(** What the file takes from outside: constants of headers that are not
    part of these sources, the build flag [BTA_AV_CO_CP_SCMS_T], the
    allocator and the three callbacks.  [osi_malloc] answers whether a
    buffer was obtained; [read_callback] answers the bytes it stored in
    [read_buffer]; [lhdc_encode_func] (handle, PCM block) answers the [int]
    it returns and the contents of [write_buffer] after the call. *)
Class Platform := {
  World : Type;
  LHDCBT_ENC_BLOCK_SIZE : Z;
  A2DP_LHDC_HDR_NUM_SHIFT : Z;
  AVDT_MEDIA_OFFSET : Z;
  BTA_AV_CO_CP_SCMS_T : bool;
  osi_malloc : World -> bool * World;
  read_callback : World -> Z -> list byte * World;
  lhdc_encode_func : World -> bool -> list byte -> Z * list byte * World;
  enqueue_callback : World -> BT_HDR -> Z -> bool * World
}.

Inductive event :=
| EvRead (read_size : Z) (data : list byte)
| EvEncode (out_len : Z) (write_buffer : list byte)
| EvEnqueue (p_buf : BT_HDR) (frames_n : Z) (accepted : bool).

Section Model.
Context {P : Platform}.

Record machine := mkMachine {
  cb : tA2DP_LHDC_ENCODER_CB;
  world : World;
  log : list event
}.

Inductive outcome (A : Type) :=
| Done (a : A)                       (* control reached the end *)
| Halt (h : halt) (m : machine)      (* an early [return] *)
| Fault (f : fault).
Arguments Done {A} a.
Arguments Halt {A} h m.
Arguments Fault {A} f.

(** What one of the two loops over the codec output leaves behind. *)
Inductive loop_result (A : Type) :=
| Ok (a : A)
| Stop (h : halt) (w : World)
| Bad (f : fault).
Arguments Ok {A} a.
Arguments Stop {A} h w.
Arguments Bad {A} f.

Definition scms_len : Z := if BTA_AV_CO_CP_SCMS_T then 1 else 0.

Definition A2DP_LHDC_OFFSET : Z :=
  AVDT_MEDIA_OFFSET + A2DP_LHDC_MPL_HDR_LEN + scms_len.

(** [uint32_t max_mtu_len] of [a2dp_lhdc_encode_frames] *)
Definition max_mtu_len (c : tA2DP_LHDC_ENCODER_CB) : Z :=
  u32 (u16 (TxAaMtuSize c) - A2DP_LHDC_MPL_HDR_LEN - scms_len).

(** [LHDCBT_ENC_BLOCK_SIZE * channel_count * bits_per_sample / 8]: the
    size of one codec input block, of [read_buffer] and of [write_buffer]. *)
Definition enc_block_bytes (c : tA2DP_LHDC_ENCODER_CB) : Z :=
  u32 (LHDCBT_ENC_BLOCK_SIZE * channel_count (feeding_params c)
       * bits_per_sample (feeding_params c) / 8).

Definition bt_buf_new (w : World) : option BT_HDR * World :=
  let '(ok, w1) := osi_malloc w in
  if ok then (Some (mkBuf A2DP_LHDC_OFFSET 0 0 None []), w1) else (None, w1).

(** [a2dp_lhdc_read_feeding]: [None] is the [false] of an underflow,
    [Some read_buffer] a block, padded with silence after a short read. *)
Definition a2dp_lhdc_read_feeding (m : machine) : option (list byte) * machine :=
  let read_size := enc_block_bytes (cb m) in
  let st := stats (cb m) in
  let '(data, w1) := read_callback (world m) read_size in
  let nb_byte_read := u32 (Z.of_nat (length data)) in
  let st1 :=
    mkStats (media_read_total_expected_packets st)
            (usize (media_read_total_expected_reads_count st + 1))
            (usize (media_read_total_expected_read_bytes st + read_size))
            (media_read_total_dropped_packets st)
            (media_read_total_actual_reads_count st)
            (usize (media_read_total_actual_read_bytes st + nb_byte_read)) in
  let counted (s : a2dp_lhdc_encoder_stats_t) :=
    mkStats (media_read_total_expected_packets s)
            (media_read_total_expected_reads_count s)
            (media_read_total_expected_read_bytes s)
            (media_read_total_dropped_packets s)
            (usize (media_read_total_actual_reads_count s + 1))
            (media_read_total_actual_read_bytes s) in
  let lg := log m ++ [EvRead read_size data] in
  if nb_byte_read <? read_size then
    if nb_byte_read =? 0 then
      (None, mkMachine (set_stats st1 (cb m)) w1 lg)
    else
      (Some (data ++ repeat Byte.x00 (Z.to_nat (read_size - nb_byte_read))),
       mkMachine (set_stats (counted st1) (cb m)) w1 lg)
  else
    (Some data, mkMachine (set_stats (counted st1) (cb m)) w1 lg).

(** The inner loop [while (out_len > 0)]: copy the codec output into the
    open buffer, closing it into [p_btBufs] whenever it reaches
    [max_mtu_len].  [p_btBufs] is the sequence of slots written so far, so
    [bt_buf_num] is its length; a write at slot 16 or beyond leaves the
    array.  The loop takes at most [out_len + 17] turns (every turn copies
    a byte or closes a buffer), which is the fuel [frag_fuel] gives it. *)
Fixpoint frag_loop (fuel : nat) (max_mtu : Z) (write_buffer : list byte)
  (out_offset out_len : Z) (p_buf : option BT_HDR) (p_btBufs : list BT_HDR)
  (w : World) : loop_result (option BT_HDR * list BT_HDR * World) :=
  if out_len >? 0 then
    match fuel with
    | O => Bad LoopFuel
    | S fuel' =>
        match (match p_buf with
               | Some p => (Some p, w)
               | None => bt_buf_new w
               end) with
        | (None, w1) => Stop AllocationFailure w1
        | (Some p, w1) =>
            let space := i32 (max_mtu - len p) in
            let bytes := if out_len <? space then out_len else space in
            if bytes <? 0 then Bad (BadMemcpy bytes)
            else if Z.of_nat (length write_buffer) <? out_offset + bytes
            then Bad SourceOverread
            else
              let p1 :=
                mkBuf (offset p) (u16 (len p + bytes)) (layer_specific p)
                      (media_timestamp p)
                      (payload p
                       ++ firstn (Z.to_nat bytes)
                                 (skipn (Z.to_nat out_offset) write_buffer)) in
              if len p1 >=? max_mtu then
                let bt_buf_num := Z.of_nat (length p_btBufs) in
                if bt_buf_num <? P_BTBUFS_LEN then
                  frag_loop fuel' max_mtu write_buffer (out_offset + bytes)
                            (out_len - bytes) None (p_btBufs ++ [p1]) w1
                else Bad (ArrayOverrun bt_buf_num)
              else
                frag_loop fuel' max_mtu write_buffer (out_offset + bytes)
                          (out_len - bytes) (Some p1) p_btBufs w1
        end
    end
  else Ok (p_buf, p_btBufs, w).

Definition frag_fuel (out_len : Z) : nat := S (Z.to_nat out_len + 16).

(** The outer loop [while (nb_frame)]. *)
Fixpoint frames_loop (nb_frame : nat) (max_mtu : Z) (m : machine)
  (p_buf : option BT_HDR) (p_btBufs : list BT_HDR)
  : outcome (machine * option BT_HDR * list BT_HDR) :=
  match nb_frame with
  | O => Done (m, p_buf, p_btBufs)
  | S nb_frame' =>
      match a2dp_lhdc_read_feeding m with
      | (None, m1) =>
          let fp := feeding_params (cb m1) in
          let back :=
            Z.of_nat nb_frame * LHDCBT_ENC_BLOCK_SIZE * channel_count fp
            * bits_per_sample fp / 8 in
          let c := u32 (counter (lhdc_feeding_state (cb m1)) + back) in
          Done (mkMachine (set_counter c (cb m1)) (world m1) (log m1),
                p_buf, p_btBufs)
      | (Some read_buffer, m1) =>
          let '(out_len, write_buffer, w2) :=
            lhdc_encode_func (world m1) (lhdc_handle (cb m1)) read_buffer in
          let lg := log m1 ++ [EvEncode out_len write_buffer] in
          match frag_loop (frag_fuel out_len) max_mtu write_buffer 0 out_len
                          p_buf p_btBufs w2 with
          | Ok (p_buf1, p_btBufs1, w3) =>
              frames_loop nb_frame' max_mtu (mkMachine (cb m1) w3 lg)
                          p_buf1 p_btBufs1
          | Stop h w3 => Halt h (mkMachine (cb m1) w3 lg)
          | Bad f => Fault f
          end
      end
  end.

(** Stamp one closed buffer and hand it to the sink: [layer_specific]
    takes [buf_seq++], is shifted left by 8, and has the metadata of its
    branch or-ed in by [tag]; the session timestamp is stored in front of
    the payload.  The result of [enqueue_callback] is not looked at. *)
Definition stamp_and_enqueue (tag : Z -> Z) (p : BT_HDR) (m : machine) : machine :=
  let c := cb m in
  let ls0 := u16 (buf_seq c) in
  let c1 := set_buf_seq (u32 (buf_seq c + 1)) c in
  let ls1 := u16 (Z.shiftl ls0 8) in
  let ls2 := tag ls1 in
  let p1 := mkBuf (offset p) (len p) ls2 (Some (timestamp c1)) (payload p) in
  let '(accepted, w1) := enqueue_callback (world m) p1 1 in
  mkMachine c1 w1 (log m ++ [EvEnqueue p1 1 accepted]).

(** [layer_specific |= (latency | (nb_frame_org << A2DP_LHDC_HDR_NUM_SHIFT))] *)
Definition tag_single (latency nb_frame_org : Z) (ls : Z) : Z :=
  u16 (Z.lor ls (Z.lor latency (Z.shiftl nb_frame_org A2DP_LHDC_HDR_NUM_SHIFT))).

(** The [|=] of buffer [i] of [bt_buf_num] in the [else] branch. *)
Definition tag_fragment (latency nb_frame_org i bt_buf_num : Z) (ls : Z) : Z :=
  let ls1 := u16 (Z.lor ls (Z.lor A2DP_LHDC_HDR_F_MSK latency)) in
  if i =? 0 then
    u16 (Z.lor ls1 (Z.lor A2DP_LHDC_HDR_S_MSK
                          (Z.shiftl nb_frame_org A2DP_LHDC_HDR_NUM_SHIFT)))
  else if i =? bt_buf_num - 1 then u16 (Z.lor ls1 A2DP_LHDC_HDR_L_MSK)
  else ls1.

(** [for (i = 0; i < bt_buf_num; i++)], over the buffers from slot [i] on. *)
Fixpoint emit_loop (latency nb_frame_org bt_buf_num i : Z)
  (rest : list BT_HDR) (m : machine) : machine :=
  match rest with
  | [] => m
  | p :: rest' =>
      emit_loop latency nb_frame_org bt_buf_num (i + 1) rest'
        (stamp_and_enqueue (tag_fragment latency nb_frame_org i bt_buf_num) p m)
  end.

(** [a2dp_lhdc_encode_frames]; the argument is converted to [uint8_t]. *)
Definition a2dp_lhdc_encode_frames (nb_frame : Z) (m : machine)
  : outcome machine :=
  let nb_frame := u8 nb_frame in
  let nb_frame_org := nb_frame in
  let max_mtu := max_mtu_len (cb m) in
  let latency := u8 (latency_mode_index (cb m)) in
  match frames_loop (Z.to_nat nb_frame) max_mtu m None [] with
  | Halt h m' => Halt h m'
  | Fault f => Fault f
  | Done (m1, p_buf, p_btBufs) =>
      let closed :=
        match p_buf with
        | None => Ok p_btBufs
        | Some p =>
            let bt_buf_num := Z.of_nat (length p_btBufs) in
            if bt_buf_num <? P_BTBUFS_LEN then Ok (p_btBufs ++ [p])
            else Bad (ArrayOverrun bt_buf_num)
        end in
      match closed with
      | Stop h w => Halt h (mkMachine (cb m1) w (log m1))
      | Bad f => Fault f
      | Ok p_btBufs1 =>
          let bt_buf_num := Z.of_nat (length p_btBufs1) in
          let m2 :=
            if bt_buf_num =? 1 then
              match p_btBufs1 with
              | p :: _ => stamp_and_enqueue (tag_single latency nb_frame_org) p m1
              | [] => m1
              end
            else emit_loop latency nb_frame_org bt_buf_num 0 p_btBufs1 m1 in
          Done (mkMachine
                  (set_timestamp
                     (u32 (timestamp (cb m2) + nb_frame_org * LHDCBT_ENC_BLOCK_SIZE))
                     (cb m2))
                  (world m2) (log m2))
      end
  end.

(** [for (counter = 0; counter < nb_iterations; counter++)] *)
Fixpoint iterations (n : nat) (nb_frame : Z) (m : machine) : outcome machine :=
  match n with
  | O => Done m
  | S n' =>
      match a2dp_lhdc_encode_frames nb_frame m with
      | Done m1 => iterations n' nb_frame m1
      | other => other
      end
  end.

(** [a2dp_vendor_lhdc_send_frames], the tick entry point. *)
Definition a2dp_vendor_lhdc_send_frames (timestamp_us : Z) (m : machine)
  : outcome machine :=
  match Pacer.a2dp_lhdc_get_num_frame_iteration 512 (cb m) timestamp_us with
  | None => Fault DivideByZero
  | Some (nb_iterations, nb_frame, c1) =>
      let m1 := mkMachine c1 (world m) (log m) in
      if nb_frame =? 0 then Done m1
      else iterations (Z.to_nat nb_iterations) nb_frame m1
  end.

(** A session as a sequence of ticks, each with its frame count. *)
Fixpoint encode_session (nb_frames : list Z) (m : machine) : outcome machine :=
  match nb_frames with
  | [] => Done m
  | nb :: rest =>
      match a2dp_lhdc_encode_frames nb m with
      | Done m1 => encode_session rest m1
      | other => other
      end
  end.

(** *** Reading the log *)

(** The packets handed to the sink, in order. *)
Definition enqueued (l : list event) : list BT_HDR :=
  flat_map (fun e => match e with EvEnqueue p _ _ => [p] | _ => [] end) l.

(** The compressed bytes the codec produced, in order: the first [out_len]
    bytes of [write_buffer] of every call that returned a positive
    [out_len]. *)
Definition encoded (l : list event) : list byte :=
  flat_map (fun e => match e with
                     | EvEncode out_len wb => firstn (Z.to_nat out_len) wb
                     | _ => []
                     end) l.

Definition reads (l : list event) : list (list byte) :=
  flat_map (fun e => match e with EvRead _ d => [d] | _ => [] end) l.

(** What the sink answered to each packet, in order. *)
Definition enqueue_answers (l : list event) : list bool :=
  flat_map (fun e => match e with EvEnqueue _ _ a => [a] | _ => [] end) l.

Definition encode_calls (l : list event) : Z :=
  Z.of_nat (length (flat_map (fun e => match e with
                                       | EvEncode _ _ => [e]
                                       | _ => []
                                       end) l)).

End Model.

Arguments Done {P A} a.
Arguments Halt {P A} h m.
Arguments Fault {P A} f.
Arguments Ok {P A} a.
Arguments Stop {P A} h w.
Arguments Bad {P A} f.

End Fragmenting.

(** ** The single-buffer packetizer (the older variant of the file) *)

Module Streaming.

(** The codec call of this variant, [lhdc_encode_func (handle, read_buffer,
    &encode_count, packet + count, &written, &out_frames)], answers its
    [int] result and what it stored through the pointers. *)
Record encode_result := mkEncodeResult {
  result : Z;
  encode_count : Z;
  stream : list byte;      (* the bytes stored at [packet + count] *)
  written : Z;
  out_frames : Z
}.

Class Platform := {
  World : Type;
  LHDCBT_ENC_BLOCK_SIZE : Z;
  AVDT_MEDIA_OFFSET : Z;
  BTA_AV_CO_CP_SCMS_T : bool;
  read_callback : World -> Z -> list byte * World;
  lhdc_encode_func : World -> list byte -> encode_result * World;
  enqueue_callback : World -> BT_HDR -> Z -> bool * World
}.

Inductive event :=
| EvRead (read_size : Z) (data : list byte)
| EvEncode (r : encode_result)
| EvEnqueue (p_buf : BT_HDR) (frames_n : Z) (accepted : bool)
| EvFree (p_buf : BT_HDR).

Section Model.
Context {P : Platform}.

Record machine := mkMachine {
  cb : tA2DP_LHDC_ENCODER_CB;
  world : World;
  log : list event
}.

Inductive outcome (A : Type) :=
| Done (a : A)
| Halt (h : halt) (m : machine)
| Fault (f : fault).
Arguments Done {A} a.
Arguments Halt {A} h m.
Arguments Fault {A} f.

Definition scms_len : Z := if BTA_AV_CO_CP_SCMS_T then 1 else 0.

Definition A2DP_LHDC_OFFSET : Z :=
  AVDT_MEDIA_OFFSET + A2DP_LHDC_MPL_HDR_LEN + scms_len.

Definition enc_block_bytes (c : tA2DP_LHDC_ENCODER_CB) : Z :=
  u32 (LHDCBT_ENC_BLOCK_SIZE * channel_count (feeding_params c)
       * bits_per_sample (feeding_params c) / 8).

Definition count_dropped (c : tA2DP_LHDC_ENCODER_CB) : tA2DP_LHDC_ENCODER_CB :=
  let s := stats c in
  set_stats
    (mkStats (media_read_total_expected_packets s)
             (media_read_total_expected_reads_count s)
             (media_read_total_expected_read_bytes s)
             (usize (media_read_total_dropped_packets s + 1))
             (media_read_total_actual_reads_count s)
             (media_read_total_actual_read_bytes s)) c.

Definition count_expected_packet (c : tA2DP_LHDC_ENCODER_CB)
  : tA2DP_LHDC_ENCODER_CB :=
  let s := stats c in
  set_stats
    (mkStats (usize (media_read_total_expected_packets s + 1))
             (media_read_total_expected_reads_count s)
             (media_read_total_expected_read_bytes s)
             (media_read_total_dropped_packets s)
             (media_read_total_actual_reads_count s)
             (media_read_total_actual_read_bytes s)) c.

(** [a2dp_lhdc_read_feeding], the same text as in the fragmenting file. *)
Definition a2dp_lhdc_read_feeding (m : machine) : option (list byte) * machine :=
  let read_size := enc_block_bytes (cb m) in
  let st := stats (cb m) in
  let '(data, w1) := read_callback (world m) read_size in
  let nb_byte_read := u32 (Z.of_nat (length data)) in
  let st1 :=
    mkStats (media_read_total_expected_packets st)
            (usize (media_read_total_expected_reads_count st + 1))
            (usize (media_read_total_expected_read_bytes st + read_size))
            (media_read_total_dropped_packets st)
            (media_read_total_actual_reads_count st)
            (usize (media_read_total_actual_read_bytes st + nb_byte_read)) in
  let counted (s : a2dp_lhdc_encoder_stats_t) :=
    mkStats (media_read_total_expected_packets s)
            (media_read_total_expected_reads_count s)
            (media_read_total_expected_read_bytes s)
            (media_read_total_dropped_packets s)
            (usize (media_read_total_actual_reads_count s + 1))
            (media_read_total_actual_read_bytes s) in
  let lg := log m ++ [EvRead read_size data] in
  if nb_byte_read <? read_size then
    if nb_byte_read =? 0 then
      (None, mkMachine (set_stats st1 (cb m)) w1 lg)
    else
      (Some (data ++ repeat Byte.x00 (Z.to_nat (read_size - nb_byte_read))),
       mkMachine (set_stats (counted st1) (cb m)) w1 lg)
  else
    (Some data, mkMachine (set_stats (counted st1) (cb m)) w1 lg).

(** The locals that the [do ... while ((written == 0) && nb_frame)] loop
    hands back. *)
Record pcm_state := mkPcmState {
  nb_frame_left : nat;
  count_ : Z;            (* uint32_t count *)
  written_ : Z;          (* int written *)
  p_buf_ : BT_HDR;
  machine_ : machine
}.

(** The [do ... while] loop, entered with [nb_frame > 0]. *)
Fixpoint pcm_loop (nb_frame : nat) (count0 written0 : Z) (p_buf : BT_HDR)
  (m : machine) : outcome pcm_state :=
  match nb_frame with
  | O => Done (mkPcmState O count0 written0 p_buf m)
  | S nb_frame' =>
      match a2dp_lhdc_read_feeding m with
      | (Some read_buffer, m1) =>
          if negb (lhdc_handle (cb m1)) then
            Halt InvalidHandle
                 (mkMachine (count_dropped (cb m1)) (world m1)
                            (log m1 ++ [EvFree p_buf]))
          else
            let '(r, w2) := lhdc_encode_func (world m1) read_buffer in
            let lg := log m1 ++ [EvEncode r] in
            if negb (result r =? 0) then
              Halt CodecFailure
                   (mkMachine (count_dropped (cb m1)) w2 (lg ++ [EvFree p_buf]))
            else
              let count1 := u32 (count0 + written r) in
              let p1 :=
                mkBuf (offset p_buf) (u16 (len p_buf + written r))
                      (u16 (layer_specific p_buf + out_frames r))
                      (media_timestamp p_buf)
                      (payload p_buf ++ firstn (Z.to_nat (written r)) (stream r)) in
              let m2 := mkMachine (cb m1) w2 lg in
              if (written r =? 0) && negb (Nat.eqb nb_frame' O) then
                pcm_loop nb_frame' count1 (written r) p1 m2
              else Done (mkPcmState nb_frame' count1 (written r) p1 m2)
      | (None, m1) =>
          let fp := feeding_params (cb m1) in
          let back :=
            Z.of_nat nb_frame * LHDCBT_ENC_BLOCK_SIZE * channel_count fp
            * bits_per_sample fp / 8 in
          let c := u32 (counter (lhdc_feeding_state (cb m1)) + back) in
          (* no more pcm to read: nb_frame = 0 ends the loop *)
          Done (mkPcmState O count0 written0 p_buf
                  (mkMachine (set_counter c (cb m1)) (world m1) (log m1)))
      end
  end.

(** The outer loop [while (nb_frame)]; every turn consumes a frame, so
    [nb_frame] turns are enough. *)
Fixpoint packets_loop (fuel : nat) (nb_frame : nat) (remain_nb_frame : Z)
  (written0 : Z) (m : machine) : outcome machine :=
  match nb_frame with
  | O => Done m
  | S _ =>
      match fuel with
      | O => Fault LoopFuel
      | S fuel' =>
          let p_buf := mkBuf A2DP_LHDC_OFFSET 0 0 None [] in
          let m0 := mkMachine (count_expected_packet (cb m)) (world m) (log m) in
          match pcm_loop nb_frame 0 written0 p_buf m0 with
          | Halt h m' => Halt h m'
          | Fault f => Fault f
          | Done st =>
              let p := p_buf_ st in
              let m1 := machine_ st in
              if negb (len p =? 0) then
                let lhdc_frame_size := 512 in
                let p1 := mkBuf (offset p) (len p) (layer_specific p)
                                (Some (timestamp (cb m1))) (payload p) in
                let c1 :=
                  set_timestamp
                    (u32 (timestamp (cb m1) + layer_specific p * lhdc_frame_size))
                    (cb m1) in
                let done_nb_frame :=
                  u8 (remain_nb_frame - Z.of_nat (nb_frame_left st)) in
                let '(accepted, w2) := enqueue_callback (world m1) p1 done_nb_frame in
                let m2 :=
                  mkMachine c1 w2 (log m1 ++ [EvEnqueue p1 done_nb_frame accepted]) in
                if negb accepted then Halt SinkBackpressure m2
                else packets_loop fuel' (nb_frame_left st)
                                  (Z.of_nat (nb_frame_left st)) (written_ st) m2
              else
                packets_loop fuel' (nb_frame_left st) remain_nb_frame (written_ st)
                  (mkMachine (cb m1) (world m1) (log m1 ++ [EvFree p]))
          end
      end
  end.

(** [a2dp_lhdc_encode_frames] *)
Definition a2dp_lhdc_encode_frames (nb_frame : Z) (m : machine)
  : outcome machine :=
  let nb_frame := u8 nb_frame in
  let remain_nb_frame := nb_frame in
  packets_loop (Z.to_nat nb_frame) (Z.to_nat nb_frame) remain_nb_frame 0 m.

Definition enqueued (l : list event) : list BT_HDR :=
  flat_map (fun e => match e with EvEnqueue p _ _ => [p] | _ => [] end) l.

End Model.

Arguments Done {P A} a.
Arguments Halt {P A} h m.
Arguments Fault {P A} f.

End Streaming.

(** ** Scripted surroundings, for concrete runs *)

Module Script.

(** A world that answers from scripts: the PCM blocks still to be
    delivered, the codec results still to be returned, the answers of the
    sink and of the allocator.  An exhausted script answers no PCM, no
    output, accepted, allocated. *)
Record script := mkScript {
  pcm : list (list byte);
  codec : list (Z * list byte);
  sink : list bool;
  heap : list bool
}.

Definition platform (block_size num_shift : Z) : Fragmenting.Platform := {|
  Fragmenting.World := script;
  Fragmenting.LHDCBT_ENC_BLOCK_SIZE := block_size;
  Fragmenting.A2DP_LHDC_HDR_NUM_SHIFT := num_shift;
  Fragmenting.AVDT_MEDIA_OFFSET := 23;
  Fragmenting.BTA_AV_CO_CP_SCMS_T := false;
  Fragmenting.osi_malloc w :=
    match heap w with
    | [] => (true, w)
    | b :: r => (b, mkScript (pcm w) (codec w) (sink w) r)
    end;
  Fragmenting.read_callback w _ :=
    match pcm w with
    | [] => ([], w)
    | d :: r => (d, mkScript r (codec w) (sink w) (heap w))
    end;
  Fragmenting.lhdc_encode_func w _ _ :=
    match codec w with
    | [] => (0, [], w)
    | (n, wb) :: r => (n, wb, mkScript (pcm w) r (sink w) (heap w))
    end;
  Fragmenting.enqueue_callback w _ _ :=
    match sink w with
    | [] => (true, w)
    | b :: r => (b, mkScript (pcm w) (codec w) r (heap w))
    end
|}.

(** Byte [n mod 256]. *)
Definition byte_of (n : nat) : byte :=
  match Stdlib.Strings.Byte.of_nat (n mod 256) with
  | Some b => b
  | None => Byte.x00
  end.

(** A buffer of [size] bytes counting up from [start]. *)
Definition ramp (start size : nat) : list byte := map byte_of (seq start size).

(** 96 kHz, 24 bit, stereo with the given [TxAaMtuSize]; latency index 1,
    sequence counter at 254. *)
Definition cb0 (mtu : Z) : tA2DP_LHDC_ENCODER_CB :=
  mkCb mtu 1000 true (mkFeedingParams 96000 24 2) 1
       (mkFeedingState 0 11520 0) (mkStats 0 0 0 0 0 0) 254.

(** The surroundings of the single-buffer variant, scripted likewise; an
    exhausted codec script answers success with nothing written. *)
Record script_s := mkScriptS {
  pcm_s : list (list byte);
  codec_s : list Streaming.encode_result;
  sink_s : list bool
}.

Definition platform_s (block_size : Z) : Streaming.Platform := {|
  Streaming.World := script_s;
  Streaming.LHDCBT_ENC_BLOCK_SIZE := block_size;
  Streaming.AVDT_MEDIA_OFFSET := 23;
  Streaming.BTA_AV_CO_CP_SCMS_T := false;
  Streaming.read_callback w _ :=
    match pcm_s w with
    | [] => ([], w)
    | d :: r => (d, mkScriptS r (codec_s w) (sink_s w))
    end;
  Streaming.lhdc_encode_func w _ :=
    match codec_s w with
    | [] => (Streaming.mkEncodeResult 0 0 [] 0 0, w)
    | x :: r => (x, mkScriptS (pcm_s w) r (sink_s w))
    end;
  Streaming.enqueue_callback w _ _ :=
    match sink_s w with
    | [] => (true, w)
    | b :: r => (b, mkScriptS (pcm_s w) (codec_s w) r)
    end
|}.

(** *** Ticks of the fragmenting packetizer (block size 512, count shift 2) *)

Definition machine_f : Type := @Fragmenting.machine (platform 512 2).

Definition start (mtu : Z) (w : script) : machine_f :=
  @Fragmenting.mkMachine (platform 512 2) (cb0 mtu) w [].

Definition finish (dflt : machine_f)
  (o : @Fragmenting.outcome (platform 512 2) machine_f) : machine_f :=
  match o with Fragmenting.Done m' => m' | _ => dflt end.

Definition tick (nb : Z) (m : machine_f) :=
  @Fragmenting.a2dp_lhdc_encode_frames (platform 512 2) nb m.

(** One frame of 1500 compressed bytes under a payload cap of 663. *)
Definition one_big_frame : machine_f :=
  start 664 (mkScript [ramp 0 3072] [(1500, ramp 7 3072)] [] []).

(** The same, the sink refusing the second packet. *)
Definition one_big_frame_refused : machine_f :=
  start 664 (mkScript [ramp 0 3072] [(1500, ramp 7 3072)] [true; false; true] []).

(** One frame of 400 compressed bytes. *)
Definition one_small_frame : machine_f :=
  start 664 (mkScript [ramp 0 3072] [(400, ramp 7 3072)] [] []).

(** Two frames due, PCM for one: the second read returns nothing. *)
Definition second_read_empty : machine_f :=
  start 664 (mkScript [ramp 0 3072] [(400, ramp 7 3072)] [] []).

(** Two frames due, no PCM at all. *)
Definition first_read_empty : machine_f :=
  start 664 (mkScript [] [] [] []).

(** A session whose previous tick was at 1 s and left 2304 bytes in the
    accumulator; PCM is plentiful and the codec returns 600 bytes per frame
    (900 kbit/s at 96 kHz), under a payload cap of 663. *)
Definition after_a_stall : machine_f :=
  @Fragmenting.mkMachine (platform 512 2)
    (mkCb 664 1000 true (mkFeedingParams 96000 24 2) 1
          (mkFeedingState 2304 11520 1000000) (mkStats 0 0 0 0 0 0) 254)
    (mkScript (repeat (ramp 0 3072) 19) (repeat (600, ramp 7 3072) 19) [] [])
    [].

(** A session of two ticks: one frame of 1500 bytes, then two of 400. *)
Definition two_ticks : machine_f :=
  start 664 (mkScript (repeat (ramp 0 3072) 3)
                      [(1500, ramp 7 3072); (400, ramp 1 3072); (400, ramp 2 3072)]
                      [] []).

(** A tick that comes late and is due 32 frames (64 frames), each of which
    compresses to 20 bytes: one packet (two packets) under a cap of 663. *)
Definition late_one_packet : machine_f :=
  start 664 (mkScript (repeat (ramp 0 3072) 32) (repeat (20, ramp 7 3072) 32) [] []).

Definition late_two_packets : machine_f :=
  start 664 (mkScript (repeat (ramp 0 3072) 64) (repeat (20, ramp 7 3072) 64) [] []).

(** One frame of 1500 compressed bytes, the latency index being 32. *)
Definition one_big_frame_latency_32 : machine_f :=
  @Fragmenting.mkMachine (platform 512 2)
    (mkCb 664 1000 true (mkFeedingParams 96000 24 2) 32
          (mkFeedingState 0 11520 0) (mkStats 0 0 0 0 0 0) 254)
    (mkScript [ramp 0 3072] [(1500, ramp 7 3072)] [] [])
    [].


(** The control block of a session whose previous tick was at 1 s and
    left nothing in the accumulator. *)
Definition cb_ticked_at_1s : tA2DP_LHDC_ENCODER_CB :=
  mkCb 664 1000 true (mkFeedingParams 96000 24 2) 1
       (mkFeedingState 0 11520 1000000) (mkStats 0 0 0 0 0 0) 254.

(** *** A steady world

    PCM is always there (every read is served in full), every frame
    compresses to [out_len] bytes, and neither the allocator nor the sink
    ever refuses. *)
Definition steady (block_size num_shift out_len : Z) : Fragmenting.Platform := {|
  Fragmenting.World := unit;
  Fragmenting.LHDCBT_ENC_BLOCK_SIZE := block_size;
  Fragmenting.A2DP_LHDC_HDR_NUM_SHIFT := num_shift;
  Fragmenting.AVDT_MEDIA_OFFSET := 23;
  Fragmenting.BTA_AV_CO_CP_SCMS_T := false;
  Fragmenting.osi_malloc w := (true, w);
  Fragmenting.read_callback w read_size := (ramp 0 (Z.to_nat read_size), w);
  Fragmenting.lhdc_encode_func w _ _ := (out_len, ramp 7 3072, w);
  Fragmenting.enqueue_callback w _ _ := (true, w)
|}.

(** A transmit MTU of one byte, all of it header; PCM for one of the two
    frames due, for which the codec returns nothing yet. *)
Definition mtu_of_one_byte : machine_f :=
  start 1 (mkScript [ramp 0 3072] [(0, ramp 7 3072)] [] []).

(** The PCM source has 100 bytes left. *)
Definition hundred_bytes_left : machine_f :=
  start 664 (mkScript [ramp 0 100] [(400, ramp 7 3072)] [] []).

(** The first tick of a session in a steady world, 600 compressed bytes
    to the frame. *)
Definition steady_start : @Fragmenting.machine (steady 512 2 600) :=
  @Fragmenting.mkMachine (steady 512 2 600) (cb0 664) tt [].

(** Length, fragment, start and end flags, sequence byte of a packet. *)
Definition view (p : BT_HDR) : Z * bool * bool * bool * Z :=
  (len p, hdr_fragment p, hdr_start p, hdr_end p, hdr_seq p).

(** *** A tick of the single-buffer packetizer *)

Definition machine_s : Type := @Streaming.machine (platform_s 512).

(** Two frames due; the codec encodes the first and fails on the second. *)
Definition second_encode_fails : machine_s :=
  @Streaming.mkMachine (platform_s 512) (cb0 664)
    (mkScriptS [ramp 0 3072; ramp 0 3072]
               [Streaming.mkEncodeResult 0 3072 (ramp 7 300) 300 1;
                Streaming.mkEncodeResult (-1) 0 [] 0 0]
               []) [].

(** Three frames due: the codec keeps the first to itself, then writes
    two frames in 500 bytes, then one frame in 200 bytes. *)
Definition two_packets : machine_s :=
  @Streaming.mkMachine (platform_s 512) (cb0 664)
    (mkScriptS (repeat (ramp 0 3072) 3)
               [Streaming.mkEncodeResult 0 3072 [] 0 0;
                Streaming.mkEncodeResult 0 3072 (ramp 7 500) 500 2;
                Streaming.mkEncodeResult 0 3072 (ramp 9 200) 200 1]
               []) [].

(** The same, the sink refusing the first packet. *)
Definition two_packets_refused : machine_s :=
  @Streaming.mkMachine (platform_s 512) (cb0 664)
    (mkScriptS (repeat (ramp 0 3072) 3)
               [Streaming.mkEncodeResult 0 3072 [] 0 0;
                Streaming.mkEncodeResult 0 3072 (ramp 7 500) 500 2;
                Streaming.mkEncodeResult 0 3072 (ramp 9 200) 200 1]
               [false]) [].

(** Three frames due, PCM for one: the second read comes back empty. *)
Definition pcm_runs_dry : machine_s :=
  @Streaming.mkMachine (platform_s 512) (cb0 664)
    (mkScriptS [ramp 0 3072]
               [Streaming.mkEncodeResult 0 3072 (ramp 7 300) 300 1]
               []) [].

(** The machine a tick of the single-buffer variant leaves. *)
Definition finish_s (o : @Streaming.outcome (platform_s 512) machine_s)
  (dflt : machine_s) : machine_s :=
  match o with
  | Streaming.Done m' | Streaming.Halt _ m' => m'
  | Streaming.Fault _ => dflt
  end.

Definition tick_s (nb : Z) (m : machine_s) :=
  @Streaming.a2dp_lhdc_encode_frames (platform_s 512) nb m.

End Script.

(** ** The codec information element ([stack/a2dp/a2dp_vendor_lhdc.cc]) *)

(** *** Bytes as numbers *)

(** The value of a [uint8_t] in memory, and the byte a [(uint8_t)]
    conversion stores. *)
Definition byte_to_Z (b : byte) : Z := Z.of_N (Stdlib.Strings.Byte.to_N b).

Definition Z_to_byte (x : Z) : byte :=
  match Stdlib.Strings.Byte.of_N (Z.to_N (u8 x)) with
  | Some b => b
  | None => Byte.x00
  end.

(** [p[i]] for a [const uint8_t* p] that points at the bytes [p]; [None]
    when the read is past the end of what [p] points at. *)
Definition byte_at (p : list byte) (i : nat) : option Z :=
  option_map byte_to_Z (nth_error p i).

(** Storing [bs] at [p[0]], [p[1]], ...; [None] when that runs past the
    end of what [p] points at. *)
Definition store_bytes (p : list byte) (bs : list byte) : option (list byte) :=
  if (length bs <=? length p)%nat then Some (bs ++ skipn (length bs) p) else None.

(** Sequencing of steps that can leave defined behaviour. *)
Definition and_then {A B : Type} (a : option A) (k : A -> option B) : option B :=
  match a with
  | Some x => k x
  | None => None
  end.

Declare Scope step_scope.
Delimit Scope step_scope with step.
Notation "'let?' x ':=' a 'in' k" :=
  (and_then a (fun x => k))
  (at level 10, x pattern, a at level 100, k at level 200) : step_scope.

Module CodecInfo.

(** [a2dp_vendor_lhdc_constants.h] *)
Definition A2DP_LHDC_CODEC_LEN : Z := 9.
Definition A2DP_LHDC_VENDOR_ID : Z := 0x0000053a.
Definition A2DP_LHDC_CODEC_ID : Z := 0x484C.
Definition A2DP_LHDC_SAMPLING_FREQ_MASK : Z := 0x07.
Definition A2DP_LHDC_SAMPLING_FREQ_44100 : Z := 0x04.
Definition A2DP_LHDC_SAMPLING_FREQ_48000 : Z := 0x02.
Definition A2DP_LHDC_SAMPLING_FREQ_96000 : Z := 0x01.
Definition A2DP_LHDC_BIT_FMT_MASK : Z := 0x18.
Definition A2DP_LHDC_BIT_FMT_24 : Z := 0x08.
Definition A2DP_LHDC_BIT_FMT_16 : Z := 0x10.
Definition A2DP_LHDC_CHANNEL_MODE_MASK : Z := 0x07.
Definition A2DP_LHDC_CHANNEL_MODE_MONO : Z := 0x04.
Definition A2DP_LHDC_CHANNEL_MODE_DUAL : Z := 0x02.
Definition A2DP_LHDC_CHANNEL_MODE_STEREO : Z := 0x01.

(** What the file takes from headers that are not part of these sources.
    [A2DP_LHDC_SAMPLING_FREQ_88200] is used by the file but is not among
    the constants of [a2dp_vendor_lhdc_constants.h]; the others come from
    the AVDTP and A2DP headers of the stack and from the Bluetooth HAL
    ([btav_a2dp_codec_*]).  [A2DP_BitsSet] is the stack's helper that
    classifies a bit mask. *)
Class Headers := {
  A2DP_LHDC_SAMPLING_FREQ_88200 : Z;
  AVDT_MEDIA_TYPE_AUDIO : Z;
  A2DP_MEDIA_CT_NON_A2DP : Z;
  A2DP_BitsSet : Z -> Z;
  A2DP_SET_ONE_BIT : Z;
  BTAV_A2DP_CODEC_BITS_PER_SAMPLE_NONE : Z;
  BTAV_A2DP_CODEC_BITS_PER_SAMPLE_16 : Z;
  BTAV_A2DP_CODEC_BITS_PER_SAMPLE_24 : Z;
  BTAV_A2DP_CODEC_BITS_PER_SAMPLE_32 : Z;
  BTAV_A2DP_CODEC_SAMPLE_RATE_NONE : Z;
  BTAV_A2DP_CODEC_SAMPLE_RATE_44100 : Z;
  BTAV_A2DP_CODEC_SAMPLE_RATE_48000 : Z;
  BTAV_A2DP_CODEC_SAMPLE_RATE_88200 : Z;
  BTAV_A2DP_CODEC_SAMPLE_RATE_96000 : Z;
  BTAV_A2DP_CODEC_SAMPLE_RATE_176400 : Z;
  BTAV_A2DP_CODEC_SAMPLE_RATE_192000 : Z;
  BTAV_A2DP_CODEC_CHANNEL_MODE_NONE : Z;
  BTAV_A2DP_CODEC_CHANNEL_MODE_MONO : Z;
  BTAV_A2DP_CODEC_CHANNEL_MODE_STEREO : Z
}.

(** The status codes the file returns.  They are distinct numbers in the
    stack's header; nothing here depends on which. *)
Inductive tA2DP_STATUS :=
| A2DP_SUCCESS
| A2DP_INVALID_PARAMS
| A2DP_WRONG_CODEC
| A2DP_BAD_SAMP_FREQ
| A2DP_BAD_CH_MODE
| A2DP_NS_SAMP_FREQ
| A2DP_NS_CH_MODE.

Definition is_success (s : tA2DP_STATUS) : bool :=
  match s with A2DP_SUCCESS => true | _ => false end.

(** The LHDC codec information element. *)
Record tA2DP_LHDC_CIE := mkCie {
  vendorId : Z;           (* uint32_t *)
  codecId : Z;            (* uint16_t *)
  sampleRate : Z;         (* uint8_t *)
  channelMode : Z;        (* uint8_t *)
  bits_per_sample : Z     (* btav_a2dp_codec_bits_per_sample_t *)
}.

(** A transport buffer together with the memory behind its header:
    [data] is what [(uint8_t* )(p_buf + 1)] points at, and the packet is the
    [len] bytes of it from [offset] on. *)
Record BT_HDR_memory := mkMemory {
  mem_offset : Z;            (* uint16_t offset *)
  mem_len : Z;               (* uint16_t len *)
  mem_layer_specific : Z;    (* uint16_t layer_specific *)
  data : list byte
}.

Definition packet (p_buf : BT_HDR_memory) : list byte :=
  firstn (Z.to_nat (mem_len p_buf)) (skipn (Z.to_nat (mem_offset p_buf)) (data p_buf)).

(** [p[i] = b] for [p] pointing at [mem]; [None] outside of it. *)
Definition store_at (mem : list byte) (i : Z) (b : byte) : option (list byte) :=
  if (0 <=? i) && (i <? Z.of_nat (length mem))
  then Some (firstn (Z.to_nat i) mem ++ b :: skipn (S (Z.to_nat i)) mem)
  else None.

(** [A2DP_VendorBuildCodecHeaderLhdc]: the buffer as the call leaves it
    (the call returns [true]); [None] when it stores outside the memory of
    the buffer. *)
Definition A2DP_VendorBuildCodecHeaderLhdc (p_buf : BT_HDR_memory)
  (frames_per_packet : Z) : option BT_HDR_memory :=
  let frames_per_packet := u16 frames_per_packet in
  let offset1 := u16 (mem_offset p_buf - A2DP_LHDC_MPL_HDR_LEN) in
  let len1 := u16 (mem_len p_buf + A2DP_LHDC_MPL_HDR_LEN) in
  and_then (store_at (data p_buf) offset1
                     (Z_to_byte (Z.land frames_per_packet 0xff)))
    (fun data1 =>
       and_then (store_at data1 (offset1 + 1)
                          (Z_to_byte (Z.land (Z.shiftr frames_per_packet 8) 0xff)))
         (fun data2 =>
            Some (mkMemory offset1 len1 (mem_layer_specific p_buf) data2))).

Section Model.
Context {H : Headers}.
Local Open Scope step_scope.

(** LHDC source codec capabilities, and the default configuration. *)
Definition a2dp_lhdc_caps : tA2DP_LHDC_CIE :=
  mkCie A2DP_LHDC_VENDOR_ID A2DP_LHDC_CODEC_ID
        (u8 (Z.lor (Z.lor (Z.lor A2DP_LHDC_SAMPLING_FREQ_44100
                                 A2DP_LHDC_SAMPLING_FREQ_48000)
                          A2DP_LHDC_SAMPLING_FREQ_88200)
                   A2DP_LHDC_SAMPLING_FREQ_96000))
        A2DP_LHDC_CHANNEL_MODE_STEREO
        (Z.lor BTAV_A2DP_CODEC_BITS_PER_SAMPLE_16 BTAV_A2DP_CODEC_BITS_PER_SAMPLE_24).

Definition a2dp_lhdc_default_config : tA2DP_LHDC_CIE :=
  mkCie A2DP_LHDC_VENDOR_ID A2DP_LHDC_CODEC_ID
        A2DP_LHDC_SAMPLING_FREQ_96000 A2DP_LHDC_CHANNEL_MODE_STEREO
        BTAV_A2DP_CODEC_BITS_PER_SAMPLE_24.

(** [A2DP_BuildInfoLhdc]: the ten bytes from the LOSC octet on are stored
    at [p_result] before [para] is looked at; the answer is the status and
    what [p_result] points at afterwards. *)
Definition A2DP_BuildInfoLhdc (media_type : Z) (p_ie : option tA2DP_LHDC_CIE)
  (p_result : option (list byte))
  : option (tA2DP_STATUS * option (list byte)) :=
  match p_ie, p_result with
  | Some ie, Some result =>
      let para0 := u8 (Z.land (sampleRate ie) A2DP_LHDC_SAMPLING_FREQ_MASK) in
      let para :=
        if bits_per_sample ie
           =? Z.lor BTAV_A2DP_CODEC_BITS_PER_SAMPLE_24 BTAV_A2DP_CODEC_BITS_PER_SAMPLE_16
        then u8 (Z.lor para0 (Z.lor A2DP_LHDC_BIT_FMT_24 A2DP_LHDC_BIT_FMT_16))
        else if bits_per_sample ie =? BTAV_A2DP_CODEC_BITS_PER_SAMPLE_24
        then u8 (Z.lor para0 A2DP_LHDC_BIT_FMT_24)
        else if bits_per_sample ie =? BTAV_A2DP_CODEC_BITS_PER_SAMPLE_16
        then u8 (Z.lor para0 A2DP_LHDC_BIT_FMT_16)
        else para0 in
      let? result1 :=
        store_bytes result
          [Z_to_byte A2DP_LHDC_CODEC_LEN;
           Z_to_byte (Z.shiftl (u8 media_type) 4);
           Z_to_byte A2DP_MEDIA_CT_NON_A2DP;
           Z_to_byte (Z.land (vendorId ie) 0x000000FF);
           Z_to_byte (Z.shiftr (Z.land (vendorId ie) 0x0000FF00) 8);
           Z_to_byte (Z.shiftr (Z.land (vendorId ie) 0x00FF0000) 16);
           Z_to_byte (Z.shiftr (Z.land (vendorId ie) 0xFF000000) 24);
           Z_to_byte (Z.land (codecId ie) 0x00FF);
           Z_to_byte (Z.shiftr (Z.land (codecId ie) 0xFF00) 8);
           Z_to_byte para] in
      if para =? 0 then Some (A2DP_INVALID_PARAMS, Some result1)
      else Some (A2DP_SUCCESS, Some result1)
  | _, _ => Some (A2DP_INVALID_PARAMS, p_result)
  end.

(** [A2DP_ParseInfoLhdc]: the answer is the status and what [p_ie] points
    at afterwards (the fields are stored as the parse goes, also when it
    then fails); [None] when a byte is read past the end of
    [p_codec_info].  The logging statements are left out. *)
Definition A2DP_ParseInfoLhdc (p_ie : option tA2DP_LHDC_CIE)
  (p_codec_info : option (list byte)) (is_capability : bool)
  : option (tA2DP_STATUS * option tA2DP_LHDC_CIE) :=
  match p_ie, p_codec_info with
  | Some ie, Some info =>
      let? losc := byte_at info 0 in
      if negb (losc =? A2DP_LHDC_CODEC_LEN) then Some (A2DP_WRONG_CODEC, Some ie)
      else
        let? b1 := byte_at info 1 in
        let media_type := Z.shiftr b1 4 in
        let? codec_type := byte_at info 2 in
        if negb (media_type =? AVDT_MEDIA_TYPE_AUDIO)
           || negb (codec_type =? A2DP_MEDIA_CT_NON_A2DP)
        then Some (A2DP_WRONG_CODEC, Some ie)
        else
          let? v0 := byte_at info 3 in
          let? v1 := byte_at info 4 in
          let? v2 := byte_at info 5 in
          let? v3 := byte_at info 6 in
          let vendor :=
            u32 (Z.lor (Z.lor (Z.lor (Z.land v0 0x000000FF)
                                     (Z.land (Z.shiftl v1 8) 0x0000FF00))
                              (Z.land (Z.shiftl v2 16) 0x00FF0000))
                       (Z.land (Z.shiftl v3 24) 0xFF000000)) in
          let? c0 := byte_at info 7 in
          let? c1 := byte_at info 8 in
          let codec :=
            u16 (Z.lor (Z.land c0 0x00FF) (Z.land (Z.shiftl c1 8) 0xFF00)) in
          let ie1 := mkCie vendor codec (sampleRate ie) (channelMode ie)
                           (bits_per_sample ie) in
          if negb (vendor =? A2DP_LHDC_VENDOR_ID)
             || negb (codec =? A2DP_LHDC_CODEC_ID)
          then Some (A2DP_WRONG_CODEC, Some ie1)
          else
            let? b9 := byte_at info 9 in
            let ie2 := mkCie vendor codec
                             (u8 (Z.land b9 A2DP_LHDC_SAMPLING_FREQ_MASK))
                             A2DP_LHDC_CHANNEL_MODE_STEREO
                             (bits_per_sample ie) in
            let fmt := Z.land b9 A2DP_LHDC_BIT_FMT_MASK in
            let parsed (bits : Z) :=
              let ie3 := mkCie vendor codec (sampleRate ie2) (channelMode ie2) bits in
              if is_capability then Some (A2DP_SUCCESS, Some ie3)
              else if negb (A2DP_BitsSet (sampleRate ie3) =? A2DP_SET_ONE_BIT)
              then Some (A2DP_BAD_SAMP_FREQ, Some ie3)
              else if negb (A2DP_BitsSet (channelMode ie3) =? A2DP_SET_ONE_BIT)
              then Some (A2DP_BAD_CH_MODE, Some ie3)
              else Some (A2DP_SUCCESS, Some ie3) in
            if fmt =? A2DP_LHDC_BIT_FMT_24
            then parsed BTAV_A2DP_CODEC_BITS_PER_SAMPLE_24
            else if fmt =? A2DP_LHDC_BIT_FMT_16
            then parsed BTAV_A2DP_CODEC_BITS_PER_SAMPLE_16
            else if fmt =? A2DP_LHDC_BIT_FMT_MASK
            then parsed (Z.lor BTAV_A2DP_CODEC_BITS_PER_SAMPLE_16
                               BTAV_A2DP_CODEC_BITS_PER_SAMPLE_24)
            else Some (A2DP_WRONG_CODEC, Some ie2)
  | _, _ => Some (A2DP_INVALID_PARAMS, p_ie)
  end.

(** The functions below parse into a local [tA2DP_LHDC_CIE] that the
    source leaves uninitialised; its first argument here is what that
    local happens to hold. *)

(** [A2DP_IsVendorSourceCodecValidLhdc]; the second parse is made only
    when the first failed. *)
Definition A2DP_IsVendorSourceCodecValidLhdc (cfg_cie : tA2DP_LHDC_CIE)
  (p_codec_info : option (list byte)) : option bool :=
  let? (status1, cfg_cie1) := A2DP_ParseInfoLhdc (Some cfg_cie) p_codec_info false in
  if is_success status1 then Some true
  else
    let? (status2, _) := A2DP_ParseInfoLhdc cfg_cie1 p_codec_info true in
    Some (is_success status2).

(** [A2DP_IsVendorPeerSinkCodecValidLhdc], the same text. *)
Definition A2DP_IsVendorPeerSinkCodecValidLhdc (cfg_cie : tA2DP_LHDC_CIE)
  (p_codec_info : option (list byte)) : option bool :=
  let? (status1, cfg_cie1) := A2DP_ParseInfoLhdc (Some cfg_cie) p_codec_info false in
  if is_success status1 then Some true
  else
    let? (status2, _) := A2DP_ParseInfoLhdc cfg_cie1 p_codec_info true in
    Some (is_success status2).

(** [A2DP_CodecInfoMatchesCapabilityLhdc] *)
Definition A2DP_CodecInfoMatchesCapabilityLhdc (cfg_cie : tA2DP_LHDC_CIE)
  (p_cap : tA2DP_LHDC_CIE) (p_codec_info : option (list byte))
  (is_capability : bool) : option tA2DP_STATUS :=
  match A2DP_ParseInfoLhdc (Some cfg_cie) p_codec_info is_capability with
  | Some (status, Some cfg_cie1) =>
      if negb (is_success status) then Some status
      else if Z.land (sampleRate cfg_cie1) (sampleRate p_cap) =? 0
      then Some A2DP_NS_SAMP_FREQ
      else if Z.land (bits_per_sample cfg_cie1) (bits_per_sample p_cap) =? 0
      then Some A2DP_NS_CH_MODE
      else Some A2DP_SUCCESS
  | _ => None
  end.

(** [A2DP_VendorCodecTypeEqualsLhdc] *)
Definition A2DP_VendorCodecTypeEqualsLhdc (lhdc_cie_a lhdc_cie_b : tA2DP_LHDC_CIE)
  (p_codec_info_a p_codec_info_b : option (list byte)) : option bool :=
  let? (status_a, _) := A2DP_ParseInfoLhdc (Some lhdc_cie_a) p_codec_info_a true in
  if negb (is_success status_a) then Some false
  else
    let? (status_b, _) := A2DP_ParseInfoLhdc (Some lhdc_cie_b) p_codec_info_b true in
    if negb (is_success status_b) then Some false
    else Some true.

(** [A2DP_VendorCodecEqualsLhdc] *)
Definition A2DP_VendorCodecEqualsLhdc (lhdc_cie_a lhdc_cie_b : tA2DP_LHDC_CIE)
  (p_codec_info_a p_codec_info_b : option (list byte)) : option bool :=
  match A2DP_ParseInfoLhdc (Some lhdc_cie_a) p_codec_info_a true with
  | Some (status_a, Some a) =>
      if negb (is_success status_a) then Some false
      else
        match A2DP_ParseInfoLhdc (Some lhdc_cie_b) p_codec_info_b true with
        | Some (status_b, Some b) =>
            if negb (is_success status_b) then Some false
            else Some ((sampleRate a =? sampleRate b)
                       && (bits_per_sample a =? bits_per_sample b))
        | _ => None
        end
  | _ => None
  end.

(** [A2DP_VendorGetTrackSampleRateLhdc] *)
Definition A2DP_VendorGetTrackSampleRateLhdc (lhdc_cie : tA2DP_LHDC_CIE)
  (p_codec_info : option (list byte)) : option Z :=
  match A2DP_ParseInfoLhdc (Some lhdc_cie) p_codec_info false with
  | Some (a2dp_status, Some cie) =>
      if negb (is_success a2dp_status) then Some (-1)
      else if sampleRate cie =? A2DP_LHDC_SAMPLING_FREQ_44100 then Some 44100
      else if sampleRate cie =? A2DP_LHDC_SAMPLING_FREQ_48000 then Some 48000
      else if sampleRate cie =? A2DP_LHDC_SAMPLING_FREQ_88200 then Some 88200
      else if sampleRate cie =? A2DP_LHDC_SAMPLING_FREQ_96000 then Some 96000
      else Some (-1)
  | _ => None
  end.

(** [A2DP_VendorGetTrackBitsPerSampleLhdc]; the [switch] is on the
    capabilities of the source, not on what was parsed. *)
Definition A2DP_VendorGetTrackBitsPerSampleLhdc (lhdc_cie : tA2DP_LHDC_CIE)
  (p_codec_info : option (list byte)) : option Z :=
  match A2DP_ParseInfoLhdc (Some lhdc_cie) p_codec_info false with
  | Some (a2dp_status, Some cie) =>
      if negb (is_success a2dp_status) then Some (-1)
      else if bits_per_sample a2dp_lhdc_caps =? BTAV_A2DP_CODEC_BITS_PER_SAMPLE_16
      then Some 16
      else if bits_per_sample a2dp_lhdc_caps =? BTAV_A2DP_CODEC_BITS_PER_SAMPLE_24
      then Some 24
      else Some (-1)
  | _ => None
  end.

(** [A2DP_VendorGetTrackChannelCountLhdc] *)
Definition A2DP_VendorGetTrackChannelCountLhdc (lhdc_cie : tA2DP_LHDC_CIE)
  (p_codec_info : option (list byte)) : option Z :=
  match A2DP_ParseInfoLhdc (Some lhdc_cie) p_codec_info false with
  | Some (a2dp_status, Some cie) =>
      if negb (is_success a2dp_status) then Some (-1)
      else if channelMode cie =? A2DP_LHDC_CHANNEL_MODE_STEREO then Some 2
      else Some (-1)
  | _ => None
  end.

(** [A2DP_VendorGetChannelModeCodeLhdc] *)
Definition A2DP_VendorGetChannelModeCodeLhdc (lhdc_cie : tA2DP_LHDC_CIE)
  (p_codec_info : option (list byte)) : option Z :=
  match A2DP_ParseInfoLhdc (Some lhdc_cie) p_codec_info false with
  | Some (a2dp_status, Some cie) =>
      if negb (is_success a2dp_status) then Some (-1)
      else if channelMode cie =? A2DP_LHDC_CHANNEL_MODE_STEREO
      then Some (channelMode cie)
      else Some (-1)
  | _ => None
  end.

(** [A2DP_VendorAdjustCodecLhdc] *)
Definition A2DP_VendorAdjustCodecLhdc (cfg_cie : tA2DP_LHDC_CIE)
  (p_codec_info : option (list byte)) : option bool :=
  let? (status, _) := A2DP_ParseInfoLhdc (Some cfg_cie) p_codec_info true in
  Some (is_success status).

(** [A2DP_VendorGetEncoderInterfaceLhdc]: [true] for the address of the
    encoder interface, [false] for NULL. *)
Definition A2DP_VendorGetEncoderInterfaceLhdc (cfg_cie : tA2DP_LHDC_CIE)
  (p_codec_info : option (list byte)) : option bool :=
  A2DP_IsVendorSourceCodecValidLhdc cfg_cie p_codec_info.

(** [A2DP_VendorInitCodecConfigLhdc], as far as [p_cfg->codec_info] goes:
    the answer and the codec information stored. *)
Definition A2DP_VendorInitCodecConfigLhdc (codec_info : list byte)
  : option (bool * list byte) :=
  match A2DP_BuildInfoLhdc AVDT_MEDIA_TYPE_AUDIO (Some a2dp_lhdc_caps)
                           (Some codec_info) with
  | Some (status, Some codec_info1) => Some (is_success status, codec_info1)
  | _ => None
  end.

End Model.

End CodecInfo.

(** ** Selecting a configuration ([A2dpCodecConfigLhdc::setCodecConfig]) *)

Module CodecConfig.

Import CodecInfo.

(** The fields of [btav_a2dp_codec_config_t] that the file reads or
    writes. *)
Record btav_a2dp_codec_config_t := mkConfig {
  sample_rate : Z;
  bits_per_sample : Z;
  channel_mode : Z;
  codec_specific_1 : Z;      (* int64_t *)
  codec_specific_2 : Z;
  codec_specific_3 : Z;
  codec_specific_4 : Z
}.

Definition set_sample_rate (v : Z) (c : btav_a2dp_codec_config_t) :=
  mkConfig v (bits_per_sample c) (channel_mode c) (codec_specific_1 c)
           (codec_specific_2 c) (codec_specific_3 c) (codec_specific_4 c).

Definition set_bits_per_sample (v : Z) (c : btav_a2dp_codec_config_t) :=
  mkConfig (sample_rate c) v (channel_mode c) (codec_specific_1 c)
           (codec_specific_2 c) (codec_specific_3 c) (codec_specific_4 c).

Definition set_channel_mode (v : Z) (c : btav_a2dp_codec_config_t) :=
  mkConfig (sample_rate c) (bits_per_sample c) v (codec_specific_1 c)
           (codec_specific_2 c) (codec_specific_3 c) (codec_specific_4 c).

(** The members of the codec configuration object that [setCodecConfig]
    saves, changes and restores. *)
Record A2dpCodecConfigLhdc := mkObject {
  codec_config_ : btav_a2dp_codec_config_t;
  codec_capability_ : btav_a2dp_codec_config_t;
  codec_selectable_capability_ : btav_a2dp_codec_config_t;
  codec_user_config_ : btav_a2dp_codec_config_t;
  codec_audio_config_ : btav_a2dp_codec_config_t;
  ota_codec_config_ : list byte;              (* uint8_t[AVDT_CODEC_SIZE] *)
  ota_codec_peer_capability_ : list byte;
  ota_codec_peer_config_ : list byte
}.

Definition set_codec_config (c : btav_a2dp_codec_config_t) (o : A2dpCodecConfigLhdc) :=
  mkObject c (codec_capability_ o) (codec_selectable_capability_ o)
           (codec_user_config_ o) (codec_audio_config_ o) (ota_codec_config_ o)
           (ota_codec_peer_capability_ o) (ota_codec_peer_config_ o).

Definition set_codec_capability (c : btav_a2dp_codec_config_t)
  (o : A2dpCodecConfigLhdc) :=
  mkObject (codec_config_ o) c (codec_selectable_capability_ o)
           (codec_user_config_ o) (codec_audio_config_ o) (ota_codec_config_ o)
           (ota_codec_peer_capability_ o) (ota_codec_peer_config_ o).

Definition set_codec_selectable_capability (c : btav_a2dp_codec_config_t)
  (o : A2dpCodecConfigLhdc) :=
  mkObject (codec_config_ o) (codec_capability_ o) c
           (codec_user_config_ o) (codec_audio_config_ o) (ota_codec_config_ o)
           (ota_codec_peer_capability_ o) (ota_codec_peer_config_ o).

Definition set_ota_codec_config (b : list byte) (o : A2dpCodecConfigLhdc) :=
  mkObject (codec_config_ o) (codec_capability_ o) (codec_selectable_capability_ o)
           (codec_user_config_ o) (codec_audio_config_ o) b
           (ota_codec_peer_capability_ o) (ota_codec_peer_config_ o).

Definition set_ota_codec_peer_capability (b : list byte) (o : A2dpCodecConfigLhdc) :=
  mkObject (codec_config_ o) (codec_capability_ o) (codec_selectable_capability_ o)
           (codec_user_config_ o) (codec_audio_config_ o) (ota_codec_config_ o)
           b (ota_codec_peer_config_ o).

Definition set_ota_codec_peer_config (b : list byte) (o : A2dpCodecConfigLhdc) :=
  mkObject (codec_config_ o) (codec_capability_ o) (codec_selectable_capability_ o)
           (codec_user_config_ o) (codec_audio_config_ o) (ota_codec_config_ o)
           (ota_codec_peer_capability_ o) b.

(** How a call of [setCodecConfig] ends: it returns, with the object and
    [p_result_codec_config] as it leaves them; a [CHECK] fails; or a codec
    information is read or written past its end. *)
Inductive outcome :=
| Returned (result : bool) (object : A2dpCodecConfigLhdc)
           (p_result_codec_config : list byte)
| CheckFailed
| OutOfBounds.

Section Model.
Context {H : CodecInfo.Headers}.

(** The truth value of [x & mask]. *)
Definition flag (x mask : Z) : bool := negb (Z.land x mask =? 0).

Definition set_sampleRate (v : Z) (ie : tA2DP_LHDC_CIE) :=
  mkCie (vendorId ie) (codecId ie) v (channelMode ie) (CodecInfo.bits_per_sample ie).

Definition set_channelMode (v : Z) (ie : tA2DP_LHDC_CIE) :=
  mkCie (vendorId ie) (codecId ie) (sampleRate ie) v (CodecInfo.bits_per_sample ie).

Definition set_bits (v : Z) (ie : tA2DP_LHDC_CIE) :=
  mkCie (vendorId ie) (codecId ie) (sampleRate ie) (channelMode ie) v.

(** The selectors answer [(returned, *p_result, *p_codec_config)]; a
    [switch] is a chain of tests in the order of its [case] labels. *)

(** [select_best_sample_rate] *)
Definition select_best_sample_rate (sampleRate : Z) (p_result : tA2DP_LHDC_CIE)
  (p_codec_config : btav_a2dp_codec_config_t)
  : bool * tA2DP_LHDC_CIE * btav_a2dp_codec_config_t :=
  if flag sampleRate A2DP_LHDC_SAMPLING_FREQ_96000 then
    (true, set_sampleRate A2DP_LHDC_SAMPLING_FREQ_96000 p_result,
     set_sample_rate BTAV_A2DP_CODEC_SAMPLE_RATE_96000 p_codec_config)
  else if flag sampleRate A2DP_LHDC_SAMPLING_FREQ_88200 then
    (true, set_sampleRate A2DP_LHDC_SAMPLING_FREQ_88200 p_result,
     set_sample_rate BTAV_A2DP_CODEC_SAMPLE_RATE_88200 p_codec_config)
  else if flag sampleRate A2DP_LHDC_SAMPLING_FREQ_48000 then
    (true, set_sampleRate A2DP_LHDC_SAMPLING_FREQ_48000 p_result,
     set_sample_rate BTAV_A2DP_CODEC_SAMPLE_RATE_48000 p_codec_config)
  else if flag sampleRate A2DP_LHDC_SAMPLING_FREQ_44100 then
    (true, set_sampleRate A2DP_LHDC_SAMPLING_FREQ_44100 p_result,
     set_sample_rate BTAV_A2DP_CODEC_SAMPLE_RATE_44100 p_codec_config)
  else (false, p_result, p_codec_config).

(** [select_audio_sample_rate] *)
Definition select_audio_sample_rate (p_codec_audio_config : btav_a2dp_codec_config_t)
  (sampleRate : Z) (p_result : tA2DP_LHDC_CIE)
  (p_codec_config : btav_a2dp_codec_config_t)
  : bool * tA2DP_LHDC_CIE * btav_a2dp_codec_config_t :=
  let audio := sample_rate p_codec_audio_config in
  let pick (freq rate : Z) :=
    if flag sampleRate freq
    then (true, set_sampleRate freq p_result, set_sample_rate rate p_codec_config)
    else (false, p_result, p_codec_config) in
  if audio =? BTAV_A2DP_CODEC_SAMPLE_RATE_44100
  then pick A2DP_LHDC_SAMPLING_FREQ_44100 BTAV_A2DP_CODEC_SAMPLE_RATE_44100
  else if audio =? BTAV_A2DP_CODEC_SAMPLE_RATE_48000
  then pick A2DP_LHDC_SAMPLING_FREQ_48000 BTAV_A2DP_CODEC_SAMPLE_RATE_48000
  else if audio =? BTAV_A2DP_CODEC_SAMPLE_RATE_88200
  then pick A2DP_LHDC_SAMPLING_FREQ_88200 BTAV_A2DP_CODEC_SAMPLE_RATE_88200
  else if audio =? BTAV_A2DP_CODEC_SAMPLE_RATE_96000
  then pick A2DP_LHDC_SAMPLING_FREQ_96000 BTAV_A2DP_CODEC_SAMPLE_RATE_96000
  else (false, p_result, p_codec_config).

(** [select_best_bits_per_sample] *)
Definition select_best_bits_per_sample (bits : Z) (p_result : tA2DP_LHDC_CIE)
  (p_codec_config : btav_a2dp_codec_config_t)
  : bool * tA2DP_LHDC_CIE * btav_a2dp_codec_config_t :=
  if flag bits BTAV_A2DP_CODEC_BITS_PER_SAMPLE_24 then
    (true, set_bits BTAV_A2DP_CODEC_BITS_PER_SAMPLE_24 p_result,
     set_bits_per_sample BTAV_A2DP_CODEC_BITS_PER_SAMPLE_24 p_codec_config)
  else if flag bits BTAV_A2DP_CODEC_BITS_PER_SAMPLE_16 then
    (true, set_bits BTAV_A2DP_CODEC_BITS_PER_SAMPLE_16 p_result,
     set_bits_per_sample BTAV_A2DP_CODEC_BITS_PER_SAMPLE_16 p_codec_config)
  else (false, p_result, p_codec_config).

(** [select_audio_bits_per_sample] *)
Definition select_audio_bits_per_sample
  (p_codec_audio_config : btav_a2dp_codec_config_t) (bits : Z)
  (p_result : tA2DP_LHDC_CIE) (p_codec_config : btav_a2dp_codec_config_t)
  : bool * tA2DP_LHDC_CIE * btav_a2dp_codec_config_t :=
  let audio := bits_per_sample p_codec_audio_config in
  let pick (fmt : Z) :=
    if flag bits fmt
    then (true, set_bits fmt p_result, set_bits_per_sample fmt p_codec_config)
    else (false, p_result, p_codec_config) in
  if audio =? BTAV_A2DP_CODEC_BITS_PER_SAMPLE_16
  then pick BTAV_A2DP_CODEC_BITS_PER_SAMPLE_16
  else if audio =? BTAV_A2DP_CODEC_BITS_PER_SAMPLE_24
  then pick BTAV_A2DP_CODEC_BITS_PER_SAMPLE_24
  else (false, p_result, p_codec_config).

(** [select_best_channel_mode] *)
Definition select_best_channel_mode (channelMode : Z) (p_result : tA2DP_LHDC_CIE)
  (p_codec_config : btav_a2dp_codec_config_t)
  : bool * tA2DP_LHDC_CIE * btav_a2dp_codec_config_t :=
  if flag channelMode A2DP_LHDC_CHANNEL_MODE_STEREO then
    (true, set_channelMode A2DP_LHDC_CHANNEL_MODE_STEREO p_result,
     set_channel_mode BTAV_A2DP_CODEC_CHANNEL_MODE_STEREO p_codec_config)
  else (false, p_result, p_codec_config).

(** [select_audio_channel_mode]; the [case] of stereo falls through to
    the [break] of the others. *)
Definition select_audio_channel_mode
  (p_codec_audio_config : btav_a2dp_codec_config_t) (channelMode : Z)
  (p_result : tA2DP_LHDC_CIE) (p_codec_config : btav_a2dp_codec_config_t)
  : bool * tA2DP_LHDC_CIE * btav_a2dp_codec_config_t :=
  if (channel_mode p_codec_audio_config =? BTAV_A2DP_CODEC_CHANNEL_MODE_STEREO)
     && flag channelMode A2DP_LHDC_CHANNEL_MODE_STEREO
  then (true, set_channelMode A2DP_LHDC_CHANNEL_MODE_STEREO p_result,
        set_channel_mode BTAV_A2DP_CODEC_CHANNEL_MODE_STEREO p_codec_config)
  else (false, p_result, p_codec_config).

(** [sample_rate |= ...] for each rate that [sampleRate] holds. *)
Definition rates_of (sampleRate : Z) (rates : Z) : Z :=
  let r1 := if flag sampleRate A2DP_LHDC_SAMPLING_FREQ_44100
            then Z.lor rates BTAV_A2DP_CODEC_SAMPLE_RATE_44100 else rates in
  let r2 := if flag sampleRate A2DP_LHDC_SAMPLING_FREQ_48000
            then Z.lor r1 BTAV_A2DP_CODEC_SAMPLE_RATE_48000 else r1 in
  let r3 := if flag sampleRate A2DP_LHDC_SAMPLING_FREQ_88200
            then Z.lor r2 BTAV_A2DP_CODEC_SAMPLE_RATE_88200 else r2 in
  if flag sampleRate A2DP_LHDC_SAMPLING_FREQ_96000
  then Z.lor r3 BTAV_A2DP_CODEC_SAMPLE_RATE_96000 else r3.

(** The part of [setCodecConfig] under "Select the sample frequency", up
    to the test that sends it to [fail]: the object and
    [result_config_cie] as it leaves them. *)
Definition select_sample_frequency (sink_info_cie result_config_cie : tA2DP_LHDC_CIE)
  (o : A2dpCodecConfigLhdc) : A2dpCodecConfigLhdc * tA2DP_LHDC_CIE :=
  let sampleRate :=
    u8 (Z.land (CodecInfo.sampleRate a2dp_lhdc_caps) (CodecInfo.sampleRate sink_info_cie)) in
  let o := set_codec_config
             (set_sample_rate BTAV_A2DP_CODEC_SAMPLE_RATE_NONE (codec_config_ o)) o in
  let user := sample_rate (codec_user_config_ o) in
  let take (freq : Z) :=
    if flag sampleRate freq
    then (set_codec_config (set_sample_rate user (codec_config_ o))
            (set_codec_capability (set_sample_rate user (codec_capability_ o)) o),
          set_sampleRate freq result_config_cie)
    else (o, result_config_cie) in
  let '(o, result_config_cie) :=
    if user =? BTAV_A2DP_CODEC_SAMPLE_RATE_44100 then take A2DP_LHDC_SAMPLING_FREQ_44100
    else if user =? BTAV_A2DP_CODEC_SAMPLE_RATE_48000
    then take A2DP_LHDC_SAMPLING_FREQ_48000
    else if user =? BTAV_A2DP_CODEC_SAMPLE_RATE_88200
    then take A2DP_LHDC_SAMPLING_FREQ_88200
    else if user =? BTAV_A2DP_CODEC_SAMPLE_RATE_96000
    then take A2DP_LHDC_SAMPLING_FREQ_96000
    else if (user =? BTAV_A2DP_CODEC_SAMPLE_RATE_176400)
            || (user =? BTAV_A2DP_CODEC_SAMPLE_RATE_192000)
            || (user =? BTAV_A2DP_CODEC_SAMPLE_RATE_NONE)
    then (set_codec_config
            (set_sample_rate BTAV_A2DP_CODEC_SAMPLE_RATE_NONE (codec_config_ o))
            (set_codec_capability
               (set_sample_rate BTAV_A2DP_CODEC_SAMPLE_RATE_NONE (codec_capability_ o))
               o),
          result_config_cie)
    else (o, result_config_cie) in
  (* do { ... } while (false) *)
  let o := set_codec_selectable_capability
             (set_sample_rate
                (rates_of sampleRate (sample_rate (codec_selectable_capability_ o)))
                (codec_selectable_capability_ o)) o in
  if negb (sample_rate (codec_config_ o) =? BTAV_A2DP_CODEC_SAMPLE_RATE_NONE)
  then (o, result_config_cie)
  else
    let o := set_codec_capability
               (set_sample_rate
                  (rates_of sampleRate (sample_rate (codec_capability_ o)))
                  (codec_capability_ o)) o in
    let '(found, r1, c1) :=
      select_audio_sample_rate (codec_audio_config_ o) sampleRate result_config_cie
                               (codec_config_ o) in
    if found then (set_codec_config c1 o, r1)
    else
      let '(found, r2, c2) :=
        select_best_sample_rate
          (u8 (Z.land (CodecInfo.sampleRate a2dp_lhdc_default_config)
                      (CodecInfo.sampleRate sink_info_cie))) r1 c1 in
      if found then (set_codec_config c2 o, r2)
      else
        let '(_, r3, c3) := select_best_sample_rate sampleRate r2 c2 in
        (set_codec_config c3 o, r3).

(** The part under "Select the bits per sample". *)
Definition select_bits_per_sample (sink_info_cie result_config_cie : tA2DP_LHDC_CIE)
  (o : A2dpCodecConfigLhdc) : A2dpCodecConfigLhdc * tA2DP_LHDC_CIE :=
  let bits := Z.land (CodecInfo.bits_per_sample a2dp_lhdc_caps)
                     (CodecInfo.bits_per_sample sink_info_cie) in
  let o := set_codec_config
             (set_bits_per_sample BTAV_A2DP_CODEC_BITS_PER_SAMPLE_NONE (codec_config_ o))
             o in
  let user := bits_per_sample (codec_user_config_ o) in
  let take (fmt : Z) :=
    if flag bits fmt
    then (set_codec_config (set_bits_per_sample user (codec_config_ o))
            (set_codec_capability (set_bits_per_sample user (codec_capability_ o)) o),
          set_bits user result_config_cie)
    else (o, result_config_cie) in
  let '(o, result_config_cie) :=
    if user =? BTAV_A2DP_CODEC_BITS_PER_SAMPLE_16
    then take BTAV_A2DP_CODEC_BITS_PER_SAMPLE_16
    else if user =? BTAV_A2DP_CODEC_BITS_PER_SAMPLE_24
    then take BTAV_A2DP_CODEC_BITS_PER_SAMPLE_24
    else if (user =? BTAV_A2DP_CODEC_BITS_PER_SAMPLE_32)
            || (user =? BTAV_A2DP_CODEC_BITS_PER_SAMPLE_NONE)
    then (set_codec_config
            (set_bits_per_sample BTAV_A2DP_CODEC_BITS_PER_SAMPLE_NONE (codec_config_ o))
            (set_codec_capability
               (set_bits_per_sample BTAV_A2DP_CODEC_BITS_PER_SAMPLE_NONE
                                    (codec_capability_ o)) o),
          set_bits BTAV_A2DP_CODEC_BITS_PER_SAMPLE_NONE result_config_cie)
    else (o, result_config_cie) in
  (* do { ... } while (false) *)
  let o := set_codec_selectable_capability
             (set_bits_per_sample (CodecInfo.bits_per_sample a2dp_lhdc_caps)
                                  (codec_selectable_capability_ o)) o in
  if negb (bits_per_sample (codec_config_ o) =? BTAV_A2DP_CODEC_BITS_PER_SAMPLE_NONE)
  then (o, result_config_cie)
  else
    let o := set_codec_capability (set_bits_per_sample bits (codec_capability_ o)) o in
    let '(found, r1, c1) :=
      select_audio_bits_per_sample (codec_audio_config_ o)
        (CodecInfo.bits_per_sample a2dp_lhdc_caps) result_config_cie (codec_config_ o) in
    if found then (set_codec_config c1 o, r1)
    else
      let '(found, r2, c2) :=
        select_best_bits_per_sample
          (CodecInfo.bits_per_sample a2dp_lhdc_default_config) r1 c1 in
      if found then (set_codec_config c2 o, r2)
      else
        let '(_, r3, c3) :=
          select_best_bits_per_sample (CodecInfo.bits_per_sample a2dp_lhdc_caps)
                                      r2 c2 in
        (set_codec_config c3 o, r3).

(** The part under "Select the channel mode". *)
Definition select_channel_mode (sink_info_cie result_config_cie : tA2DP_LHDC_CIE)
  (o : A2dpCodecConfigLhdc) : A2dpCodecConfigLhdc * tA2DP_LHDC_CIE :=
  let channelMode :=
    u8 (Z.land (CodecInfo.channelMode a2dp_lhdc_caps) (CodecInfo.channelMode sink_info_cie)) in
  let o := set_codec_config
             (set_channel_mode BTAV_A2DP_CODEC_CHANNEL_MODE_NONE (codec_config_ o)) o in
  let user := channel_mode (codec_user_config_ o) in
  let '(o, result_config_cie) :=
    if user =? BTAV_A2DP_CODEC_CHANNEL_MODE_STEREO then
      if flag channelMode A2DP_LHDC_CHANNEL_MODE_STEREO
      then (set_codec_config (set_channel_mode user (codec_config_ o))
              (set_codec_capability (set_channel_mode user (codec_capability_ o)) o),
            set_channelMode A2DP_LHDC_CHANNEL_MODE_STEREO result_config_cie)
      else (o, result_config_cie)
    else if (user =? BTAV_A2DP_CODEC_CHANNEL_MODE_MONO)
            || (user =? BTAV_A2DP_CODEC_CHANNEL_MODE_NONE)
    then (set_codec_config
            (set_channel_mode BTAV_A2DP_CODEC_CHANNEL_MODE_NONE (codec_config_ o))
            (set_codec_capability
               (set_channel_mode BTAV_A2DP_CODEC_CHANNEL_MODE_NONE (codec_capability_ o))
               o),
          result_config_cie)
    else (o, result_config_cie) in
  (* do { ... } while (false) *)
  let o :=
    if flag channelMode A2DP_LHDC_CHANNEL_MODE_STEREO
    then set_codec_selectable_capability
           (set_channel_mode
              (Z.lor (channel_mode (codec_selectable_capability_ o))
                     BTAV_A2DP_CODEC_CHANNEL_MODE_STEREO)
              (codec_selectable_capability_ o)) o
    else o in
  if negb (channel_mode (codec_config_ o) =? BTAV_A2DP_CODEC_CHANNEL_MODE_NONE)
  then (o, result_config_cie)
  else
    let o :=
      if flag channelMode A2DP_LHDC_CHANNEL_MODE_MONO
      then set_codec_capability
             (set_channel_mode
                (Z.lor (channel_mode (codec_capability_ o))
                       BTAV_A2DP_CODEC_CHANNEL_MODE_MONO)
                (codec_capability_ o)) o
      else o in
    let o :=
      if flag channelMode
              (Z.lor A2DP_LHDC_CHANNEL_MODE_STEREO A2DP_LHDC_CHANNEL_MODE_DUAL)
      then set_codec_capability
             (set_channel_mode
                (Z.lor (channel_mode (codec_capability_ o))
                       BTAV_A2DP_CODEC_CHANNEL_MODE_STEREO)
                (codec_capability_ o)) o
      else o in
    let '(found, r1, c1) :=
      select_audio_channel_mode (codec_audio_config_ o) channelMode result_config_cie
                                (codec_config_ o) in
    if found then (set_codec_config c1 o, r1)
    else
      let '(found, r2, c2) :=
        select_best_channel_mode
          (u8 (Z.land (CodecInfo.channelMode a2dp_lhdc_default_config)
                      (CodecInfo.channelMode sink_info_cie))) r1 c1 in
      if found then (set_codec_config c2 o, r2)
      else
        let '(_, r3, c3) := select_best_channel_mode channelMode r2 c2 in
        (set_codec_config c3 o, r3).

(** "Copy the codec-specific fields if they are not zero" *)
Definition copy_codec_specific (o : A2dpCodecConfigLhdc) : A2dpCodecConfigLhdc :=
  let user := codec_user_config_ o in
  let c := codec_config_ o in
  set_codec_config
    (mkConfig (sample_rate c) (bits_per_sample c) (channel_mode c)
       (if negb (codec_specific_1 user =? 0)
        then codec_specific_1 user else codec_specific_1 c)
       (if negb (codec_specific_2 user =? 0)
        then codec_specific_2 user else codec_specific_2 c)
       (if negb (codec_specific_3 user =? 0)
        then codec_specific_3 user else codec_specific_3 c)
       (if negb (codec_specific_4 user =? 0)
        then codec_specific_4 user else codec_specific_4 c)) o.

(** [A2dpCodecConfigLhdc::setCodecConfig].  [saved] is the object at entry,
    which every [goto fail] restores; [sink_info_cie] is what the
    uninitialised local of that name holds. *)
Definition setCodecConfig (sink_info_cie : tA2DP_LHDC_CIE)
  (saved : A2dpCodecConfigLhdc) (p_peer_codec_info : list byte)
  (is_capability : bool) (p_result_codec_config : list byte) : outcome :=
  let fail (p_result : list byte) := Returned false saved p_result in
  match A2DP_ParseInfoLhdc (Some sink_info_cie) (Some p_peer_codec_info)
                           is_capability with
  | Some (status, Some sink_info_cie) =>
      if negb (is_success status) then fail p_result_codec_config
      else
        (* memset(&result_config_cie, 0, sizeof(result_config_cie)) *)
        let result_config_cie :=
          mkCie (vendorId a2dp_lhdc_caps) (codecId a2dp_lhdc_caps) 0 0 0 in
        let '(o, result_config_cie) :=
          select_sample_frequency sink_info_cie result_config_cie saved in
        if sample_rate (codec_config_ o) =? BTAV_A2DP_CODEC_SAMPLE_RATE_NONE
        then fail p_result_codec_config
        else
          let '(o, result_config_cie) :=
            select_bits_per_sample sink_info_cie result_config_cie o in
          if bits_per_sample (codec_config_ o) =? BTAV_A2DP_CODEC_BITS_PER_SAMPLE_NONE
          then fail p_result_codec_config
          else
            let '(o, result_config_cie) :=
              select_channel_mode sink_info_cie result_config_cie o in
            if channel_mode (codec_config_ o) =? BTAV_A2DP_CODEC_CHANNEL_MODE_NONE
            then fail p_result_codec_config
            else
              match A2DP_BuildInfoLhdc AVDT_MEDIA_TYPE_AUDIO (Some result_config_cie)
                                       (Some p_result_codec_config) with
              | Some (status, Some p_result) =>
                  if negb (is_success status) then fail p_result
                  else
                    let o := copy_codec_specific o in
                    let peer :=
                      if is_capability then ota_codec_peer_capability_ o
                      else ota_codec_peer_config_ o in
                    match A2DP_BuildInfoLhdc AVDT_MEDIA_TYPE_AUDIO
                                             (Some sink_info_cie) (Some peer) with
                    | Some (status, Some peer1) =>
                        if negb (is_success status) then CheckFailed
                        else
                          let o :=
                            if is_capability then set_ota_codec_peer_capability peer1 o
                            else set_ota_codec_peer_config peer1 o in
                          match A2DP_BuildInfoLhdc AVDT_MEDIA_TYPE_AUDIO
                                  (Some result_config_cie)
                                  (Some (ota_codec_config_ o)) with
                          | Some (status, Some ota1) =>
                              if negb (is_success status) then CheckFailed
                              else Returned true (set_ota_codec_config ota1 o) p_result
                          | _ => OutOfBounds
                          end
                    | _ => OutOfBounds
                    end
              | _ => OutOfBounds
              end
  | _ => OutOfBounds
  end.

End Model.

End CodecConfig.

(** *** Sample values *)

Module Samples.

(** A classification of bit masks: 0 for none set, 1 for one, 2 for more. *)
Definition bits_set (num : Z) : Z :=
  if num =? 0 then 0 else if Z.land num (num - 1) =? 0 then 1 else 2.

(** Values for the constants the sources do not define: audio media type
    0, non-A2DP codec type 0xFF, one bit per PCM format, sample rate and
    channel mode of the framework, and for 88.2 kHz a bit that lies
    outside the sampling-frequency mask. *)
Definition headers : CodecInfo.Headers := {|
  CodecInfo.A2DP_LHDC_SAMPLING_FREQ_88200 := 0x08;
  CodecInfo.AVDT_MEDIA_TYPE_AUDIO := 0;
  CodecInfo.A2DP_MEDIA_CT_NON_A2DP := 0xFF;
  CodecInfo.A2DP_BitsSet := bits_set;
  CodecInfo.A2DP_SET_ONE_BIT := 1;
  CodecInfo.BTAV_A2DP_CODEC_BITS_PER_SAMPLE_NONE := 0;
  CodecInfo.BTAV_A2DP_CODEC_BITS_PER_SAMPLE_16 := 1;
  CodecInfo.BTAV_A2DP_CODEC_BITS_PER_SAMPLE_24 := 2;
  CodecInfo.BTAV_A2DP_CODEC_BITS_PER_SAMPLE_32 := 4;
  CodecInfo.BTAV_A2DP_CODEC_SAMPLE_RATE_NONE := 0;
  CodecInfo.BTAV_A2DP_CODEC_SAMPLE_RATE_44100 := 1;
  CodecInfo.BTAV_A2DP_CODEC_SAMPLE_RATE_48000 := 2;
  CodecInfo.BTAV_A2DP_CODEC_SAMPLE_RATE_88200 := 4;
  CodecInfo.BTAV_A2DP_CODEC_SAMPLE_RATE_96000 := 8;
  CodecInfo.BTAV_A2DP_CODEC_SAMPLE_RATE_176400 := 16;
  CodecInfo.BTAV_A2DP_CODEC_SAMPLE_RATE_192000 := 32;
  CodecInfo.BTAV_A2DP_CODEC_CHANNEL_MODE_NONE := 0;
  CodecInfo.BTAV_A2DP_CODEC_CHANNEL_MODE_MONO := 1;
  CodecInfo.BTAV_A2DP_CODEC_CHANNEL_MODE_STEREO := 2
|}.

(** A codec information buffer of twenty bytes, cleared. *)
Definition blank : list byte := repeat Byte.x00 20.

(** 96 kHz, 24 bit. *)
Definition cie_96k_24 : CodecInfo.tA2DP_LHDC_CIE :=
  CodecInfo.mkCie CodecInfo.A2DP_LHDC_VENDOR_ID CodecInfo.A2DP_LHDC_CODEC_ID
                  CodecInfo.A2DP_LHDC_SAMPLING_FREQ_96000
                  CodecInfo.A2DP_LHDC_CHANNEL_MODE_STEREO 2.

(** Its configuration on the air, and the capability of a sink that
    offers 44.1 and 48 kHz at 16 bit. *)
Definition info_96k_24 : list byte :=
  [Byte.x09; Byte.x00; Byte.xff; Byte.x3a; Byte.x05; Byte.x00; Byte.x00;
   Byte.x4c; Byte.x48; Byte.x09] ++ repeat Byte.x00 10.

Definition info_sink_44k_48k_16 : list byte :=
  [Byte.x09; Byte.x00; Byte.xff; Byte.x3a; Byte.x05; Byte.x00; Byte.x00;
   Byte.x4c; Byte.x48; Byte.x16] ++ repeat Byte.x00 10.

(** A buffer as the packetizer leaves it: 24 bytes in front, then a
    payload of five bytes, then room to spare. *)
Definition buffer_of_five : CodecInfo.BT_HDR_memory :=
  CodecInfo.mkMemory 24 5 0xfe05
    (repeat Byte.x00 24 ++ [Byte.x11; Byte.x22; Byte.x33; Byte.x44; Byte.x55]
     ++ repeat Byte.x00 8).

(** What an uninitialised element may hold. *)
Definition junk : CodecInfo.tA2DP_LHDC_CIE := CodecInfo.mkCie 7 7 7 7 7.

(** A configuration that names no sample rate, format or channel mode, and
    a codec configuration object before the first negotiation. *)
Definition no_preference : CodecConfig.btav_a2dp_codec_config_t :=
  CodecConfig.mkConfig 0 0 0 0 0 0 0.

Definition fresh_object : CodecConfig.A2dpCodecConfigLhdc :=
  CodecConfig.mkObject no_preference no_preference no_preference no_preference
                       no_preference blank blank blank.

(** The user asks for 44.1 kHz at 16 bit. *)
Definition asks_44k_16 : CodecConfig.A2dpCodecConfigLhdc :=
  CodecConfig.mkObject no_preference no_preference no_preference
                       (CodecConfig.mkConfig 1 1 0 0 0 0 0)
                       no_preference blank blank blank.

End Samples.

(** ** Vocabulary of the statements *)

(** *** The fragmenting packetizer *)

Section FragmentingSpec.
Import Fragmenting.
Context {P : Platform}.

Definition payloads (l : list BT_HDR) : list byte := concat (map payload l).

Definition opt_list (o : option BT_HDR) : list BT_HDR :=
  match o with Some p => [p] | None => [] end.

(** [len] counts the payload bytes. *)
Definition sized (p : BT_HDR) : Prop := Z.of_nat (length (payload p)) = len p.

Definition full (M : Z) (p : BT_HDR) : Prop := len p = M /\ sized p.

Definition partly (M : Z) (p : BT_HDR) : Prop := 0 < len p < M /\ sized p.

(** The values [max_mtu_len] can take: a payload size below 2^16, or the
    wrapped difference of an MTU smaller than the header. *)
Definition mtu_range (M : Z) : Prop := 0 <= M < 2 ^ 16 \/ 2 ^ 31 <= M < 2 ^ 32.

(** Invariant of the two loops: closed buffers are full, the open one is
    neither empty nor full; with a wrapped [max_mtu_len] no buffer is ever
    obtained. *)
Definition frag_inv (M : Z) (p_buf : option BT_HDR) (bufs : list BT_HDR) : Prop :=
  if M <? 2 ^ 16
  then Forall (full M) bufs
       /\ match p_buf with Some p => partly M p | None => True end
  else p_buf = None /\ bufs = [].

(** One turn of the inner loop on a buffer that is open or fresh. *)
Definition opened (M : Z) (p0 : BT_HDR) : Prop :=
  sized p0
  /\ ((M <? 2 ^ 16) = true -> 0 <= len p0 /\ (len p0 < M \/ len p0 = 0))
  /\ ((M <? 2 ^ 16) = false -> len p0 = 0).

Definition len_in_range (p : option BT_HDR) : Prop :=
  match p with Some q => 0 <= len q < 2 ^ 16 | None => True end.

(** The test of [a2dp_lhdc_read_feeding] for returning [false]. *)
Definition underflow (read_size : Z) (data : list byte) : bool :=
  let nb_byte_read := u32 (Z.of_nat (length data)) in
  (nb_byte_read <? read_size) && (nb_byte_read =? 0).

(** The events of a frame loop entered with [n] frames to go that leaves
    [k] of them unproduced: a read and an encode per frame, cut short by a
    read that underflows. *)
Inductive frames_log (sz : Z) : nat -> list event -> nat -> Prop :=
| frames_log_done : frames_log sz O [] O
| frames_log_underflow n d :
    underflow sz d = true ->
    frames_log sz (S n) [EvRead sz d] (S n)
| frames_log_frame n d out_len wb evs k :
    underflow sz d = false ->
    frames_log sz n evs k ->
    frames_log sz (S n) (EvRead sz d :: EvEncode out_len wb :: evs) k.

(** The accumulator after [k] frames were given back. *)
Definition refund (c : tA2DP_LHDC_ENCODER_CB) (k : nat) : Z :=
  match k with
  | O => counter (lhdc_feeding_state c)
  | S _ =>
      u32 (counter (lhdc_feeding_state c)
           + Z.of_nat k * LHDCBT_ENC_BLOCK_SIZE * channel_count (feeding_params c)
             * bits_per_sample (feeding_params c) / 8)
  end.

(** Bytes held by the closed buffers and the open one. *)
Definition held (M : Z) (p : option BT_HDR) (bufs : list BT_HDR) : Z :=
  Z.of_nat (length bufs) * M + match p with Some q => len q | None => 0 end.

Definition open_below (M : Z) (p : option BT_HDR) : Prop :=
  match p with Some q => 0 < len q < M | None => True end.

Definition malloc_succeeds : Prop := forall w, fst (osi_malloc w) = true.

(** The codec writes inside [write_buffer], and at most [cap] bytes. *)
Definition codec_within (cap : Z) : Prop :=
  forall w h pcm,
    let '(out_len, wb, _) := lhdc_encode_func w h pcm in
    out_len <= Z.of_nat (length wb) /\ out_len <= cap.

(** A closed buffer as it is handed to the sink. *)
Definition stamped (seq ts meta : Z) (p : BT_HDR) : BT_HDR :=
  mkBuf (offset p) (len p) (u16 (Z.lor (u16 (Z.shiftl (u16 seq) 8)) meta))
        (Some ts) (payload p).

Fixpoint stamps (meta : Z -> Z) (seq ts i : Z) (rest : list BT_HDR)
  : list BT_HDR :=
  match rest with
  | [] => []
  | p :: rest' =>
      stamped seq ts (meta i) p :: stamps meta (u32 (seq + 1)) ts (i + 1) rest'
  end.

(** [buf_seq] after [k] increments. *)
Fixpoint seq_adv (seq : Z) (k : nat) : Z :=
  match k with
  | O => seq
  | S k' => seq_adv (u32 (seq + 1)) k'
  end.

(** All that is or-ed into buffer [i] of [bt_buf_num] in the [else]
    branch. *)
Definition fragment_meta (latency nb_frame_org i bt_buf_num : Z) : Z :=
  let base := Z.lor A2DP_LHDC_HDR_F_MSK latency in
  if i =? 0 then
    Z.lor base (Z.lor A2DP_LHDC_HDR_S_MSK
                      (Z.shiftl nb_frame_org A2DP_LHDC_HDR_NUM_SHIFT))
  else if i =? bt_buf_num - 1 then Z.lor base A2DP_LHDC_HDR_L_MSK
  else base.

(** The metadata of buffer [i] of the [n] buffers of a tick. *)
Definition tick_meta (latency nb_frame_org n i : Z) : Z :=
  if n =? 1
  then Z.lor latency (Z.shiftl nb_frame_org A2DP_LHDC_HDR_NUM_SHIFT)
  else fragment_meta latency nb_frame_org i n.

(** The calls of the PCM callback, and the bytes it returned as
    [nb_byte_read] counts them. *)
Definition read_calls (l : list event) : Z := Z.of_nat (length (reads l)).

Definition read_bytes (l : list event) : Z :=
  fold_right (fun e acc => match e with
                           | EvRead _ d => u32 (Z.of_nat (length d)) + acc
                           | _ => acc
                           end) 0 l.

(** The read counters [s'] are the read counters [s] advanced for the
    events [evs], each modulo 2^64 as [size_t] counts: one expected read of
    [sz] bytes per call of the PCM callback, the bytes it returned, one
    actual read per block that went on to the codec; the two packet
    counters are as before. *)
Definition reads_accounted (sz : Z) (s s' : a2dp_lhdc_encoder_stats_t)
  (evs : list event) : Prop :=
  usize (media_read_total_expected_reads_count s')
  = usize (media_read_total_expected_reads_count s + read_calls evs)
  /\ usize (media_read_total_expected_read_bytes s')
     = usize (media_read_total_expected_read_bytes s + read_calls evs * sz)
  /\ usize (media_read_total_actual_reads_count s')
     = usize (media_read_total_actual_reads_count s + encode_calls evs)
  /\ usize (media_read_total_actual_read_bytes s')
     = usize (media_read_total_actual_read_bytes s + read_bytes evs)
  /\ media_read_total_expected_packets s' = media_read_total_expected_packets s
  /\ media_read_total_dropped_packets s' = media_read_total_dropped_packets s.

Definition is_enqueue (e : event) : Prop :=
  match e with EvEnqueue _ _ _ => True | _ => False end.

(** The frame-count field as it is or-ed into the metadata byte. *)
Definition count_field (nb : Z) : Z := Z.shiftl (u8 nb) A2DP_LHDC_HDR_NUM_SHIFT.




(** C5 as it is written, of the session of ticks [nbs] from [m]. *)
Definition sequence_as_stated (nbs : list Z) (m : machine) : Prop :=
  forall m',
    encode_session nbs m = Done m' ->
    exists evs,
      log m' = log m ++ evs
      /\ forall i p q,
           nth_error (enqueued evs) i = Some p ->
           nth_error (enqueued evs) (S i) = Some q ->
           hdr_seq q = (hdr_seq p + 1) mod 256.

End FragmentingSpec.

(** *** The single-buffer packetizer *)

Section StreamingSpec.
Import Streaming.
Context {P : Platform}.

Definition dropped (c : tA2DP_LHDC_ENCODER_CB) : Z :=
  media_read_total_dropped_packets (stats c).

(** The machine an outcome leaves, when it leaves one. *)
Definition final (o : outcome machine) : option machine :=
  match o with
  | Done m' | Halt _ m' => Some m'
  | Fault _ => None
  end.

Definition underflow_s (read_size : Z) (data : list byte) : bool :=
  let nb_byte_read := u32 (Z.of_nat (length data)) in
  (nb_byte_read <? read_size) && (nb_byte_read =? 0).

(** Events that do not end a tick: encode calls that succeeded, made with
    a handle, and, without a handle, only reads that underflowed; enqueues
    that were accepted. *)
Definition benign (handle : bool) (e : event) : Prop :=
  match e with
  | EvEncode r => result r = 0 /\ handle = true
  | EvRead sz d => handle = false -> underflow_s sz d = true
  | EvEnqueue _ _ accepted => accepted = true
  | EvFree _ => True
  end.

(** [m'] continues [m] with the events [evs], none of which ended the
    tick; handle and dropped-packet count are as before. *)
Definition continues (m m' : machine) (evs : list event) : Prop :=
  log m' = log m ++ evs
  /\ Forall (benign (lhdc_handle (cb m))) evs
  /\ lhdc_handle (cb m') = lhdc_handle (cb m)
  /\ dropped (cb m') = dropped (cb m).

(** [m'] ended the tick of [m] after the events [evs] with the events
    [last]. *)
Definition halted (h : halt) (m m' : machine) : Prop :=
  exists evs last,
    log m' = log m ++ evs ++ last
    /\ Forall (benign (lhdc_handle (cb m))) evs
    /\ match h with
       | CodecFailure =>
           dropped (cb m') = usize (dropped (cb m) + 1)
           /\ exists r p, result r <> 0 /\ last = [EvEncode r; EvFree p]
       | InvalidHandle =>
           dropped (cb m') = usize (dropped (cb m) + 1)
           /\ lhdc_handle (cb m) = false
           /\ exists sz d p, underflow_s sz d = false
                             /\ last = [EvRead sz d; EvFree p]
       | SinkBackpressure =>
           dropped (cb m') = dropped (cb m)
           /\ exists p n, last = [EvEnqueue p n false]
       | AllocationFailure => False
       end.

(** The two ways in which encoding fails: the codec returns a result other
    than zero, or a block was read and the handle is NULL. *)
Definition encode_fails (handle : bool) (e : event) : Prop :=
  match e with
  | EvEncode r => result r <> 0
  | EvRead sz d => handle = false /\ underflow_s sz d = false
  | _ => False
  end.

(** Buffers given away: handed to the sink, or freed. *)
Definition disposals (l : list event) : Z :=
  Z.of_nat (length (flat_map (fun e => match e with
                                       | EvEnqueue _ _ _ | EvFree _ => [e]
                                       | _ => []
                                       end) l)).

Definition expected_packets (c : tA2DP_LHDC_ENCODER_CB) : Z :=
  media_read_total_expected_packets (stats c).

(** The packets [pk] carry, in order, the session timestamp as it runs
    from [ts] to [ts']: each packet the timestamp before it, which then
    moves on by 512 samples for every frame the packet holds. *)
Fixpoint timestamps_chain (ts : Z) (pk : list BT_HDR) (ts' : Z) : Prop :=
  match pk with
  | [] => ts' = ts
  | p :: rest =>
      media_timestamp p = Some ts
      /\ timestamps_chain (u32 (ts + layer_specific p * 512)) rest ts'
  end.

(** A stretch of a tick in which nothing goes to the sink: the packet
    count and the session timestamp stay as they are. *)
Definition held_back (m m' : machine) (evs : list event) : Prop :=
  log m' = log m ++ evs
  /\ enqueued evs = []
  /\ expected_packets (cb m') = expected_packets (cb m)
  /\ timestamp (cb m') = timestamp (cb m).

(** What a stretch of a tick from [m] to [m'] with the events [evs] keeps:
    the buffers counted as expected are those given away, no packet goes
    to the sink empty, and the timestamps run on from packet to packet. *)
Definition accounted (m m' : machine) (evs : list event) : Prop :=
  log m' = log m ++ evs
  /\ usize (expected_packets (cb m')) = usize (expected_packets (cb m) + disposals evs)
  /\ Forall (fun p => len p <> 0) (enqueued evs)
  /\ timestamps_chain (timestamp (cb m)) (enqueued evs) (timestamp (cb m')).

(** C5 as it is written, of a tick of this variant: the sequence byte is
    looked for where the fragmenting encoder keeps it, in the high byte of
    [layer_specific]. *)
Definition sequence_as_stated_s (nb : Z) (m : machine) : Prop :=
  forall m',
    final (a2dp_lhdc_encode_frames nb m) = Some m' ->
    exists evs,
      log m' = log m ++ evs
      /\ forall i p q,
           nth_error (enqueued evs) i = Some p ->
           nth_error (enqueued evs) (S i) = Some q ->
           hdr_seq q = (hdr_seq p + 1) mod 256.

(** Reads of a stretch that delivered PCM, and reads that underflowed. *)
Definition full_reads (l : list event) : Z :=
  Z.of_nat (length (flat_map (fun e => match e with
                                       | EvRead sz d =>
                                           if underflow_s sz d then [] else [e]
                                       | _ => []
                                       end) l)).

Definition underflows (l : list event) : Z :=
  Z.of_nat (length (flat_map (fun e => match e with
                                       | EvRead sz d =>
                                           if underflow_s sz d then [e] else []
                                       | _ => []
                                       end) l)).

(** The PCM bytes of [n] frames, as the underflow branch computes them. *)
Definition frames_budget (c : tA2DP_LHDC_ENCODER_CB) (n : Z) : Z :=
  n * LHDCBT_ENC_BLOCK_SIZE * channel_count (feeding_params c)
  * bits_per_sample (feeding_params c) / 8.

(** A stretch of a tick that began with [n] frames due and ends with
    [left]: either no read underflowed and each frame no longer due was
    read, or one read underflowed while a frame was due, none is due any
    more, and the counter of the pacer has the bytes of the frames not
    read. *)
Definition settled (n left : Z) (m m' : machine) (evs : list event) : Prop :=
  log m' = log m ++ evs
  /\ feeding_params (cb m') = feeding_params (cb m)
  /\ 0 <= left
  /\ (underflows evs = 0 /\ full_reads evs = n - left
      /\ lhdc_feeding_state (cb m') = lhdc_feeding_state (cb m)
      \/ underflows evs = 1 /\ left = 0 /\ full_reads evs < n
         /\ lhdc_feeding_state (cb m')
            = mkFeedingState
                (u32 (counter (lhdc_feeding_state (cb m))
                      + frames_budget (cb m) (n - full_reads evs)))
                (bytes_per_tick (lhdc_feeding_state (cb m)))
                (last_frame_us (lhdc_feeding_state (cb m)))).

End StreamingSpec.

(** *** The codec information element *)

Section CodecInfoSpec.
Import CodecInfo.
Context {H : Headers}.

(** The element a codec information whose tenth byte is [b9] parses to:
    the sampling bits as they are, stereo, and the PCM formats of the two
    format bits; none when both format bits are clear. *)
Definition parsed_element (b9 : byte) : option tA2DP_LHDC_CIE :=
  let fmt := Z.land (byte_to_Z b9) A2DP_LHDC_BIT_FMT_MASK in
  let element (bits : Z) :=
    mkCie A2DP_LHDC_VENDOR_ID A2DP_LHDC_CODEC_ID
          (Z.land (byte_to_Z b9) A2DP_LHDC_SAMPLING_FREQ_MASK)
          A2DP_LHDC_CHANNEL_MODE_STEREO bits in
  if fmt =? A2DP_LHDC_BIT_FMT_24
  then Some (element BTAV_A2DP_CODEC_BITS_PER_SAMPLE_24)
  else if fmt =? A2DP_LHDC_BIT_FMT_16
  then Some (element BTAV_A2DP_CODEC_BITS_PER_SAMPLE_16)
  else if fmt =? A2DP_LHDC_BIT_FMT_MASK
  then Some (element (Z.lor BTAV_A2DP_CODEC_BITS_PER_SAMPLE_16
                            BTAV_A2DP_CODEC_BITS_PER_SAMPLE_24))
  else None.

(** A codec information as the parser wants it: length octet 9, the audio
    media type in the high half of the second byte, the non-A2DP codec
    type, vendor 0x0000053a and codec 0x484C with the low byte first, and a
    PCM format in the tenth byte. *)
Definition with_header (b1 b2 b9 : byte) (rest : list byte) : list byte :=
  Byte.x09 :: b1 :: b2 :: Byte.x3a :: Byte.x05 :: Byte.x00 :: Byte.x00
  :: Byte.x4c :: Byte.x48 :: b9 :: rest.

Definition lhdc_header (info : list byte) : Prop :=
  exists b1 b2 b9 rest,
    info = with_header b1 b2 b9 rest
    /\ Z.shiftr (byte_to_Z b1) 4 = AVDT_MEDIA_TYPE_AUDIO
    /\ byte_to_Z b2 = A2DP_MEDIA_CT_NON_A2DP
    /\ Z.land (byte_to_Z b9) A2DP_LHDC_BIT_FMT_MASK <> 0.

(** The tests that a configuration has to pass besides. *)
Definition one_rate_one_mode (ie : tA2DP_LHDC_CIE) : bool :=
  (A2DP_BitsSet (sampleRate ie) =? A2DP_SET_ONE_BIT)
  && (A2DP_BitsSet (channelMode ie) =? A2DP_SET_ONE_BIT).

(** A PCM format that the information element can carry. *)
Definition pcm_format (bits : Z) : Prop :=
  bits = BTAV_A2DP_CODEC_BITS_PER_SAMPLE_16
  \/ bits = BTAV_A2DP_CODEC_BITS_PER_SAMPLE_24
  \/ bits = Z.lor BTAV_A2DP_CODEC_BITS_PER_SAMPLE_16 BTAV_A2DP_CODEC_BITS_PER_SAMPLE_24.

End CodecInfoSpec.

(** *** Selecting a configuration *)

Section CodecConfigSpec.
Import CodecInfo CodecConfig.
Context {H : Headers}.

(** A sampling frequency of the codec information and the sample rate of
    the framework that stands for it. *)
Definition rate_pair (freq rate : Z) : Prop :=
  freq = A2DP_LHDC_SAMPLING_FREQ_44100 /\ rate = BTAV_A2DP_CODEC_SAMPLE_RATE_44100
  \/ freq = A2DP_LHDC_SAMPLING_FREQ_48000 /\ rate = BTAV_A2DP_CODEC_SAMPLE_RATE_48000
  \/ freq = A2DP_LHDC_SAMPLING_FREQ_88200 /\ rate = BTAV_A2DP_CODEC_SAMPLE_RATE_88200
  \/ freq = A2DP_LHDC_SAMPLING_FREQ_96000 /\ rate = BTAV_A2DP_CODEC_SAMPLE_RATE_96000.

(** The members that the selection reads and leaves alone. *)
Definition only_read (o o' : A2dpCodecConfigLhdc) : Prop :=
  codec_user_config_ o' = codec_user_config_ o
  /\ codec_audio_config_ o' = codec_audio_config_ o
  /\ ota_codec_config_ o' = ota_codec_config_ o
  /\ ota_codec_peer_capability_ o' = ota_codec_peer_capability_ o
  /\ ota_codec_peer_config_ o' = ota_codec_peer_config_ o.

(** What a selector of the sample rate answers when it is given the
    frequencies [x]. *)
Definition rate_selected (x : Z) (r : tA2DP_LHDC_CIE) (c : btav_a2dp_codec_config_t)
  (a : bool * tA2DP_LHDC_CIE * btav_a2dp_codec_config_t) : Prop :=
  a = (false, r, c)
  \/ exists freq rate,
       rate_pair freq rate /\ flag x freq = true
       /\ a = (true, set_sampleRate freq r, set_sample_rate rate c).

(** What a selector of the PCM format answers. *)
Definition format_selected (r : tA2DP_LHDC_CIE) (c : btav_a2dp_codec_config_t)
  (a : bool * tA2DP_LHDC_CIE * btav_a2dp_codec_config_t) : Prop :=
  a = (false, r, c)
  \/ exists fmt,
       (fmt = BTAV_A2DP_CODEC_BITS_PER_SAMPLE_16
        \/ fmt = BTAV_A2DP_CODEC_BITS_PER_SAMPLE_24)
       /\ a = (true, set_bits fmt r, set_bits_per_sample fmt c).

(** What a selector of the channel mode answers. *)
Definition mode_selected (r : tA2DP_LHDC_CIE) (c : btav_a2dp_codec_config_t)
  (a : bool * tA2DP_LHDC_CIE * btav_a2dp_codec_config_t) : Prop :=
  a = (false, r, c)
  \/ a = (true, set_channelMode A2DP_LHDC_CHANNEL_MODE_STEREO r,
          set_channel_mode BTAV_A2DP_CODEC_CHANNEL_MODE_STEREO c).

(** The buffers of a call hold the ten bytes of a codec information. *)
Definition hold_codec_information (o : A2dpCodecConfigLhdc)
  (p_peer_codec_info p_result_codec_config : list byte) : Prop :=
  (10 <= length p_peer_codec_info)%nat
  /\ (10 <= length p_result_codec_config)%nat
  /\ (10 <= length (ota_codec_config_ o))%nat
  /\ (10 <= length (ota_codec_peer_capability_ o))%nat
  /\ (10 <= length (ota_codec_peer_config_ o))%nat.

(** The PCM format flags of the framework differ from "none" and from
    each other. *)
Definition formats_distinct : Prop :=
  BTAV_A2DP_CODEC_BITS_PER_SAMPLE_NONE <> BTAV_A2DP_CODEC_BITS_PER_SAMPLE_16
  /\ BTAV_A2DP_CODEC_BITS_PER_SAMPLE_NONE <> BTAV_A2DP_CODEC_BITS_PER_SAMPLE_24
  /\ BTAV_A2DP_CODEC_BITS_PER_SAMPLE_24 <> 0
  /\ Z.lor BTAV_A2DP_CODEC_BITS_PER_SAMPLE_24 BTAV_A2DP_CODEC_BITS_PER_SAMPLE_16
     <> BTAV_A2DP_CODEC_BITS_PER_SAMPLE_24.

End CodecConfigSpec.

(** *** A control block for the pacer: 96 kHz, 24 bit, stereo, after a
    feeding reset *)

Definition cb_96k_24_stereo : tA2DP_LHDC_ENCODER_CB :=
  Pacer.a2dp_vendor_lhdc_feeding_reset
    (mkCb 664 0 true (mkFeedingParams 96000 24 2) 1
          (mkFeedingState 0 0 0) (mkStats 0 0 0 0 0 0) 0).

(** ** The pacer: properties *)

Section PacerFacts.
Import Pacer.

Variable A2DP_LHDC_MEDIA_BYTES_PER_FRAME : Z.

Notation bpf := (pcm_bytes_per_frame A2DP_LHDC_MEDIA_BYTES_PER_FRAME).
Notation get_num := (a2dp_lhdc_get_num_frame_iteration A2DP_LHDC_MEDIA_BYTES_PER_FRAME).

Lemma u32_small (x : Z) : 0 <= x < 2 ^ 32 -> u32 x = x.
Proof. intros H; unfold u32; apply Z.mod_small; exact H. Qed.

Lemma u32_range (x : Z) : 0 <= u32 x < 2 ^ 32.
Proof. unfold u32; apply Z.mod_pos_bound; lia. Qed.

Lemma u8_small (x : Z) : 0 <= x < 2 ^ 8 -> u8 x = x.
Proof. intros H; unfold u8; apply Z.mod_small; exact H. Qed.

Lemma bpf_set_feeding_state s cb : bpf (set_feeding_state s cb) = bpf cb.
Proof. reflexivity. Qed.

(** The subtraction of the frames handed out leaves the remainder of the
    division, whatever the accumulator held. *)
Lemma counter_after_division (c b : Z) :
  0 <= c < 2 ^ 32 -> 0 < b ->
  u32 (c - u32 (c / b * b)) = c mod b.
Proof.
  intros Hc Hb.
  assert (Hq : 0 <= c / b * b <= c).
  { split; [apply Z.mul_nonneg_nonneg; [apply Z.div_pos|]; lia|].
    rewrite Z.mul_comm; apply Z.mul_div_le; lia. }
  rewrite (u32_small (c / b * b)) by lia.
  rewrite u32_small by lia.
  rewrite Z.mod_eq by lia. lia.
Qed.

(** C4.  After every pacing computation the accumulator lies in
    [0, bytes_per_frame): the call returns (the frame size being positive)
    and leaves [0 <= counter < pcm_bytes_per_frame]. *)
Theorem pacer_counter_bound (cb : tA2DP_LHDC_ENCODER_CB) (timestamp_us : Z) :
  0 < bpf cb ->
  exists noi nof cb',
    get_num cb timestamp_us = Some (noi, nof, cb')
    /\ 0 <= counter (lhdc_feeding_state cb') < bpf cb'.
Proof.
  intros Hb. unfold a2dp_lhdc_get_num_frame_iteration.
  destruct (bpf cb =? 0) eqn:E; [apply Z.eqb_eq in E; lia|].
  eexists _, _, _. split; [reflexivity|].
  rewrite bpf_set_feeding_state. cbn [lhdc_feeding_state set_feeding_state counter].
  rewrite counter_after_division by (auto using u32_range).
  apply Z.mod_pos_bound; exact Hb.
Qed.

(** One tick on which nothing wraps: the frames handed out and the
    remainder add up to the old remainder plus the budget earned. *)
Lemma tick_conserves (cb : tA2DP_LHDC_ENCODER_CB) (t : Z) :
  0 < bpf cb ->
  tick_in_range A2DP_LHDC_MEDIA_BYTES_PER_FRAME cb t = true ->
  exists nof cb',
    get_num cb t = Some (1, nof, cb')
    /\ nof * bpf cb + counter (lhdc_feeding_state cb')
       = counter (lhdc_feeding_state cb)
         + bytes_per_tick (lhdc_feeding_state cb)
           * elapsed_us (last_frame_us (lhdc_feeding_state cb)) t
           / (A2DP_LHDC_ENCODER_INTERVAL_MS * 1000)
    /\ bpf cb' = bpf cb
    /\ bytes_per_tick (lhdc_feeding_state cb') = bytes_per_tick (lhdc_feeding_state cb)
    /\ last_frame_us (lhdc_feeding_state cb') = t.
Proof.
  intros Hb Hr. unfold tick_in_range in Hr.
  repeat (apply andb_prop in Hr; destruct Hr as [Hr ?]).
  repeat match goal with
         | H : (_ <=? _) = true |- _ => apply Z.leb_le in H
         | H : (_ <? _) = true |- _ => apply Z.ltb_lt in H
         end.
  set (fs := lhdc_feeding_state cb) in *.
  set (el := elapsed_us (last_frame_us fs) t) in *.
  set (inc := bytes_per_tick fs * el / (A2DP_LHDC_ENCODER_INTERVAL_MS * 1000)) in *.
  assert (Hus : us_this_tick cb t = el).
  { unfold us_this_tick, el, elapsed_us. fold fs.
    destruct (last_frame_us fs =? 0) eqn:E; [reflexivity|].
    apply u32_small. unfold el, elapsed_us in *. rewrite E in *. lia. }
  assert (Hinc : 0 <= inc).
  { unfold inc. apply Z.div_pos; [apply Z.mul_nonneg_nonneg; lia|].
    unfold A2DP_LHDC_ENCODER_INTERVAL_MS; lia. }
  unfold a2dp_lhdc_get_num_frame_iteration. fold fs. rewrite Hus.
  destruct (bpf cb =? 0) eqn:E; [apply Z.eqb_eq in E; lia|].
  rewrite (u32_small (bytes_per_tick fs * el))
    by (split; [apply Z.mul_nonneg_nonneg|]; lia).
  fold inc. rewrite (u32_small (counter fs + inc)) by lia.
  eexists _, _. split; [reflexivity|].
  cbn [lhdc_feeding_state set_feeding_state counter bytes_per_tick last_frame_us].
  rewrite bpf_set_feeding_state.
  rewrite counter_after_division by lia.
  rewrite u8_small
    by (split; [apply Z.div_pos; lia | assumption]).
  repeat split.
  rewrite Z.mod_eq by lia. lia.
Qed.

(** C3, as the code has it.  Over a run of ticks on which no fixed-width
    operation of the pacer wraps (elapsed time and byte budget fit 32 bits,
    the frame quotient fits the 8-bit result), the bytes handed out as
    frames plus the final accumulator equal the initial accumulator plus
    the budget earned, exactly. *)
Theorem pacer_conservation_in_range (tss : list Z) (cb : tA2DP_LHDC_ENCODER_CB) :
  0 < bpf cb ->
  run_in_range A2DP_LHDC_MEDIA_BYTES_PER_FRAME tss cb = true ->
  exists nofs cb',
    pacer_run A2DP_LHDC_MEDIA_BYTES_PER_FRAME tss cb = Some (nofs, cb')
    /\ budget_spent (bpf cb) nofs + counter (lhdc_feeding_state cb')
       = counter (lhdc_feeding_state cb)
         + budget_earned (bytes_per_tick (lhdc_feeding_state cb))
                         (last_frame_us (lhdc_feeding_state cb)) tss.
Proof.
  revert cb. induction tss as [|t tss IH]; intros cb Hb Hr.
  - exists [], cb. split; [reflexivity|]. cbn. lia.
  - cbn [run_in_range] in Hr. apply andb_prop in Hr. destruct Hr as [Ht Hr].
    destruct (tick_conserves cb t Hb Ht) as (nof & cb1 & Hstep & Hsum & Hbpf & Hbpt & Hlast).
    rewrite Hstep in Hr.
    destruct (IH cb1 ltac:(rewrite Hbpf; exact Hb) Hr) as (nofs & cb2 & Hrun & Hsum2).
    exists (nof :: nofs), cb2.
    cbn [pacer_run]. rewrite Hstep, Hrun. split; [reflexivity|].
    cbn [budget_spent fold_right budget_earned].
    fold (budget_spent (bpf cb) nofs).
    rewrite Hbpf, Hbpt, Hlast in Hsum2. lia.
Qed.

End PacerFacts.

(** *** Concrete runs of the pacer *)

(** 96 kHz, 24 bit, stereo, 20 ms: 11520 PCM bytes per tick. *)
Example bytes_per_tick_96k_24_stereo :
  bytes_per_tick (lhdc_feeding_state cb_96k_24_stereo) = 11520.
Proof. reflexivity. Qed.

Lemma pacer_counter_bound_witness :
  0 < Pacer.pcm_bytes_per_frame 512 cb_96k_24_stereo
  /\ exists noi nof cb',
       Pacer.a2dp_lhdc_get_num_frame_iteration 512 cb_96k_24_stereo 1000000
       = Some (noi, nof, cb')
       /\ 0 <= counter (lhdc_feeding_state cb') < Pacer.pcm_bytes_per_frame 512 cb'.
Proof.
  split; [reflexivity|].
  apply (pacer_counter_bound 512 cb_96k_24_stereo 1000000). reflexivity.
Defined.

Lemma pacer_conservation_in_range_witness :
  exists nofs cb',
    Pacer.pacer_run 512 [1000000; 1020000; 1045000] cb_96k_24_stereo = Some (nofs, cb')
    /\ Pacer.budget_spent (Pacer.pcm_bytes_per_frame 512 cb_96k_24_stereo) nofs
       + counter (lhdc_feeding_state cb')
       = counter (lhdc_feeding_state cb_96k_24_stereo)
         + Pacer.budget_earned (bytes_per_tick (lhdc_feeding_state cb_96k_24_stereo))
             (last_frame_us (lhdc_feeding_state cb_96k_24_stereo))
             [1000000; 1020000; 1045000].
Proof.
  apply (pacer_conservation_in_range 512 [1000000; 1020000; 1045000] cb_96k_24_stereo);
    reflexivity.
Defined.

(** C3 as stated fails: a tick that arrives 400 ms after the previous one
    makes [bytes_per_tick * us_this_tick] wrap in 32 bits; 27171 bytes are
    accounted for where 241920 were earned. *)
Lemma pacer_conservation_counterexample :
  ~ Pacer.conservation 512 [1000000; 1400000] cb_96k_24_stereo.
Proof.
  intros H.
  specialize (H _ _ eq_refl). vm_compute in H. apply H. reflexivity.
Qed.


(** ** The fragmenting packetizer: properties *)

Section FragmentingFacts.
Import Fragmenting.
Context {P : Platform}.

Lemma payloads_app l1 l2 : payloads (l1 ++ l2) = payloads l1 ++ payloads l2.
Proof. unfold payloads. rewrite map_app, concat_app. reflexivity. Qed.

Lemma payloads_one p : payloads [p] = payload p.
Proof. unfold payloads. cbn. apply app_nil_r. Qed.

Lemma max_mtu_len_range (c : tA2DP_LHDC_ENCODER_CB) : mtu_range (max_mtu_len c).
Proof.
  unfold mtu_range, max_mtu_len, u32, u16, A2DP_LHDC_MPL_HDR_LEN, scms_len.
  pose proof (Z.mod_pos_bound (TxAaMtuSize c) (2 ^ 16) ltac:(lia)) as H.
  set (x := TxAaMtuSize c mod 2 ^ 16) in *.
  destruct BTA_AV_CO_CP_SCMS_T.
  - destruct (Z_lt_le_dec (x - 1 - 1) 0).
    + right. replace ((x - 1 - 1) mod 2 ^ 32) with (x - 1 - 1 + 2 ^ 32); [lia|].
      apply Z.mod_unique with (q := -1); lia.
    + left. rewrite Z.mod_small; lia.
  - destruct (Z_lt_le_dec (x - 1 - 0) 0).
    + right. replace ((x - 1 - 0) mod 2 ^ 32) with (x - 1 - 0 + 2 ^ 32); [lia|].
      apply Z.mod_unique with (q := -1); lia.
    + left. rewrite Z.mod_small; lia.
Qed.

Lemma i32_small (x : Z) : 0 <= x < 2 ^ 31 -> i32 x = x.
Proof.
  intros H. unfold i32. rewrite Z.mod_small by lia.
  destruct (x <? 2 ^ 31) eqn:E; [reflexivity|]. apply Z.ltb_ge in E. lia.
Qed.

Lemma i32_high (x : Z) : 2 ^ 31 <= x < 2 ^ 32 -> i32 x = x - 2 ^ 32.
Proof.
  intros H. unfold i32. rewrite Z.mod_small by lia.
  destruct (x <? 2 ^ 31) eqn:E; [|reflexivity]. apply Z.ltb_lt in E. lia.
Qed.

Lemma u16_small (x : Z) : 0 <= x < 2 ^ 16 -> u16 x = x.
Proof. intros H; unfold u16; apply Z.mod_small; exact H. Qed.

(** Taking [a + b] bytes at [off] is taking [a], then [b] further on. *)
Lemma firstn_skipn_add (A : Type) (l : list A) (off a b : Z) :
  0 <= off -> 0 <= a -> 0 <= b ->
  firstn (Z.to_nat (a + b)) (skipn (Z.to_nat off) l)
  = firstn (Z.to_nat a) (skipn (Z.to_nat off) l)
    ++ firstn (Z.to_nat b) (skipn (Z.to_nat (off + a)) l).
Proof.
  intros Ho Ha Hb.
  rewrite Z2Nat.inj_add by lia.
  rewrite (Z2Nat.inj_add off a) by lia.
  rewrite (Nat.add_comm (Z.to_nat off)), <- skipn_skipn.
  generalize (skipn (Z.to_nat off) l) as k. generalize (Z.to_nat a) as n.
  induction n as [|n IH]; intros k; [reflexivity|].
  destruct k as [|x k]; cbn.
  - rewrite firstn_nil. reflexivity.
  - f_equal. apply IH.
Qed.

Lemma frag_loop_ok (fuel : nat) (M : Z) (wb : list byte) :
  mtu_range M ->
  forall off n p bufs w p' bufs' w',
    0 <= off ->
    frag_inv M p bufs ->
    frag_loop fuel M wb off n p bufs w = Ok (p', bufs', w') ->
    frag_inv M p' bufs'
    /\ payloads (bufs' ++ opt_list p')
       = payloads (bufs ++ opt_list p)
         ++ firstn (Z.to_nat n) (skipn (Z.to_nat off) wb).
Proof.
  intros HM. induction fuel as [|fuel IH]; intros off n p bufs w p' bufs' w' Hoff Hinv H;
    cbn [frag_loop] in H; rewrite Z.gtb_ltb in H;
    destruct (0 <? n) eqn:En.
  - discriminate.
  - apply Z.ltb_ge in En. inversion H; subst. split; [assumption|].
    replace (Z.to_nat n) with O by lia. cbn. rewrite app_nil_r. reflexivity.
  - apply Z.ltb_lt in En.
    (* the buffer written to in this turn *)
    assert (Hopen : exists p0 w1,
               (match p with Some q => (Some q, w) | None => bt_buf_new w end)
               = (Some p0, w1)
               /\ opened M p0
               /\ payloads (bufs ++ opt_list p) = payloads bufs ++ payload p0
               /\ ((M <? 2 ^ 16) = true -> Forall (full M) bufs)
               /\ ((M <? 2 ^ 16) = false -> bufs = [])).
    { unfold frag_inv in Hinv. destruct p as [q|].
      - exists q, w. destruct (M <? 2 ^ 16) eqn:EM.
        + destruct Hinv as [Hf [Hl Hs]].
          repeat split; auto; try lia; try discriminate.
          rewrite payloads_app. cbn [opt_list]. rewrite payloads_one. reflexivity.
        + destruct Hinv; discriminate.
      - unfold bt_buf_new in *. destruct (osi_malloc w) as [ok w1].
        destruct ok; [|discriminate].
        exists (mkBuf A2DP_LHDC_OFFSET 0 0 None []), w1.
        split; [reflexivity|]. split.
        { unfold opened, sized. cbn. repeat split; intros; lia. }
        split.
        { cbn [opt_list payload]. rewrite !app_nil_r. reflexivity. }
        destruct (M <? 2 ^ 16); split; intros; try discriminate; tauto. }
    destruct Hopen as (p0 & w1 & Hp0 & (Hs0 & Hlt & Hge) & Hpay & Hfull & Hnil).
    rewrite Hp0 in H. cbv zeta in H.
    destruct (M <? 2 ^ 16) eqn:EM.
    + apply Z.ltb_lt in EM. destruct HM as [HM|HM]; [|lia].
      destruct (Hlt eq_refl) as [Hl0 Hl1]. clear Hlt Hge Hnil.
      specialize (Hfull eq_refl).
      assert (Hle : len p0 <= M) by lia.
      rewrite (i32_small (M - len p0)) in H by lia.
      set (bytes := if n <? M - len p0 then n else M - len p0) in *.
      assert (Hb : 0 <= bytes <= M - len p0 /\ bytes <= n
                   /\ (bytes = n \/ bytes = M - len p0)).
      { unfold bytes. destruct (n <? M - len p0) eqn:E;
          [apply Z.ltb_lt in E | apply Z.ltb_ge in E]; lia. }
      destruct (bytes <? 0) eqn:Eb; [apply Z.ltb_lt in Eb; lia|].
      destruct (Z.of_nat (length wb) <? off + bytes) eqn:Esrc; [discriminate|].
      apply Z.ltb_ge in Esrc.
      set (chunk := firstn (Z.to_nat bytes) (skipn (Z.to_nat off) wb)) in *.
      assert (Hchunk : Z.of_nat (length chunk) = bytes).
      { unfold chunk. rewrite length_firstn, length_skipn. lia. }
      cbn [len] in H.
      rewrite (u16_small (len p0 + bytes)) in H by lia.
      assert (Hsplit :
                firstn (Z.to_nat n) (skipn (Z.to_nat off) wb)
                = chunk ++ firstn (Z.to_nat (n - bytes))
                                  (skipn (Z.to_nat (off + bytes)) wb)).
      { replace n with (bytes + (n - bytes)) at 1 by lia.
        apply firstn_skipn_add; lia. }
      destruct (len p0 + bytes >=? M) eqn:Ecl.
      * rewrite Z.geb_leb in Ecl. apply Z.leb_le in Ecl.
        destruct (Z.of_nat (length bufs) <? P_BTBUFS_LEN); [|discriminate].
        apply IH in H; [|lia|].
        -- destruct H as [Hi Hp]. split; [exact Hi|].
           rewrite Hp, Hpay, Hsplit. cbn [opt_list]. rewrite app_nil_r.
           rewrite payloads_app, payloads_one. cbn [payload].
           rewrite <- !app_assoc. reflexivity.
        -- unfold frag_inv.
           replace (M <? 2 ^ 16) with true by (symmetry; apply Z.ltb_lt; lia).
           split; [|exact I]. apply Forall_app. split; [exact Hfull|].
           constructor; [|constructor]. unfold full, sized. cbn.
           rewrite length_app. unfold sized in Hs0. lia.
      * rewrite Z.geb_leb in Ecl. apply Z.leb_gt in Ecl.
        apply IH in H; [|lia|].
        -- destruct H as [Hi Hp]. split; [exact Hi|].
           rewrite Hp, Hpay, Hsplit. cbn [opt_list].
           rewrite payloads_app, payloads_one. cbn [payload].
           rewrite <- !app_assoc. reflexivity.
        -- unfold frag_inv.
           replace (M <? 2 ^ 16) with true by (symmetry; apply Z.ltb_lt; lia).
           split; [exact Hfull|]. unfold partly, sized. cbn.
           rewrite length_app. unfold sized in Hs0. lia.
    + apply Z.ltb_ge in EM. destruct HM as [HM|HM]; [lia|].
      rewrite (Hge eq_refl) in H. rewrite Z.sub_0_r in H.
      rewrite (i32_high M) in H by lia.
      destruct (n <? M - 2 ^ 32) eqn:E; [apply Z.ltb_lt in E; lia|].
      destruct (M - 2 ^ 32 <? 0) eqn:E2; [discriminate|].
      apply Z.ltb_ge in E2. lia.
  - apply Z.ltb_ge in En. inversion H; subst. split; [assumption|].
    replace (Z.to_nat n) with O by lia. cbn. rewrite app_nil_r. reflexivity.
Qed.

(** *** The fuel of the inner loop is enough *)

Lemma i32_zero (x : Z) : i32 x = 0 -> x mod 2 ^ 32 = 0.
Proof.
  unfold i32. pose proof (Z.mod_pos_bound x (2 ^ 32) ltac:(lia)).
  destruct (x mod 2 ^ 32 <? 2 ^ 31); lia.
Qed.

Lemma u16_range (x : Z) : 0 <= u16 x < 2 ^ 16.
Proof. unfold u16. apply Z.mod_pos_bound. lia. Qed.

Lemma u8_range (x : Z) : 0 <= u8 x < 2 ^ 8.
Proof. unfold u8. apply Z.mod_pos_bound. lia. Qed.

(** Every turn of [while (out_len > 0)] copies at least one byte or closes
    a buffer, and a seventeenth closing leaves the loop: with
    [out_len + 17] turns of fuel the loop never runs out of it. *)
Lemma frag_loop_fuel (fuel : nat) (M : Z) (wb : list byte) :
  0 <= M < 2 ^ 32 ->
  forall off n p bufs w,
    len_in_range p ->
    (Z.to_nat n + (17 - length bufs) <= fuel)%nat ->
    match frag_loop fuel M wb off n p bufs w with
    | Bad LoopFuel => False
    | Ok (p', _, _) => len_in_range p'
    | _ => True
    end.
Proof.
  intros HM. induction fuel as [|fuel IH]; intros off n p bufs w Hp Hfuel;
    cbn [frag_loop]; rewrite Z.gtb_ltb; destruct (0 <? n) eqn:En;
    try exact Hp.
  - apply Z.ltb_lt in En. lia.
  - apply Z.ltb_lt in En.
    assert (Hopen :
              (exists p0 w1,
                  (match p with Some q => (Some q, w) | None => bt_buf_new w end)
                  = (Some p0, w1) /\ 0 <= len p0 < 2 ^ 16)
              \/ (exists w1,
                     (match p with Some q => (Some q, w) | None => bt_buf_new w end)
                     = (None, w1))).
    { destruct p as [q|]; [left; exists q, w; auto|].
      unfold bt_buf_new. destruct (osi_malloc w) as [[|] w1].
      - left. eexists _, w1. split; [reflexivity|]. cbn. lia.
      - right. exists w1. reflexivity. }
    destruct Hopen as [(p0 & w1 & -> & Hl0)|(w1 & ->)]; [|exact I].
    cbv zeta.
    set (space := i32 (M - len p0)).
    set (bytes := if n <? space then n else space).
    destruct (bytes <? 0) eqn:Eb; [exact I|]. apply Z.ltb_ge in Eb.
    destruct (Z.of_nat (length wb) <? off + bytes); [exact I|].
    cbn [len]. pose proof (u16_range (len p0 + bytes)) as Hl1.
    destruct (u16 (len p0 + bytes) >=? M) eqn:Ecl.
    + destruct (Z.of_nat (length bufs) <? P_BTBUFS_LEN) eqn:Es; [|exact I].
      apply Z.ltb_lt in Es. unfold P_BTBUFS_LEN in Es.
      apply IH; [exact I|]. rewrite length_app. cbn [length]. lia.
    + rewrite Z.geb_leb in Ecl. apply Z.leb_gt in Ecl.
      assert (Hpos : 0 < bytes).
      { destruct (Z.eq_dec bytes 0) as [E0|]; [|lia]. exfalso.
        assert (Hsp : space = 0).
        { unfold bytes in E0. destruct (n <? space) eqn:E; [lia|exact E0]. }
        apply i32_zero in Hsp.
        assert (M = len p0).
        { apply Z.mod_divide in Hsp; [|lia]. destruct Hsp as [q Hq].
          assert (q = 0) by nia. lia. }
        rewrite E0, Z.add_0_r, u16_small in Ecl by lia. lia. }
      apply IH; [cbn; exact Hl1|]. lia.
Qed.

(** *** The frame loop *)

Lemma set_counter_same (c : tA2DP_LHDC_ENCODER_CB) :
  set_counter (counter (lhdc_feeding_state c)) c = c.
Proof. destruct c as [? ? ? ? ? [? ? ?] ? ?]. reflexivity. Qed.

Lemma read_feeding_spec (m : machine) :
  let sz := enc_block_bytes (cb m) in
  let d := fst (read_callback (world m) sz) in
  exists s,
    cb (snd (a2dp_lhdc_read_feeding m)) = set_stats s (cb m)
    /\ log (snd (a2dp_lhdc_read_feeding m)) = log m ++ [EvRead sz d]
    /\ (if underflow sz d
        then fst (a2dp_lhdc_read_feeding m) = None
        else exists read_buffer, fst (a2dp_lhdc_read_feeding m) = Some read_buffer).
Proof.
  cbv zeta. unfold a2dp_lhdc_read_feeding, underflow.
  destruct (read_callback (world m) (enc_block_bytes (cb m))) as [d w1]. cbn [fst].
  destruct (u32 (Z.of_nat (length d)) <? enc_block_bytes (cb m));
    [destruct (u32 (Z.of_nat (length d)) =? 0)|];
    cbn [fst snd cb log andb]; eexists; (split; [reflexivity|]);
    (split; [reflexivity|]); eauto.
Qed.

Lemma frames_loop_ok (M : Z) :
  mtu_range M ->
  forall n m p bufs m1 p1 bufs1,
    frag_inv M p bufs ->
    frames_loop n M m p bufs = Done (m1, p1, bufs1) ->
    exists evs k s,
      log m1 = log m ++ evs
      /\ frames_log (enc_block_bytes (cb m)) n evs k
      /\ frag_inv M p1 bufs1
      /\ payloads (bufs1 ++ opt_list p1)
         = payloads (bufs ++ opt_list p) ++ encoded evs
      /\ cb m1 = set_counter (refund (cb m) k) (set_stats s (cb m))
      /\ (encode_calls evs = 0 -> p1 = p /\ bufs1 = bufs).
Proof.
  intros HM. induction n as [|n IH]; intros m p bufs m1 p1 bufs1 Hinv H.
  - cbn in H. inversion H; subst. exists [], O, (stats (cb m1)).
    rewrite !app_nil_r. repeat split; auto using frames_log_done.
    cbn [refund]. destruct (cb m1) as [? ? ? ? ? [? ? ?] ? ?]. reflexivity.
  - cbn [frames_loop] in H.
    destruct (read_feeding_spec m) as (s & Hcb & Hlog & Hres). cbv zeta in *.
    destruct (a2dp_lhdc_read_feeding m) as [[read_buffer|] m0]; cbn [fst snd] in *.
    + destruct (underflow _ _) eqn:Eu; [discriminate|].
      destruct (lhdc_encode_func (world m0) (lhdc_handle (cb m0)) read_buffer)
        as [[out_len wb] w2].
      destruct (frag_loop (frag_fuel out_len) M wb 0 out_len p bufs w2)
        as [[[p2 bufs2] w3]| |] eqn:Ef; try discriminate.
      apply frag_loop_ok in Ef; [|assumption|lia|assumption].
      destruct Ef as [Hinv2 Hpay2].
      apply IH in H; [|assumption].
      destruct H as (evs & k & s' & Hlog1 & Hshape & Hinv1 & Hpay1 & Hcb1 & _).
      cbn [log cb] in *.
      exists (EvRead (enc_block_bytes (cb m))
                     (fst (read_callback (world m) (enc_block_bytes (cb m))))
              :: EvEncode out_len wb :: evs), k, s'.
      rewrite Hcb in *.
      split; [rewrite Hlog1, Hlog, <- !app_assoc; reflexivity|].
      split; [apply frames_log_frame; assumption|].
      split; [assumption|].
      split; [rewrite Hpay1, Hpay2; cbn [encoded flat_map app];
              rewrite <- app_assoc; reflexivity|].
      split; [rewrite Hcb1; destruct k; reflexivity|].
      unfold encode_calls. cbn [flat_map app length]. lia.
    + destruct (underflow _ _) eqn:Eu; [|destruct Hres; discriminate].
      inversion H; subst; clear H. cbn [log cb].
      exists [EvRead (enc_block_bytes (cb m))
                     (fst (read_callback (world m) (enc_block_bytes (cb m))))],
             (S n), s.
      split; [assumption|].
      split; [apply frames_log_underflow; assumption|].
      split; [assumption|].
      split; [cbn; rewrite app_nil_r; reflexivity|].
      split; [rewrite Hcb; reflexivity|auto].
Qed.

Lemma frames_loop_fuel (M : Z) :
  0 <= M < 2 ^ 32 ->
  forall n m p bufs,
    len_in_range p ->
    frames_loop n M m p bufs <> Fault LoopFuel.
Proof.
  intros HM. induction n as [|n IH]; intros m p bufs Hp; cbn [frames_loop];
    [discriminate|].
  destruct (a2dp_lhdc_read_feeding m) as [[read_buffer|] m0]; [|discriminate].
  destruct (lhdc_encode_func _ _ _) as [[out_len wb] w2].
  pose proof (frag_loop_fuel (frag_fuel out_len) M wb HM 0 out_len p bufs w2 Hp
                ltac:(unfold frag_fuel; lia)) as Hf.
  destruct (frag_loop _ _ _ _ _ _ _ _) as [[[p2 bufs2] w3]| |f].
  - apply IH. exact Hf.
  - discriminate.
  - destruct f; try discriminate. contradiction.
Qed.

Lemma mtu_range_u32 (M : Z) : mtu_range M -> 0 <= M < 2 ^ 32.
Proof. unfold mtu_range. lia. Qed.

(** [LoopFuel] is not an outcome of a tick. *)
Lemma encode_frames_fuel (nb : Z) (m : machine) :
  a2dp_lhdc_encode_frames nb m <> Fault LoopFuel.
Proof.
  unfold a2dp_lhdc_encode_frames. cbv zeta.
  pose proof (frames_loop_fuel (max_mtu_len (cb m))
                (mtu_range_u32 _ (max_mtu_len_range (cb m)))
                (Z.to_nat (u8 nb)) m None [] I) as Hf.
  destruct (frames_loop _ _ m None []) as [[[m1 p1] bufs1]|h m1|f].
  - destruct p1 as [p|]; [|discriminate].
    destruct (_ <? _); discriminate.
  - discriminate.
  - intros E. inversion E. subst. contradiction.
Qed.

(** *** Ticks that fit run to their end *)

Lemma frag_loop_completes (fuel : nat) (M : Z) (wb : list byte) :
  0 < M < 2 ^ 16 -> malloc_succeeds ->
  forall off n p bufs w,
    0 <= off -> off + n <= Z.of_nat (length wb) ->
    open_below M p ->
    held M p bufs + n <= P_BTBUFS_LEN * M ->
    (Z.to_nat n <= fuel)%nat ->
    exists p' bufs' w',
      frag_loop fuel M wb off n p bufs w = Ok (p', bufs', w')
      /\ open_below M p'
      /\ held M p' bufs' = held M p bufs + Z.max n 0.
Proof.
  intros HM Halloc.
  induction fuel as [|fuel IH]; intros off n p bufs w Hoff Hsrc Hp Hheld Hfuel;
    cbn [frag_loop]; rewrite Z.gtb_ltb; destruct (0 <? n) eqn:En;
    try (apply Z.ltb_ge in En; exists p, bufs, w;
         repeat split; [assumption|lia]).
  - apply Z.ltb_lt in En. lia.
  - apply Z.ltb_lt in En.
    assert (Hopen : exists p0 w1,
               (match p with Some q => (Some q, w) | None => bt_buf_new w end)
               = (Some p0, w1)
               /\ 0 <= len p0 < M
               /\ held M p bufs = Z.of_nat (length bufs) * M + len p0).
    { destruct p as [q|].
      - exists q, w. cbn in Hp. repeat split; auto; lia.
      - unfold bt_buf_new. specialize (Halloc w).
        destruct (osi_malloc w) as [ok w1]. cbn in Halloc. subst ok.
        eexists _, w1. split; [reflexivity|]. unfold held. cbn. lia. }
    destruct Hopen as (p0 & w1 & -> & Hl0 & Hh0). cbv zeta.
    rewrite (i32_small (M - len p0)) by lia.
    set (bytes := if n <? M - len p0 then n else M - len p0).
    assert (Hb : 0 < bytes <= M - len p0 /\ bytes <= n).
    { unfold bytes. destruct (n <? M - len p0) eqn:E;
        [apply Z.ltb_lt in E | apply Z.ltb_ge in E]; lia. }
    replace (bytes <? 0) with false by (symmetry; apply Z.ltb_ge; lia).
    replace (Z.of_nat (length wb) <? off + bytes) with false
      by (symmetry; apply Z.ltb_ge; lia).
    cbn [len]. rewrite (u16_small (len p0 + bytes)) by lia.
    unfold P_BTBUFS_LEN in *.
    destruct (len p0 + bytes >=? M) eqn:Ecl.
    + rewrite Z.geb_leb in Ecl. apply Z.leb_le in Ecl.
      assert (Hslot : Z.of_nat (length bufs) < 16) by nia.
      replace (Z.of_nat (length bufs) <? 16) with true
        by (symmetry; apply Z.ltb_lt; exact Hslot).
      match goal with
      | |- context [frag_loop fuel M wb ?o ?k ?q ?b ?x] =>
          destruct (IH o k q b x) as (p' & bufs' & w' & Hr & Hp' & Hh')
      end; try lia.
      * exact I.
      * unfold held. rewrite length_app. cbn [length]. nia.
      * exists p', bufs', w'. split; [exact Hr|]. split; [exact Hp'|].
        rewrite Hh'. unfold held at 1. rewrite length_app. cbn [length]. nia.
    + rewrite Z.geb_leb in Ecl. apply Z.leb_gt in Ecl.
      match goal with
      | |- context [frag_loop fuel M wb ?o ?k ?q ?b ?x] =>
          destruct (IH o k q b x) as (p' & bufs' & w' & Hr & Hp' & Hh')
      end; try lia.
      * cbn. lia.
      * unfold held. cbn [len]. lia.
      * exists p', bufs', w'. split; [exact Hr|]. split; [exact Hp'|].
        rewrite Hh'. unfold held at 1. cbn [len]. lia.
Qed.

Lemma frames_loop_completes (M cap : Z) :
  0 < M < 2 ^ 16 -> 0 <= cap -> malloc_succeeds -> codec_within cap ->
  forall n m p bufs,
    open_below M p ->
    held M p bufs + Z.of_nat n * cap <= P_BTBUFS_LEN * M ->
    exists m1 p1 bufs1,
      frames_loop n M m p bufs = Done (m1, p1, bufs1)
      /\ open_below M p1
      /\ held M p1 bufs1 <= P_BTBUFS_LEN * M.
Proof.
  intros HM Hcap Halloc Hcodec.
  induction n as [|n IH]; intros m p bufs Hp Hheld; cbn [frames_loop].
  - exists m, p, bufs. repeat split; [assumption|lia].
  - destruct (a2dp_lhdc_read_feeding m) as [[read_buffer|] m0].
    + pose proof (Hcodec (world m0) (lhdc_handle (cb m0)) read_buffer) as Hc.
      destruct (lhdc_encode_func _ _ _) as [[out_len wb] w2].
      destruct Hc as [Hc1 Hc2].
      destruct (frag_loop_completes (frag_fuel out_len) M wb HM Halloc
                  0 out_len p bufs w2 ltac:(lia) ltac:(lia) Hp
                  ltac:(lia) ltac:(unfold frag_fuel; lia))
        as (p' & bufs' & w' & -> & Hp' & Hh').
      apply IH; [exact Hp'|]. lia.
    + eexists _, p, bufs. repeat split; [assumption|lia].
Qed.

(** A tick whose frames cannot fill more than sixteen buffers, with an
    allocator that succeeds and a codec that stays inside its buffer, runs
    to its end. *)
Lemma encode_frames_completes (nb cap : Z) (m : machine) :
  0 < max_mtu_len (cb m) < 2 ^ 16 -> 0 <= cap ->
  malloc_succeeds -> codec_within cap ->
  u8 nb * cap <= P_BTBUFS_LEN * max_mtu_len (cb m) ->
  exists m', a2dp_lhdc_encode_frames nb m = Done m'.
Proof.
  intros HM Hcap Halloc Hcodec Hfit.
  unfold a2dp_lhdc_encode_frames. cbv zeta.
  destruct (frames_loop_completes _ cap HM Hcap Halloc Hcodec
              (Z.to_nat (u8 nb)) m None [] I)
    as (m1 & p1 & bufs1 & -> & Hp & Hheld).
  { unfold held. cbn [length]. rewrite Z2Nat.id by apply u8_range. lia. }
  destruct p1 as [p|]; [|eexists; reflexivity].
  unfold held, P_BTBUFS_LEN in *. cbn in Hp.
  replace (Z.of_nat (length bufs1) <? 16) with true
    by (symmetry; apply Z.ltb_lt; nia).
  eexists; reflexivity.
Qed.

(** *** Emission *)

Lemma u16_lor_u16 (a b : Z) : u16 (Z.lor (u16 a) b) = u16 (Z.lor a b).
Proof.
  unfold u16. apply Z.bits_inj'. intros k Hk.
  destruct (Z_lt_le_dec k 16).
  - rewrite !Z.mod_pow2_bits_low by lia. rewrite !Z.lor_spec.
    rewrite Z.mod_pow2_bits_low by lia. reflexivity.
  - rewrite !Z.mod_pow2_bits_high by lia. reflexivity.
Qed.

Lemma tag_fragment_meta (latency nb i n ls : Z) :
  tag_fragment latency nb i n ls = u16 (Z.lor ls (fragment_meta latency nb i n)).
Proof.
  unfold tag_fragment, fragment_meta. cbv zeta.
  destruct (i =? 0); [|destruct (i =? n - 1)];
    rewrite ?u16_lor_u16, ?Z.lor_assoc; reflexivity.
Qed.

Lemma set_buf_seq_same (c : tA2DP_LHDC_ENCODER_CB) : set_buf_seq (buf_seq c) c = c.
Proof. destruct c. reflexivity. Qed.

Lemma stamp_and_enqueue_spec (tag : Z -> Z) (meta : Z) (p : BT_HDR) (m : machine) :
  (forall ls, tag ls = u16 (Z.lor ls meta)) ->
  exists accepted,
    log (stamp_and_enqueue tag p m)
    = log m ++ [EvEnqueue (stamped (buf_seq (cb m)) (timestamp (cb m)) meta p)
                          1 accepted]
    /\ cb (stamp_and_enqueue tag p m)
       = set_buf_seq (u32 (buf_seq (cb m) + 1)) (cb m).
Proof.
  intros Htag. unfold stamp_and_enqueue. cbv zeta. rewrite Htag.
  destruct (enqueue_callback _ _ _) as [accepted w1].
  exists accepted. split; reflexivity.
Qed.

Lemma emit_loop_spec (latency nb n : Z) (rest : list BT_HDR) :
  forall i m,
  exists evs,
    log (emit_loop latency nb n i rest m) = log m ++ evs
    /\ enqueued evs
       = stamps (fun j => fragment_meta latency nb j n)
                (buf_seq (cb m)) (timestamp (cb m)) i rest
    /\ Forall is_enqueue evs
    /\ cb (emit_loop latency nb n i rest m)
       = set_buf_seq (seq_adv (buf_seq (cb m)) (length rest)) (cb m).
Proof.
  induction rest as [|p rest IH]; intros i m.
  - exists []. cbn. rewrite app_nil_r, set_buf_seq_same. auto.
  - cbn [emit_loop].
    destruct (stamp_and_enqueue_spec (tag_fragment latency nb i n)
                (fragment_meta latency nb i n) p m
                (tag_fragment_meta latency nb i n))
      as (acc & Hlog & Hcb).
    destruct (IH (i + 1) (stamp_and_enqueue (tag_fragment latency nb i n) p m))
      as (evs & Hlog' & Henq & Hall & Hcb').
    eexists (_ :: evs).
    rewrite Hlog', Hlog, <- app_assoc. split; [reflexivity|].
    rewrite Hcb in *. cbn [enqueued flat_map app stamps length seq_adv].
    split; [f_equal; exact Henq|].
    split; [constructor; [exact I|exact Hall]|].
    rewrite Hcb'. reflexivity.
Qed.

(** The array is never left with more than sixteen slots written. *)
Lemma frag_loop_slots (fuel : nat) (M : Z) (wb : list byte) :
  forall off n p bufs w p' bufs' w',
    Z.of_nat (length bufs) <= P_BTBUFS_LEN ->
    frag_loop fuel M wb off n p bufs w = Ok (p', bufs', w') ->
    Z.of_nat (length bufs') <= P_BTBUFS_LEN.
Proof.
  induction fuel as [|fuel IH]; intros off n p bufs w p' bufs' w' Hlen H;
    cbn [frag_loop] in H; destruct (n >? 0); try discriminate;
    try (inversion H; subst; assumption).
  destruct (match p with Some q => (Some q, w) | None => bt_buf_new w end)
    as [[p0|] w1]; [|discriminate].
  cbv zeta in H.
  destruct (_ <? 0); [discriminate|].
  destruct (_ <? _ + _); [discriminate|].
  destruct (_ >=? M).
  - destruct (Z.of_nat (length bufs) <? P_BTBUFS_LEN) eqn:E; [|discriminate].
    apply Z.ltb_lt in E. apply IH in H; [assumption|].
    rewrite length_app. cbn [length]. lia.
  - apply IH in H; assumption.
Qed.

Lemma frames_loop_slots (M : Z) :
  forall n m p bufs m1 p1 bufs1,
    Z.of_nat (length bufs) <= P_BTBUFS_LEN ->
    frames_loop n M m p bufs = Done (m1, p1, bufs1) ->
    Z.of_nat (length bufs1) <= P_BTBUFS_LEN.
Proof.
  induction n as [|n IH]; intros m p bufs m1 p1 bufs1 Hlen H; cbn [frames_loop] in H.
  - inversion H; subst; assumption.
  - destruct (a2dp_lhdc_read_feeding m) as [[read_buffer|] m0].
    + destruct (lhdc_encode_func _ _ _) as [[out_len wb] w2].
      destruct (frag_loop _ _ _ _ _ _ _ _) as [[[p2 bufs2] w3]| |] eqn:Ef;
        try discriminate.
      apply frag_loop_slots in Ef; [|assumption].
      apply IH in H; assumption.
    + inversion H; subst; assumption.
Qed.

(** What a tick that reaches its end has done: the frame loop ran to its
    end, at most sixteen buffers were closed, and each was stamped and
    handed to the sink in order. *)
Lemma encode_frames_done (nb : Z) (m m' : machine) :
  a2dp_lhdc_encode_frames nb m = Done m' ->
  exists m1 p1 bufs1 evs2,
    frames_loop (Z.to_nat (u8 nb)) (max_mtu_len (cb m)) m None []
    = Done (m1, p1, bufs1)
    /\ Z.of_nat (length (bufs1 ++ opt_list p1)) <= P_BTBUFS_LEN
    /\ log m' = log m1 ++ evs2
    /\ enqueued evs2
       = stamps (tick_meta (u8 (latency_mode_index (cb m))) (u8 nb)
                           (Z.of_nat (length (bufs1 ++ opt_list p1))))
                (buf_seq (cb m1)) (timestamp (cb m1)) 0 (bufs1 ++ opt_list p1)
    /\ Forall is_enqueue evs2
    /\ cb m'
       = set_timestamp
           (u32 (timestamp (cb m1) + u8 nb * LHDCBT_ENC_BLOCK_SIZE))
           (set_buf_seq
              (seq_adv (buf_seq (cb m1)) (length (bufs1 ++ opt_list p1)))
              (cb m1)).
Proof.
  unfold a2dp_lhdc_encode_frames. cbv zeta.
  destruct (frames_loop _ _ m None []) as [[[m1 p1] bufs1]| |] eqn:Ef;
    try discriminate.
  intros H. exists m1, p1, bufs1.
  assert (Hslots : Z.of_nat (length bufs1) <= P_BTBUFS_LEN).
  { eapply frames_loop_slots; [|exact Ef]. cbn. unfold P_BTBUFS_LEN. lia. }
  set (closed := bufs1 ++ opt_list p1).
  assert (Hc : (match p1 with
                | None => Ok bufs1
                | Some p =>
                    if Z.of_nat (length bufs1) <? P_BTBUFS_LEN
                    then Ok (bufs1 ++ [p])
                    else Bad (ArrayOverrun (Z.of_nat (length bufs1)))
                end) = (Ok closed : loop_result (list BT_HDR))
               /\ Z.of_nat (length closed) <= P_BTBUFS_LEN).
  { unfold closed. destruct p1 as [p|]; cbn [opt_list].
    - destruct (Z.of_nat (length bufs1) <? P_BTBUFS_LEN) eqn:E;
        [|discriminate H].
      apply Z.ltb_lt in E. split; [reflexivity|].
      rewrite length_app. cbn [length]. lia.
    - rewrite app_nil_r. auto. }
  destruct Hc as [Hc Hlen]. rewrite Hc in H. clear Hc.
  inversion H; subst m'; clear H. cbn [log cb].
  unfold tick_meta.
  destruct (Z.of_nat (length closed) =? 1) eqn:E1.
  - apply Z.eqb_eq in E1.
    destruct closed as [|p [|q rest]]; cbn [length] in E1; try lia.
    destruct (stamp_and_enqueue_spec
                (tag_single (u8 (latency_mode_index (cb m))) (u8 nb))
                (Z.lor (u8 (latency_mode_index (cb m)))
                       (Z.shiftl (u8 nb) A2DP_LHDC_HDR_NUM_SHIFT)) p m1
                (fun ls => eq_refl))
      as (acc & Hlog & Hcb).
    eexists [_]. split; [reflexivity|]. split; [assumption|].
    rewrite Hlog, Hcb. split; [reflexivity|].
    split; [reflexivity|]. split; [repeat constructor|]. reflexivity.
  - destruct (emit_loop_spec (u8 (latency_mode_index (cb m))) (u8 nb)
                (Z.of_nat (length closed)) closed 0 m1)
      as (evs & Hlog & Henq & Hall & Hcb).
    exists evs. split; [reflexivity|]. split; [assumption|].
    rewrite Hlog, Hcb. auto.
Qed.

(** *** Stamping keeps the payload and fills in the header *)

Lemma length_stamps meta seq ts i l : length (stamps meta seq ts i l) = length l.
Proof. revert seq i. induction l; intros; cbn; auto. Qed.




Lemma nth_error_stamps meta seq ts i l k q :
  nth_error (stamps meta seq ts i l) k = Some q ->
  exists p, nth_error l k = Some p
            /\ q = stamped (seq_adv seq k) ts (meta (i + Z.of_nat k)) p.
Proof.
  revert seq i k. induction l as [|p l IH]; intros seq i k H.
  - destruct k; discriminate.
  - destruct k as [|k]; cbn in H.
    + inversion H; subst. exists p. cbn. rewrite Z.add_0_r. auto.
    + apply IH in H. destruct H as (p' & Hn & Hq). exists p'. split; [exact Hn|].
      rewrite Hq. cbn [seq_adv]. do 2 f_equal. lia.
Qed.

Lemma seq_adv_mod (seq : Z) (k : nat) :
  seq_adv seq k mod 2 ^ 8 = (seq + Z.of_nat k) mod 2 ^ 8.
Proof.
  revert seq. induction k as [|k IH]; intros seq.
  - cbn. rewrite Z.add_0_r. reflexivity.
  - cbn [seq_adv]. rewrite IH. unfold u32.
    rewrite Z.add_mod by lia.
    rewrite Z.mod_mod_divide by (exists (2 ^ 24); reflexivity).
    rewrite <- Z.add_mod by lia. f_equal. lia.
Qed.

Lemma testbit_below (a n k : Z) :
  0 <= n -> 0 <= a < 2 ^ n -> n <= k -> Z.testbit a k = false.
Proof.
  intros Hn Ha Hk. rewrite <- (Z.mod_small a (2 ^ n)) by lia.
  apply Z.mod_pow2_bits_high. lia.
Qed.



(** The high byte is the sequence counter, when the metadata fits the low
    byte. *)
Lemma hdr_seq_stamped (seq ts meta : Z) (p : BT_HDR) :
  0 <= meta < 2 ^ 8 ->
  hdr_seq (stamped seq ts meta p) = seq mod 2 ^ 8.
Proof.
  intros Hm. unfold hdr_seq. change 0xff with (Z.ones 8).
  rewrite Z.land_ones by lia.
  apply Z.bits_inj'. intros k Hk.
  destruct (Z_lt_le_dec k 8).
  - rewrite !Z.mod_pow2_bits_low by lia.
    rewrite Z.shiftr_spec by lia.
    unfold stamped, u16. cbn [layer_specific].
    rewrite Z.mod_pow2_bits_low by lia.
    rewrite Z.lor_spec.
    rewrite (testbit_below meta 8 (k + 8)) by lia.
    rewrite orb_false_r.
    rewrite Z.mod_pow2_bits_low by lia.
    rewrite Z.shiftl_spec by lia.
    replace (k + 8 - 8) with k by lia.
    apply Z.mod_pow2_bits_low. lia.
  - rewrite !Z.mod_pow2_bits_high by lia. reflexivity.
Qed.

Lemma frames_log_quiet sz n evs k :
  frames_log sz n evs k -> enqueued evs = [].
Proof. induction 1; cbn; auto. Qed.

Lemma enqueued_app l1 l2 : enqueued (l1 ++ l2) = enqueued l1 ++ enqueued l2.
Proof. apply flat_map_app. Qed.

Lemma encoded_app l1 l2 : encoded (l1 ++ l2) = encoded l1 ++ encoded l2.
Proof. apply flat_map_app. Qed.

Lemma encoded_enqueues evs : Forall is_enqueue evs -> encoded evs = [].
Proof.
  induction 1 as [|e evs He _ IH]; [reflexivity|].
  destruct e; cbn in *; try contradiction. exact IH.
Qed.

Lemma frag_inv_start (M : Z) : frag_inv M None [].
Proof. unfold frag_inv. destruct (M <? 2 ^ 16); auto. Qed.

(** A tick that reaches its end, with both halves of its log. *)
Lemma encode_frames_log (nb : Z) (m m' : machine) :
  a2dp_lhdc_encode_frames nb m = Done m' ->
  exists p1 bufs1 evs1 evs2 k s,
    let M := max_mtu_len (cb m) in
    let closed := bufs1 ++ opt_list p1 in
    let seq1 := seq_adv (buf_seq (cb m)) (length closed) in
    log m' = log m ++ evs1 ++ evs2
    /\ frames_log (enc_block_bytes (cb m)) (Z.to_nat (u8 nb)) evs1 k
    /\ frag_inv M p1 bufs1
    /\ payloads closed = encoded evs1
    /\ Z.of_nat (length closed) <= P_BTBUFS_LEN
    /\ enqueued evs2
       = stamps (tick_meta (u8 (latency_mode_index (cb m))) (u8 nb)
                           (Z.of_nat (length closed)))
                (buf_seq (cb m)) (timestamp (cb m)) 0 closed
    /\ Forall is_enqueue evs2
    /\ cb m'
       = set_timestamp (u32 (timestamp (cb m) + u8 nb * LHDCBT_ENC_BLOCK_SIZE))
           (set_buf_seq seq1 (set_counter (refund (cb m) k) (set_stats s (cb m))))
    /\ (encode_calls evs1 = 0 -> closed = []).
Proof.
  intros H. apply encode_frames_done in H.
  destruct H as (m1 & p1 & bufs1 & evs2 & Hf & Hlen & Hlog & Henq & Hall & Hcb).
  apply frames_loop_ok in Hf; [|apply max_mtu_len_range|apply frag_inv_start].
  destruct Hf as (evs1 & k & s & Hlog1 & Hshape & Hinv & Hpay & Hcb1 & Hnone).
  exists p1, bufs1, evs1, evs2, k, s. cbv zeta.
  rewrite Hcb1 in *. cbn [buf_seq timestamp set_counter set_feeding_state set_stats] in *.
  repeat split; try assumption.
  - rewrite Hlog, Hlog1, app_assoc. reflexivity.
  - intros E. destruct (Hnone E) as [-> ->]. reflexivity.
Qed.


(** *** Header metadata *)

Lemma below_of_bits (a n : Z) :
  0 <= n -> 0 <= a ->
  (forall k, n <= k -> Z.testbit a k = false) -> a < 2 ^ n.
Proof.
  intros Hn Ha Hbits.
  assert (E : a mod 2 ^ n = a).
  { apply Z.bits_inj'. intros k Hk. destruct (Z_lt_le_dec k n).
    - apply Z.mod_pow2_bits_low. lia.
    - rewrite Z.mod_pow2_bits_high by lia. symmetry. apply Hbits. lia. }
  rewrite <- E. apply Z.mod_pos_bound. apply Z.pow_pos_nonneg; lia.
Qed.

Lemma lor_below (n a b : Z) :
  0 <= n -> 0 <= a < 2 ^ n -> 0 <= b < 2 ^ n -> 0 <= Z.lor a b < 2 ^ n.
Proof.
  intros Hn Ha Hb. split; [apply Z.lor_nonneg; lia|].
  apply below_of_bits; [lia|apply Z.lor_nonneg; lia|].
  intros k Hk. rewrite Z.lor_spec, (testbit_below a n k), (testbit_below b n k); auto.
Qed.

Lemma count_field_nonneg (nb : Z) : 0 <= count_field nb.
Proof. apply Z.shiftl_nonneg. apply u8_range. Qed.



(** The frame count is or-ed in unmasked.  Whatever value from 0 to 7
    [A2DP_LHDC_HDR_NUM_SHIFT] has, a frame count that fits [uint8_t]
    reaches the fragment flag of a lone packet; with a value from 1 to 8
    one reaches the lowest bit of the sequence byte; with 0 none does. *)
Lemma lone_packet_flag_any_shift (latency ls : Z) :
  0 <= A2DP_LHDC_HDR_NUM_SHIFT <= 7 ->
  0 < 2 ^ (7 - A2DP_LHDC_HDR_NUM_SHIFT) < 2 ^ 8
  /\ Z.testbit (tag_single latency (2 ^ (7 - A2DP_LHDC_HDR_NUM_SHIFT)) ls) 7 = true.
Proof.
  intros Hs. split.
  - split; [apply Z.pow_pos_nonneg; lia|apply Z.pow_lt_mono_r; lia].
  - unfold tag_single, u16. rewrite Z.mod_pow2_bits_low by lia.
    rewrite !Z.lor_spec, Z.shiftl_mul_pow2, <- Z.pow_add_r by lia.
    replace (7 - A2DP_LHDC_HDR_NUM_SHIFT + A2DP_LHDC_HDR_NUM_SHIFT) with 7 by lia.
    rewrite Z.pow2_bits_true by lia. rewrite !orb_true_r. reflexivity.
Qed.

Lemma sequence_bit_any_shift (latency ls : Z) :
  1 <= A2DP_LHDC_HDR_NUM_SHIFT <= 8 ->
  0 < 2 ^ (8 - A2DP_LHDC_HDR_NUM_SHIFT) < 2 ^ 8
  /\ Z.testbit (tag_single latency (2 ^ (8 - A2DP_LHDC_HDR_NUM_SHIFT)) ls) 8 = true.
Proof.
  intros Hs. split.
  - split; [apply Z.pow_pos_nonneg; lia|apply Z.pow_lt_mono_r; lia].
  - unfold tag_single, u16. rewrite Z.mod_pow2_bits_low by lia.
    rewrite !Z.lor_spec, Z.shiftl_mul_pow2, <- Z.pow_add_r by lia.
    replace (8 - A2DP_LHDC_HDR_NUM_SHIFT + A2DP_LHDC_HDR_NUM_SHIFT) with 8 by lia.
    rewrite Z.pow2_bits_true by lia. rewrite !orb_true_r. reflexivity.
Qed.

Lemma count_field_fits_unshifted (nb : Z) :
  A2DP_LHDC_HDR_NUM_SHIFT = 0 -> count_field nb < 2 ^ 8.
Proof.
  intros Hs. unfold count_field. rewrite Hs, Z.shiftl_0_r. apply u8_range.
Qed.


(** *** Sequence numbers *)

Lemma tick_meta_range (latency nb n i : Z) :
  0 <= latency < 2 ^ 8 -> count_field nb < 2 ^ 8 ->
  0 <= tick_meta latency (u8 nb) n i < 2 ^ 8.
Proof.
  intros Hl Hc. pose proof (count_field_nonneg nb) as Hc0.
  unfold count_field in *.
  unfold tick_meta, fragment_meta,
    A2DP_LHDC_HDR_F_MSK, A2DP_LHDC_HDR_S_MSK, A2DP_LHDC_HDR_L_MSK.
  destruct (n =? 1); [apply (lor_below 8); lia|].
  destruct (i =? 0); [|destruct (i =? n - 1)];
    repeat (apply (lor_below 8); try lia).
Qed.

(** The sequence bytes of one tick count up from [buf_seq], which moves on
    by the number of packets. *)
Lemma tick_seq (nb : Z) (m m' : machine) :
  count_field nb < 2 ^ 8 ->
  a2dp_lhdc_encode_frames nb m = Done m' ->
  exists evs,
    log m' = log m ++ evs
    /\ (forall i p, nth_error (enqueued evs) i = Some p ->
                    hdr_seq p = (buf_seq (cb m) + Z.of_nat i) mod 2 ^ 8)
    /\ buf_seq (cb m') mod 2 ^ 8
       = (buf_seq (cb m) + Z.of_nat (length (enqueued evs))) mod 2 ^ 8.
Proof.
  intros Hc H. apply encode_frames_log in H.
  destruct H as (p1 & bufs1 & evs1 & evs2 & k & s & H). cbv zeta in H.
  destruct H as (Hlog & Hshape & _ & _ & _ & Henq & _ & Hcb & _).
  exists (evs1 ++ evs2). split; [exact Hlog|].
  rewrite enqueued_app, (frames_log_quiet _ _ _ _ Hshape), Henq. cbn [app].
  split.
  - intros i p Hp. apply nth_error_stamps in Hp. destruct Hp as (q & _ & ->).
    rewrite hdr_seq_stamped by (apply tick_meta_range; [apply u8_range|exact Hc]).
    apply seq_adv_mod.
  - rewrite Hcb, length_stamps. cbn [buf_seq set_timestamp set_buf_seq].
    apply seq_adv_mod.
Qed.

Lemma session_seq (nbs : list Z) :
  forall m m',
    Forall (fun nb => count_field nb < 2 ^ 8) nbs ->
    encode_session nbs m = Done m' ->
    exists evs,
      log m' = log m ++ evs
      /\ (forall i p, nth_error (enqueued evs) i = Some p ->
                      hdr_seq p = (buf_seq (cb m) + Z.of_nat i) mod 2 ^ 8)
      /\ buf_seq (cb m') mod 2 ^ 8
         = (buf_seq (cb m) + Z.of_nat (length (enqueued evs))) mod 2 ^ 8.
Proof.
  induction nbs as [|nb nbs IH]; intros m m' Hall H.
  - cbn in H. inversion H; subst. exists []. rewrite app_nil_r. cbn.
    repeat split; [|rewrite Z.add_0_r; reflexivity].
    intros [|i] p Hp; discriminate.
  - cbn [encode_session] in H. inversion Hall as [|? ? Hnb Hrest]; subst.
    destruct (a2dp_lhdc_encode_frames nb m) as [m1| |] eqn:Et; try discriminate.
    destruct (tick_seq nb m m1 Hnb Et) as (evs1 & Hlog1 & Hseq1 & Hnext1).
    destruct (IH m1 m' Hrest H) as (evs2 & Hlog2 & Hseq2 & Hnext2).
    exists (evs1 ++ evs2).
    split; [rewrite Hlog2, Hlog1, app_assoc; reflexivity|].
    rewrite enqueued_app, length_app.
    split.
    + intros i p Hp. destruct (Nat.lt_ge_cases i (length (enqueued evs1))) as [Hi|Hi].
      * rewrite nth_error_app1 in Hp by exact Hi. apply Hseq1. exact Hp.
      * rewrite nth_error_app2 in Hp by exact Hi. apply Hseq2 in Hp. rewrite Hp.
        rewrite Z.add_mod, Hnext1, <- Z.add_mod by lia. f_equal. lia.
    + rewrite Hnext2. rewrite Z.add_mod, Hnext1, <- Z.add_mod by lia. f_equal. lia.
Qed.

(** C5.  Over a session of ticks, the sequence byte of every packet handed
    to the sink is that of the packet before it plus one, modulo 256.  The
    frame count of each tick is taken to fit the metadata byte, which the
    sequence byte sits above. *)
Theorem sequence_numbers (nbs : list Z) (m m' : machine) :
  Forall (fun nb => count_field nb < 2 ^ 8) nbs ->
  encode_session nbs m = Done m' ->
  exists evs,
    log m' = log m ++ evs
    /\ forall i p q,
         nth_error (enqueued evs) i = Some p ->
         nth_error (enqueued evs) (S i) = Some q ->
         hdr_seq q = (hdr_seq p + 1) mod 256.
Proof.
  intros Hall H. destruct (session_seq nbs m m' Hall H) as (evs & Hlog & Hseq & _).
  exists evs. split; [exact Hlog|]. intros i p q Hp Hq.
  rewrite (Hseq _ _ Hp), (Hseq _ _ Hq).
  change 256 with (2 ^ 8). rewrite Z.add_mod_idemp_l by lia. f_equal. lia.
Qed.

(** *** Timestamps *)

Lemma Forall_stamps_ts meta seq ts i l :
  Forall (fun p => media_timestamp p = Some ts) (stamps meta seq ts i l).
Proof. revert seq i. induction l; intros; cbn; constructor; auto. Qed.

(** X20.  Every packet of a tick carries the session timestamp the tick
    began with; the tick then advances it by the number of frames it was
    asked for, whether or not all of them were produced. *)
Lemma tick_timestamps (nb : Z) (m m' : machine) :
  a2dp_lhdc_encode_frames nb m = Done m' ->
  exists evs,
    log m' = log m ++ evs
    /\ Forall (fun p => media_timestamp p = Some (timestamp (cb m))) (enqueued evs)
    /\ timestamp (cb m') = u32 (timestamp (cb m) + u8 nb * LHDCBT_ENC_BLOCK_SIZE).
Proof.
  intros H. apply encode_frames_log in H.
  destruct H as (p1 & bufs1 & evs1 & evs2 & k & s & H). cbv zeta in H.
  destruct H as (Hlog & Hshape & _ & _ & _ & Henq & _ & Hcb & _).
  exists (evs1 ++ evs2). split; [exact Hlog|].
  rewrite enqueued_app, (frames_log_quiet _ _ _ _ Hshape), Henq. cbn [app].
  split; [apply Forall_stamps_ts|]. rewrite Hcb. reflexivity.
Qed.

(** *** Underflow *)

Lemma enqueues_only (evs : list event) :
  Forall is_enqueue evs ->
  reads evs = [] /\ encode_calls evs = 0
  /\ (enqueued evs = [] -> evs = []).
Proof.
  induction 1 as [|e evs He _ IH]; [auto|].
  destruct e; cbn in He; try contradiction.
  destruct IH as (Hr & Hc & _). repeat split; try assumption. discriminate.
Qed.

Lemma encode_calls_cons_read sz d l : encode_calls (EvRead sz d :: l) = encode_calls l.
Proof. reflexivity. Qed.

Lemma encode_calls_cons_encode n wb l :
  encode_calls (EvEncode n wb :: l) = encode_calls l + 1.
Proof. unfold encode_calls. cbn [flat_map app length]. lia. Qed.

(** Where a read of zero bytes sits in the log of a tick: at the end of
    the frame loop, after one encode call for every frame produced. *)
Lemma frames_log_underflow_inv sz n evs1 k :
  frames_log sz n evs1 k ->
  0 < sz ->
  forall evs2 pre post sz',
    Forall is_enqueue evs2 ->
    evs1 ++ evs2 = pre ++ EvRead sz' [] :: post ->
    post = evs2 /\ sz' = sz
    /\ Z.of_nat k = Z.of_nat n - encode_calls pre /\ (0 < k)%nat
    /\ encode_calls evs1 = encode_calls pre.
Proof.
  induction 1 as [|n d Hu|n d out_len wb evs k Hu Hlog IH];
    intros Hsz evs2 pre post sz' Hall Heq.
  - cbn in Heq. subst evs2. apply Forall_app in Hall. destruct Hall as [_ Hall].
    inversion Hall as [|? ? He _]; subst. contradiction.
  - destruct pre as [|e pre]; cbn in Heq.
    + inversion Heq; subst. unfold encode_calls. cbn. repeat split; lia.
    + inversion Heq as [[He Hrest]]. subst evs2.
      apply Forall_app in Hall. destruct Hall as [_ Hall].
      inversion Hall as [|? ? He' _]; subst. contradiction.
  - destruct pre as [|e1 [|e2 pre]]; cbn in Heq.
    + inversion Heq; subst. unfold underflow in Hu. cbn in Hu.
      apply andb_false_iff in Hu. destruct Hu as [Hu|Hu]; [|discriminate].
      apply Z.ltb_ge in Hu. unfold u32 in Hu. cbn in Hu. lia.
    + inversion Heq.
    + inversion Heq as [[He1 He2 Hrest]]. subst e1 e2.
      destruct (IH Hsz evs2 pre post sz' Hall Hrest) as (Hp & Hs & Hk & Hk0 & Hc).
      rewrite !encode_calls_cons_read, !encode_calls_cons_encode.
      repeat split; try assumption; lia.
Qed.

(** C6.  A PCM read that returns zero bytes makes [a2dp_lhdc_read_feeding]
    return [false]; the tick then gives the PCM bytes of every frame it has
    not produced back to [counter] and reads and encodes nothing more; when
    it was the first read of the tick, nothing is handed to the sink. *)
Theorem underflow_returns_budget (nb : Z) (m m' : machine)
  (pre post : list event) (sz : Z) :
  0 < enc_block_bytes (cb m) ->
  a2dp_lhdc_encode_frames nb m = Done m' ->
  log m' = log m ++ pre ++ EvRead sz [] :: post ->
  let unproduced := u8 nb - encode_calls pre in
  let fp := feeding_params (cb m) in
  (forall m0, enc_block_bytes (cb m0) = sz ->
              fst (read_callback (world m0) sz) = [] ->
              fst (a2dp_lhdc_read_feeding m0) = None)
  /\ 0 < unproduced
  /\ counter (lhdc_feeding_state (cb m'))
     = u32 (counter (lhdc_feeding_state (cb m))
            + unproduced * LHDCBT_ENC_BLOCK_SIZE * channel_count fp
              * bits_per_sample fp / 8)
  /\ reads post = [] /\ encode_calls post = 0
  /\ (pre = [] -> post = []).
Proof.
  intros Hsz H Hlog'. apply encode_frames_log in H.
  destruct H as (p1 & bufs1 & evs1 & evs2 & k & s & H). cbv zeta in H.
  destruct H as (Hlog & Hshape & _ & _ & _ & Henq & Hall & Hcb & Hnone).
  rewrite Hlog in Hlog'. apply app_inv_head in Hlog'.
  destruct (frames_log_underflow_inv _ _ _ _ Hshape Hsz _ _ _ _ Hall Hlog')
    as (-> & -> & Hk & Hk0 & Hcalls).
  destruct (enqueues_only _ Hall) as (Hr & Hc & Hempty).
  cbv zeta. split.
  { intros m0 Hm0 Hd. pose proof (read_feeding_spec m0) as Hspec.
    cbv zeta in Hspec. destruct Hspec as (_ & _ & _ & Hres).
    rewrite Hm0, Hd in Hres. unfold underflow in Hres. cbn in Hres.
    replace (0 <? enc_block_bytes (cb m)) with true in Hres
      by (symmetry; apply Z.ltb_lt; exact Hsz).
    exact Hres. }
  assert (Hn : Z.of_nat (Z.to_nat (u8 nb)) = u8 nb)
    by (apply Z2Nat.id; apply u8_range).
  split; [lia|].
  split.
  { rewrite Hcb. cbn [lhdc_feeding_state set_timestamp set_buf_seq set_counter
                        set_feeding_state counter].
    destruct k as [|k]; [lia|]. cbn [refund].
    rewrite <- Hn, <- Hk. reflexivity. }
  split; [exact Hr|]. split; [exact Hc|].
  intros ->. apply Hempty. rewrite Henq.
  rewrite Hnone; [reflexivity|]. rewrite Hcalls. reflexivity.
Qed.

End FragmentingFacts.

(** ** The single-buffer packetizer: properties *)

Section StreamingFacts.
Import Streaming.
Context {P : Platform}.

Lemma continues_refl (m : machine) : continues m m [].
Proof. unfold continues. rewrite app_nil_r. auto. Qed.

Lemma continues_trans (m1 m2 m3 : machine) (e1 e2 : list event) :
  continues m1 m2 e1 -> continues m2 m3 e2 -> continues m1 m3 (e1 ++ e2).
Proof.
  intros (L1 & B1 & H1 & D1) (L2 & B2 & H2 & D2). unfold continues.
  rewrite L2, L1, app_assoc, H2, H1, D2, D1. repeat split.
  apply Forall_app. split; [exact B1|]. rewrite <- H1. exact B2.
Qed.

Lemma continues_halted (h : halt) (m1 m2 m3 : machine) (e1 : list event) :
  continues m1 m2 e1 -> halted h m2 m3 -> halted h m1 m3.
Proof.
  intros (L1 & B1 & H1 & D1) (evs & last & L2 & B2 & Hh).
  exists (e1 ++ evs), last. rewrite L2, L1, <- !app_assoc.
  split; [reflexivity|]. rewrite H1, D1 in *.
  split; [apply Forall_app; auto|]. exact Hh.
Qed.

Lemma read_feeding_spec_s (m : machine) :
  let sz := enc_block_bytes (cb m) in
  let d := fst (read_callback (world m) sz) in
  exists s,
    cb (snd (a2dp_lhdc_read_feeding m)) = set_stats s (cb m)
    /\ media_read_total_dropped_packets s = dropped (cb m)
    /\ log (snd (a2dp_lhdc_read_feeding m)) = log m ++ [EvRead sz d]
    /\ (if underflow_s sz d
        then fst (a2dp_lhdc_read_feeding m) = None
        else exists read_buffer, fst (a2dp_lhdc_read_feeding m) = Some read_buffer).
Proof.
  cbv zeta. unfold a2dp_lhdc_read_feeding, underflow_s.
  destruct (read_callback (world m) (enc_block_bytes (cb m))) as [d w1]. cbn [fst].
  destruct (u32 (Z.of_nat (length d)) <? enc_block_bytes (cb m));
    [destruct (u32 (Z.of_nat (length d)) =? 0)|];
    cbn [fst snd cb log andb]; eexists; (split; [reflexivity|]);
    (split; [reflexivity|]); (split; [reflexivity|]); eauto.
Qed.

Lemma pcm_loop_log :
  forall n c w p m,
    match pcm_loop n c w p m with
    | Done st => exists evs, continues m (machine_ st) evs
    | Halt h m' => halted h m m'
    | Fault _ => True
    end.
Proof.
  induction n as [|n IH]; intros c w p m; cbn [pcm_loop].
  - exists []. apply continues_refl.
  - destruct (read_feeding_spec_s m) as (s & Hcb & Hd & Hlog & Hres).
    cbv zeta in *.
    set (sz := enc_block_bytes (cb m)) in *.
    set (d := fst (read_callback (world m) sz)) in *.
    destruct (a2dp_lhdc_read_feeding m) as [[read_buffer|] m1]; cbn [fst snd] in *.
    + destruct (underflow_s sz d) eqn:Eu; [discriminate|].
      assert (Hh : lhdc_handle (cb m1) = lhdc_handle (cb m)) by (rewrite Hcb; reflexivity).
      assert (Hdr : dropped (cb m1) = dropped (cb m)) by (rewrite Hcb; exact Hd).
      destruct (lhdc_handle (cb m1)) eqn:Eh; cbn [negb].
      * destruct (lhdc_encode_func (world m1) read_buffer) as [r w2].
        destruct (result r =? 0) eqn:Er; cbn [negb].
        -- apply Z.eqb_eq in Er.
           assert (Hstep : continues m (mkMachine (cb m1) w2 (log m1 ++ [EvEncode r]))
                                     [EvRead sz d; EvEncode r]).
           { unfold continues. cbn [log cb]. rewrite Hlog, <- app_assoc.
             split; [reflexivity|]. split; [|split; congruence].
             constructor; [cbn; intros; congruence|].
             constructor; [cbn; split; congruence|constructor]. }
           destruct ((written r =? 0) && negb (Nat.eqb n 0)).
           ++ match goal with
              | |- context [pcm_loop n ?c' ?w' ?p' ?mm] =>
                  specialize (IH c' w' p' mm);
                  destruct (pcm_loop n c' w' p' mm) as [st|h m'|f]
              end.
              ** destruct IH as (evs & Hc). eexists.
                 eapply continues_trans; [exact Hstep|exact Hc].
              ** eapply continues_halted; [exact Hstep|exact IH].
              ** exact I.
           ++ cbn [machine_]. eexists. exact Hstep.
        -- apply Z.eqb_neq in Er.
           exists [EvRead sz d], [EvEncode r; EvFree p]. cbn [log cb].
           rewrite Hlog, <- !app_assoc. split; [reflexivity|].
           split; [repeat constructor; cbn; rewrite <- Hh; discriminate|].
           split; [unfold dropped in *; cbn; rewrite Hdr; reflexivity|].
           exists r, p. auto.
      * exists [], [EvRead sz d; EvFree p]. cbn [log cb app].
        rewrite Hlog, <- !app_assoc. split; [reflexivity|].
        split; [constructor|].
        split; [unfold dropped in *; cbn; rewrite Hdr; reflexivity|].
        split; [congruence|]. exists sz, d, p. auto.
    + destruct (underflow_s sz d) eqn:Eu; [|destruct Hres; discriminate].
      cbn [machine_]. exists [EvRead sz d]. unfold continues. cbn [log cb].
      split; [exact Hlog|]. split; [repeat constructor; cbn; auto|].
      rewrite Hcb. split; reflexivity || exact Hd.
Qed.

Lemma packets_loop_log :
  forall fuel nb_frame remain w m,
    match packets_loop fuel nb_frame remain w m with
    | Done m' => exists evs, continues m m' evs
    | Halt h m' => halted h m m'
    | Fault _ => True
    end.
Proof.
  induction fuel as [|fuel IH]; intros nb_frame remain w m;
    destruct nb_frame as [|nb]; cbn [packets_loop];
    try (exists []; apply continues_refl); try exact I.
  cbv zeta.
  set (m0 := mkMachine (count_expected_packet (cb m)) (world m) (log m)).
  assert (H0 : continues m m0 []).
  { unfold continues, m0. cbn [log cb]. rewrite app_nil_r. repeat split. constructor. }
  match goal with
  | |- context [pcm_loop ?n' ?c' ?w' ?p' m0] =>
      pose proof (pcm_loop_log n' c' w' p' m0) as Hp;
      destruct (pcm_loop n' c' w' p' m0) as [st|h m'|f]
  end; [| eapply (continues_halted _ _ _ _ []); eassumption | exact I].
  destruct Hp as (evs1 & H1).
  pose proof (continues_trans _ _ _ _ _ H0 H1) as H01. cbn [app] in H01.
  destruct (len (p_buf_ st) =? 0); cbn [negb].
  - set (m2 := mkMachine (cb (machine_ st)) (world (machine_ st))
                         (log (machine_ st) ++ [EvFree (p_buf_ st)])).
    assert (H2 : continues (machine_ st) m2 [EvFree (p_buf_ st)]).
    { unfold continues, m2. cbn [log cb]. repeat split. repeat constructor. }
    pose proof (continues_trans _ _ _ _ _ H01 H2) as H02.
    specialize (IH (nb_frame_left st) remain (written_ st) m2).
    destruct (packets_loop fuel (nb_frame_left st) remain (written_ st) m2)
      as [m'|h m'|f].
    + destruct IH as (evs & Hc). eexists. eapply continues_trans; eassumption.
    + eapply continues_halted; eassumption.
    + exact I.
  - destruct (enqueue_callback _ _ _) as [accepted w2].
    match goal with
    | |- context [mkMachine ?c' w2 ?l'] => set (m2 := mkMachine c' w2 l')
    end.
    destruct accepted; cbn [negb].
    + assert (H2 : exists e, continues (machine_ st) m2 [e]).
      { eexists. unfold continues, m2. cbn [log cb]. split; [reflexivity|].
        repeat split. repeat constructor. }
      destruct H2 as (e & H2).
      pose proof (continues_trans _ _ _ _ _ H01 H2) as H02.
      specialize (IH (nb_frame_left st) (Z.of_nat (nb_frame_left st)) (written_ st) m2).
      destruct (packets_loop fuel (nb_frame_left st) _ (written_ st) m2)
        as [m'|h m'|f].
      * destruct IH as (evs & Hc). eexists. eapply continues_trans; eassumption.
      * eapply continues_halted; eassumption.
      * exact I.
    + eapply continues_halted; [exact H01|].
      exists [], [EvEnqueue (mkBuf (offset (p_buf_ st)) (len (p_buf_ st))
                               (layer_specific (p_buf_ st))
                               (Some (timestamp (cb (machine_ st))))
                               (payload (p_buf_ st)))
                            (u8 (remain - Z.of_nat (nb_frame_left st))) false].
      unfold m2. cbn [log cb app]. split; [reflexivity|].
      split; [constructor|]. split; [reflexivity|]. eauto.
Qed.

Lemma split_after_benign (Q : event -> Prop) (evs last pre post : list event)
  (x : event) :
  Forall Q evs -> ~ Q x ->
  evs ++ last = pre ++ x :: post ->
  exists l, pre = evs ++ l /\ last = l ++ x :: post.
Proof.
  intros Hall Hx Heq. apply app_eq_app in Heq.
  destruct Heq as (l & [[He Hl]|[He Hl]]).
  - destruct l as [|y l]; cbn in Hl.
    + exists []. rewrite app_nil_r in He. subst. rewrite app_nil_r. auto.
    + inversion Hl; subst. apply Forall_app in Hall. destruct Hall as [_ Hall].
      inversion Hall; subst. contradiction.
  - exists l. auto.
Qed.

Lemma encode_frames_log_s (nb : Z) (m : machine) :
  match a2dp_lhdc_encode_frames nb m with
  | Done m' => exists evs, continues m m' evs
  | Halt h m' => halted h m m'
  | Fault _ => True
  end.
Proof. unfold a2dp_lhdc_encode_frames. cbv zeta. apply packets_loop_log. Qed.

(** X23.  In the single-buffer variant an encode call that reports an
    error, or a block read while the codec handle is NULL, ends the tick
    at once: the open buffer is freed
    (the only event that follows, so neither it nor anything else is handed
    to the sink and no further frame is read or encoded) and the
    dropped-packet count goes up by one. *)
Theorem codec_failure_halts (nb : Z) (m m' : machine) (o : outcome machine)
  (pre post : list event) (e : event) :
  a2dp_lhdc_encode_frames nb m = o ->
  final o = Some m' ->
  log m' = log m ++ pre ++ e :: post ->
  encode_fails (lhdc_handle (cb m)) e ->
  (o = Halt CodecFailure m' \/ o = Halt InvalidHandle m')
  /\ (exists p, post = [EvFree p])
  /\ dropped (cb m') = usize (dropped (cb m) + 1).
Proof.
  intros Ho Hfin Hlog He.
  pose proof (encode_frames_log_s nb m) as H. rewrite Ho in H.
  assert (Hbad : ~ benign (lhdc_handle (cb m)) e).
  { destruct e as [sz d|r|?|?]; cbn in *; try contradiction.
    - destruct He as [Hn Hu]. intros Hb. rewrite (Hb Hn) in Hu. discriminate.
    - tauto. }
  destruct o as [m1|h m1|f]; cbn in Hfin; inversion Hfin; subst m1.
  - destruct H as (evs & Hl & Hb & _). rewrite Hl in Hlog.
    apply app_inv_head in Hlog. subst evs.
    apply Forall_app in Hb. destruct Hb as [_ Hb]. inversion Hb; subst. contradiction.
  - destruct H as (evs & last & Hl & Hb & Hh). rewrite Hl in Hlog.
    apply app_inv_head in Hlog.
    destruct (split_after_benign _ _ _ _ _ _ Hb Hbad Hlog) as (l & Hpre & Hlast).
    destruct h.
    + contradiction.
    + destruct Hh as (Hd & r' & p & Hr' & ->).
      destruct l as [|e1 [|e2 [|e3 l]]]; cbn in Hlast; inversion Hlast; subst;
        try contradiction.
      repeat split; eauto.
    + destruct Hh as (Hd & _ & sz' & d' & p & _ & ->).
      destruct l as [|e1 [|e2 [|e3 l]]]; cbn in Hlast; inversion Hlast; subst;
        try contradiction.
      repeat split; eauto.
    + destruct Hh as (Hd & p & n & ->).
      destruct l as [|e1 [|e2 l]]; cbn in Hlast; inversion Hlast; subst;
        contradiction.
Qed.

(** X21.  The sink refusing a packet ends the tick of this variant at
    once, with nothing counted as dropped. *)
Lemma backpressure_halts_streaming (nb : Z) (m m' : machine) (o : outcome machine)
  (pre post : list event) (p : BT_HDR) (n : Z) :
  a2dp_lhdc_encode_frames nb m = o ->
  final o = Some m' ->
  log m' = log m ++ pre ++ EvEnqueue p n false :: post ->
  o = Halt SinkBackpressure m' /\ post = []
  /\ dropped (cb m') = dropped (cb m).
Proof.
  intros Ho Hfin Hlog. pose proof (encode_frames_log_s nb m) as H. rewrite Ho in H.
  assert (Hbad : ~ benign (lhdc_handle (cb m)) (EvEnqueue p n false))
    by (cbn; discriminate).
  destruct o as [m1|h m1|f]; cbn in Hfin; inversion Hfin; subst m1.
  - destruct H as (evs & Hl & Hb & _). rewrite Hl in Hlog.
    apply app_inv_head in Hlog. subst evs.
    apply Forall_app in Hb. destruct Hb as [_ Hb]. inversion Hb; subst. contradiction.
  - destruct H as (evs & last & Hl & Hb & Hh). rewrite Hl in Hlog.
    apply app_inv_head in Hlog.
    destruct (split_after_benign _ _ _ _ _ _ Hb Hbad Hlog) as (l & Hpre & Hlast).
    destruct h.
    + contradiction.
    + destruct Hh as (Hd & r' & q & Hr' & ->).
      destruct l as [|e1 [|e2 [|e3 l]]]; cbn in Hlast; inversion Hlast.
    + destruct Hh as (Hd & _ & sz' & d' & q & _ & ->).
      destruct l as [|e1 [|e2 [|e3 l]]]; cbn in Hlast; inversion Hlast.
    + destruct Hh as (Hd & q & k & ->).
      destruct l as [|e1 [|e2 l]]; cbn in Hlast; inversion Hlast; subst.
      repeat split; auto.
Qed.

End StreamingFacts.

(** ** Concrete ticks *)

Section ConcreteTicks.
Import Script.

(** A frame of 1500 bytes under a cap of 663: three packets of 663, 663
    and 174 bytes, flagged start+fragment, fragment, end+fragment, with
    consecutive sequence bytes (254, 255, 0). *)
Example one_big_frame_packets :
  map view (Fragmenting.enqueued
              (Fragmenting.log (finish one_big_frame (tick 1 one_big_frame))))
  = [(663, true, true, false, 254);
     (663, true, false, false, 255);
     (174, true, false, true, 0)].
Proof. vm_compute. reflexivity. Qed.

(** A frame of 400 bytes: one packet, no flag, frame count 1 above the
    latency bits. *)
Example one_small_frame_packet :
  map (fun p => (view p, hdr_meta p))
      (Fragmenting.enqueued
         (Fragmenting.log (finish one_small_frame (tick 1 one_small_frame))))
  = [((400, false, false, false, 254), 5)].
Proof. vm_compute. reflexivity. Qed.

(** No PCM on the first read of a tick due two frames: nothing is handed
    to the sink, and the bytes of both frames (2 * 3072) go back to the
    accumulator. *)
Example first_read_empty_emits_nothing :
  exists m',
    tick 2 first_read_empty = Fragmenting.Done m'
    /\ Fragmenting.enqueued (Fragmenting.log m') = []
    /\ counter (lhdc_feeding_state (Fragmenting.cb m')) = 6144.
Proof. eexists. vm_compute. repeat split. Qed.

(** C7 on the fragmenting packetizer: the sink refuses the second of
    three packets, and the third is handed to it all the same. *)
Theorem sink_refusal_ignored :
  exists m',
    tick 1 one_big_frame_refused = Fragmenting.Done m'
    /\ Fragmenting.enqueue_answers (Fragmenting.log m') = [true; false; true]
    /\ map len (Fragmenting.enqueued (Fragmenting.log m')) = [663; 663; 174].
Proof. eexists. vm_compute. repeat split. Qed.

(** C8 on the fragmenting packetizer: of two frames due one is produced
    (the second read returns nothing), the packet carries the timestamp the
    tick began with, and the session timestamp moves on by two frames of
    512 samples. *)
Theorem timestamp_after_underflow :
  exists m',
    tick 2 second_read_empty = Fragmenting.Done m'
    /\ Fragmenting.encode_calls (Fragmenting.log m') = 1
    /\ map media_timestamp (Fragmenting.enqueued (Fragmenting.log m'))
       = [Some (timestamp (Fragmenting.cb second_read_empty))]
    /\ timestamp (Fragmenting.cb m')
       = timestamp (Fragmenting.cb second_read_empty) + 2 * 512.
Proof. eexists. vm_compute. repeat split. Qed.

(** C10: a tick that comes 100 ms after the previous one is due nineteen
    frames; at 600 compressed bytes each they need more than sixteen
    packets of at most 663 bytes, and the seventeenth is stored at
    [p_btBufs[16]]. *)
Theorem packet_array_overrun :
  Pacer.a2dp_lhdc_get_num_frame_iteration 512 (Fragmenting.cb after_a_stall) 1100000
  = Some (1, 19,
          set_feeding_state (mkFeedingState 1536 11520 1100000)
                            (Fragmenting.cb after_a_stall))
  /\ @Fragmenting.a2dp_vendor_lhdc_send_frames (platform 512 2) 1100000 after_a_stall
     = Fragmenting.Fault (ArrayOverrun 16).
Proof. split; vm_compute; reflexivity. Qed.

(** The pacer hands out 32 frames to a tick that comes 170.7 ms after
    the one before, and 64 frames after 341.4 ms. *)
Example late_ticks_frames :
  (exists cb1, Pacer.a2dp_lhdc_get_num_frame_iteration 512 cb_ticked_at_1s 1170700
               = Some (1, 32, cb1))
  /\ (exists cb1, Pacer.a2dp_lhdc_get_num_frame_iteration 512 cb_ticked_at_1s 1341400
                  = Some (1, 64, cb1)).
Proof. split; eexists; vm_compute; reflexivity. Qed.

(** The ticks of the counterexamples of C2 and C5: the lone packet of 32
    frames has the fragment flag (metadata 0x81); the packet in between of
    a frame of 1500 bytes has the end flag when the latency index is 32;
    the two packets of 64 frames have the same sequence byte. *)
Example late_ticks_packets :
  map (fun p => (view p, hdr_meta p))
      (Fragmenting.enqueued
         (Fragmenting.log (finish late_one_packet (tick 32 late_one_packet))))
  = [((640, true, false, false, 254), 129)]
  /\ map view (Fragmenting.enqueued
                 (Fragmenting.log (finish one_big_frame_latency_32
                                          (tick 1 one_big_frame_latency_32))))
     = [(663, true, true, true, 254);
        (663, true, false, true, 255);
        (174, true, false, true, 0)]
  /\ map view (Fragmenting.enqueued
                 (Fragmenting.log (finish late_two_packets
                                          (tick 64 late_two_packets))))
     = [(663, true, true, false, 255); (617, true, false, true, 255)].
Proof. vm_compute. repeat split. Qed.


(** C5 as it is written fails: the frame count, shifted and unmasked, is
    or-ed into [layer_specific] below the sequence byte, and a tick of 64
    frames carries into it; its two packets have the same sequence byte.
    The single-buffer variant keeps no sequence counter at all: the high
    byte of [layer_specific] is 0 on both packets of a tick. *)
Lemma sequence_numbers_counterexample :
  ~ @sequence_as_stated (platform 512 2) [64] late_two_packets
  /\ ~ @sequence_as_stated_s (platform_s 512) 3 two_packets.
Proof.
  split; intros H.
  - destruct (H (finish late_two_packets
                   (@Fragmenting.encode_session (platform 512 2) [64]
                      late_two_packets)))
      as (evs & Hlog & Hseq); [vm_compute; reflexivity|].
    cbn [Fragmenting.log late_two_packets start app] in Hlog. subst evs.
    match type of Hseq with
    | forall i p q, nth_error ?l i = _ -> _ =>
        specialize (Hseq 0%nat (nth 0 l (mkBuf 0 0 0 None []))
                         (nth 1 l (mkBuf 0 0 0 None [])))
    end.
    assert (Hq : 255 = 0); [|discriminate].
    etransitivity; [|etransitivity; [apply Hseq; vm_compute; reflexivity|]];
      vm_compute; reflexivity.
  - destruct (H (finish_s (tick_s 3 two_packets) two_packets))
      as (evs & Hlog & Hseq); [vm_compute; reflexivity|].
    cbn [Streaming.log two_packets app] in Hlog. subst evs.
    match type of Hseq with
    | forall i p q, nth_error ?l i = _ -> _ =>
        specialize (Hseq 0%nat (nth 0 l (mkBuf 0 0 0 None []))
                         (nth 1 l (mkBuf 0 0 0 None [])))
    end.
    assert (Hq : 0 = 1); [|discriminate].
    etransitivity; [|etransitivity; [apply Hseq; vm_compute; reflexivity|]];
      vm_compute; reflexivity.
Qed.


End ConcreteTicks.

(** *** Instances of the theorems *)



Lemma sequence_numbers_witness :
  exists evs,
    Fragmenting.log
      (Script.finish Script.two_ticks
         (@Fragmenting.encode_session (Script.platform 512 2) [1; 2] Script.two_ticks))
    = Fragmenting.log Script.two_ticks ++ evs
    /\ forall i p q,
         nth_error (Fragmenting.enqueued evs) i = Some p ->
         nth_error (Fragmenting.enqueued evs) (S i) = Some q ->
         hdr_seq q = (hdr_seq p + 1) mod 256.
Proof.
  apply (@sequence_numbers (Script.platform 512 2) [1; 2] Script.two_ticks).
  - repeat constructor.
  - vm_compute. reflexivity.
Defined.

Lemma underflow_returns_budget_witness :
  let F := Script.platform 512 2 in
  let m := Script.second_read_empty in
  let m' := Script.finish m (Script.tick 2 m) in
  let pre := firstn 2 (Fragmenting.log m') in
  let post := skipn 3 (Fragmenting.log m') in
  let unproduced := u8 2 - Fragmenting.encode_calls pre in
  let fp := feeding_params (Fragmenting.cb m) in
  (forall m0 : @Fragmenting.machine F,
      Fragmenting.enc_block_bytes (Fragmenting.cb m0) = 3072 ->
      fst (Fragmenting.read_callback (Fragmenting.world m0) 3072) = [] ->
      fst (Fragmenting.a2dp_lhdc_read_feeding m0) = None)
  /\ 0 < unproduced
  /\ counter (lhdc_feeding_state (Fragmenting.cb m'))
     = u32 (counter (lhdc_feeding_state (Fragmenting.cb m))
            + unproduced * @Fragmenting.LHDCBT_ENC_BLOCK_SIZE F * channel_count fp
              * bits_per_sample fp / 8)
  /\ Fragmenting.reads post = [] /\ Fragmenting.encode_calls post = 0
  /\ (pre = [] -> post = []).
Proof.
  intros F m m' pre post.
  apply (@underflow_returns_budget F 2 m m' pre post 3072).
  - vm_compute. reflexivity.
  - vm_compute. reflexivity.
  - vm_compute. reflexivity.
Defined.

Lemma codec_failure_halts_witness :
  let S := Script.platform_s 512 in
  let m := Script.second_encode_fails in
  let o := @Streaming.a2dp_lhdc_encode_frames S 2 m in
  let m' := match o with Streaming.Halt _ m' => m' | _ => m end in
  let post := skipn 5 (Streaming.log m') in
  (o = Streaming.Halt CodecFailure m' \/ o = Streaming.Halt InvalidHandle m')
  /\ (exists p, post = [Streaming.EvFree p])
  /\ dropped (Streaming.cb m') = usize (dropped (Streaming.cb m) + 1).
Proof.
  intros S m o m' post.
  apply (@codec_failure_halts S 2 m m' o (firstn 4 (Streaming.log m')) post
           (Streaming.EvEncode (Streaming.mkEncodeResult (-1) 0 [] 0 0))).
  - reflexivity.
  - vm_compute. reflexivity.
  - vm_compute. reflexivity.
  - vm_compute. discriminate.
Defined.

(** ** The pacer: ticks that earn nothing, and the first tick *)

Section PacerTicks.
Import Pacer.

Variable A2DP_LHDC_MEDIA_BYTES_PER_FRAME : Z.

Let bpf := pcm_bytes_per_frame A2DP_LHDC_MEDIA_BYTES_PER_FRAME.
Let get_num := a2dp_lhdc_get_num_frame_iteration A2DP_LHDC_MEDIA_BYTES_PER_FRAME.

Lemma bpf_nonneg (cb : tA2DP_LHDC_ENCODER_CB) : 0 <= bpf cb.
Proof. unfold bpf, pcm_bytes_per_frame. apply u32_range. Qed.

Lemma set_feeding_state_twice s1 s2 cb :
  set_feeding_state s2 (set_feeding_state s1 cb) = set_feeding_state s2 cb.
Proof. reflexivity. Qed.

(** X1.  A second call of the pacer with the timestamp of the call before
    (any timestamp but 0, which the code reads as "no tick yet") hands out
    no frame and leaves the control block as it is. *)
Theorem pacer_same_instant (cb cb1 : tA2DP_LHDC_ENCODER_CB) (t noi nof : Z) :
  t <> 0 ->
  get_num cb t = Some (noi, nof, cb1) ->
  get_num cb1 t = Some (1, 0, cb1).
Proof.
  intros Ht H. unfold get_num, a2dp_lhdc_get_num_frame_iteration in H.
  fold (bpf cb) in H.
  destruct (bpf cb =? 0) eqn:E; [discriminate|]. apply Z.eqb_neq in E.
  pose proof (bpf_nonneg cb) as Hb0.
  assert (Hb : 0 < bpf cb) by lia.
  assert (Hb32 : bpf cb < 2 ^ 32) by (unfold bpf, pcm_bytes_per_frame; apply u32_range).
  cbv zeta in H. inversion H; subst; clear H.
  set (c1 := u32 (counter (lhdc_feeding_state cb) + _)).
  pose proof (u32_range (counter (lhdc_feeding_state cb)
                         + u32 (bytes_per_tick (lhdc_feeding_state cb)
                                * us_this_tick cb t)
                           / (A2DP_LHDC_ENCODER_INTERVAL_MS * 1000))) as Hc1.
  fold c1 in Hc1.
  rewrite (counter_after_division c1 (bpf cb) Hc1 Hb).
  pose proof (Z.mod_pos_bound c1 (bpf cb) Hb) as Hm.
  set (c2 := c1 mod bpf cb) in *.
  unfold get_num, a2dp_lhdc_get_num_frame_iteration, us_this_tick.
  cbn [lhdc_feeding_state set_feeding_state last_frame_us counter bytes_per_tick].
  fold (bpf (set_feeding_state
               (mkFeedingState c2 (bytes_per_tick (lhdc_feeding_state cb)) t) cb)).
  change (bpf (set_feeding_state _ cb)) with (bpf cb).
  destruct (t =? 0) eqn:Et; [apply Z.eqb_eq in Et; contradiction|].
  replace (bpf cb =? 0) with false by (symmetry; apply Z.eqb_neq; lia).
  cbv zeta. rewrite Z.sub_diag. change (u32 0) with 0.
  rewrite Z.mul_0_r. change (u32 0) with 0.
  rewrite Z.div_0_l by (unfold A2DP_LHDC_ENCODER_INTERVAL_MS; lia).
  rewrite Z.add_0_r, (u32_small c2) by lia.
  rewrite (Z.div_small c2 (bpf cb)) by lia.
  rewrite Z.mul_0_l. change (u32 0) with 0.
  rewrite Z.sub_0_r, (u32_small c2) by lia.
  reflexivity.
Qed.

(** X2.  The first call of the pacer after a feeding reset earns one
    nominal interval, whatever its timestamp: it hands out
    [bytes_per_tick / pcm_bytes_per_frame] frames (as a [uint8_t]), keeps
    the remainder, and records the timestamp. *)
Theorem first_tick_after_reset (cb : tA2DP_LHDC_ENCODER_CB) (t : Z) :
  let cb0 := a2dp_vendor_lhdc_feeding_reset cb in
  let bpt := bytes_per_tick (lhdc_feeding_state cb0) in
  0 < bpf cb ->
  bpt * (A2DP_LHDC_ENCODER_INTERVAL_MS * 1000) < 2 ^ 32 ->
  exists cb1,
    get_num cb0 t = Some (1, u8 (bpt / bpf cb), cb1)
    /\ counter (lhdc_feeding_state cb1) = bpt mod bpf cb
    /\ bytes_per_tick (lhdc_feeding_state cb1) = bpt
    /\ last_frame_us (lhdc_feeding_state cb1) = t
    /\ buf_seq cb1 = 0.
Proof.
  intros cb0 bpt Hb Hw.
  assert (Hbpt : 0 <= bpt).
  { unfold bpt, cb0, a2dp_vendor_lhdc_feeding_reset. cbn.
    apply Z.div_pos; [apply u32_range|lia]. }
  unfold A2DP_LHDC_ENCODER_INTERVAL_MS in Hw.
  unfold get_num, a2dp_lhdc_get_num_frame_iteration, us_this_tick.
  fold (bpf cb0). change (bpf cb0) with (bpf cb).
  change (last_frame_us (lhdc_feeding_state cb0)) with 0.
  change (counter (lhdc_feeding_state cb0)) with 0.
  fold bpt. cbn [Z.eqb]. cbv zeta.
  replace (bpf cb =? 0) with false by (symmetry; apply Z.eqb_neq; lia).
  unfold A2DP_LHDC_ENCODER_INTERVAL_MS.
  rewrite (u32_small (bpt * (20 * 1000))) by lia.
  rewrite Z.div_mul by lia. rewrite Z.add_0_l, (u32_small bpt) by lia.
  eexists. split; [reflexivity|].
  cbn [lhdc_feeding_state set_feeding_state counter bytes_per_tick last_frame_us
       buf_seq].
  rewrite counter_after_division by lia.
  repeat split.
Qed.

End PacerTicks.

Lemma pacer_same_instant_witness :
  Pacer.a2dp_lhdc_get_num_frame_iteration 512
    (set_feeding_state (mkFeedingState 2304 11520 1000000) cb_96k_24_stereo) 1000000
  = Some (1, 0, set_feeding_state (mkFeedingState 2304 11520 1000000) cb_96k_24_stereo).
Proof.
  apply (pacer_same_instant 512 cb_96k_24_stereo _ 1000000 1 3);
    [discriminate|vm_compute; reflexivity].
Defined.

Lemma first_tick_after_reset_witness :
  exists cb1,
    Pacer.a2dp_lhdc_get_num_frame_iteration 512 cb_96k_24_stereo 987654321
    = Some (1, 3, cb1)
    /\ counter (lhdc_feeding_state cb1) = 2304
    /\ bytes_per_tick (lhdc_feeding_state cb1) = 11520
    /\ last_frame_us (lhdc_feeding_state cb1) = 987654321
    /\ buf_seq cb1 = 0.
Proof.
  apply (first_tick_after_reset 512 cb_96k_24_stereo 987654321); reflexivity.
Defined.

(** ** The fragmenting packetizer: edges *)

Section FragmentingEdges.
Import Fragmenting.
Context {P : Platform}.

(** *** A transmit MTU that leaves no room for payload *)

(** With a payload cap of zero every turn closes an empty buffer and the
    output never shrinks: the loop does not end well. *)
Lemma frag_loop_no_room (fuel : nat) (wb : list byte) :
  forall off n bufs w r,
    0 < n -> frag_loop fuel 0 wb off n None bufs w <> Ok r.
Proof.
  induction fuel as [|fuel IH]; intros off n bufs w r Hn; cbn [frag_loop];
    rewrite Z.gtb_ltb; replace (0 <? n) with true by (symmetry; apply Z.ltb_lt; lia);
    [discriminate|].
  unfold bt_buf_new. destruct (osi_malloc w) as [[|] w1]; [|discriminate].
  cbv zeta. cbn [len]. change (i32 (0 - 0)) with 0.
  replace (n <? 0) with false by (symmetry; apply Z.ltb_ge; lia).
  cbn [Z.ltb Z.compare]. rewrite Z.add_0_r.
  destruct (Z.of_nat (length wb) <? off); [discriminate|].
  change (u16 (0 + 0) >=? 0) with true. cbv iota.
  destruct (Z.of_nat (length bufs) <? P_BTBUFS_LEN); [|discriminate].
  rewrite Z.sub_0_r. apply IH. exact Hn.
Qed.

Lemma frames_loop_no_room :
  forall n m m1 p1 bufs1,
    frames_loop n 0 m None [] = Done (m1, p1, bufs1) ->
    p1 = None /\ bufs1 = [].
Proof.
  induction n as [|n IH]; intros m m1 p1 bufs1 H; cbn [frames_loop] in H.
  - inversion H; auto.
  - destruct (a2dp_lhdc_read_feeding m) as [[read_buffer|] m0].
    + destruct (lhdc_encode_func _ _ _) as [[out_len wb] w2].
      destruct (Z_lt_le_dec 0 out_len) as [Hpos|Hle].
      * pose proof (frag_loop_no_room (frag_fuel out_len) wb 0 out_len [] w2) as Hno.
        destruct (frag_loop _ _ _ _ _ _ _ _) as [r| |]; try discriminate.
        exfalso. exact (Hno r Hpos eq_refl).
      * unfold frag_fuel in H. cbn [frag_loop] in H. rewrite Z.gtb_ltb in H.
        replace (0 <? out_len) with false in H by (symmetry; apply Z.ltb_ge; lia).
        apply IH in H. exact H.
    + inversion H; auto.
Qed.

(** X3.  When the transmit MTU does not exceed the length of the payload
    header there is no room for payload ([max_mtu_len] is zero, or wraps
    around): a tick that runs to its end then has handed nothing to the
    sink, and the codec has produced no byte in it. *)
Theorem no_room_for_payload (nb : Z) (m m' : machine) :
  u16 (TxAaMtuSize (cb m)) <= A2DP_LHDC_MPL_HDR_LEN + scms_len ->
  a2dp_lhdc_encode_frames nb m = Done m' ->
  exists evs,
    log m' = log m ++ evs /\ encoded evs = [] /\ enqueued evs = [].
Proof.
  intros Hmtu H.
  assert (HM : max_mtu_len (cb m) = 0 \/ 2 ^ 31 <= max_mtu_len (cb m) < 2 ^ 32).
  { unfold max_mtu_len. pose proof (u16_range (TxAaMtuSize (cb m))) as Hr.
    set (x := u16 (TxAaMtuSize (cb m))) in *.
    assert (Hs : 0 <= scms_len <= 1) by (unfold scms_len; destruct BTA_AV_CO_CP_SCMS_T; lia).
    unfold A2DP_LHDC_MPL_HDR_LEN in *.
    destruct (Z.eq_dec x (1 + scms_len)) as [->|Hne].
    - left. replace (1 + scms_len - 1 - scms_len) with 0 by lia. reflexivity.
    - right. unfold u32.
      replace ((x - 1 - scms_len) mod 2 ^ 32) with (x - 1 - scms_len + 2 ^ 32); [lia|].
      apply Z.mod_unique with (q := -1); lia. }
  apply encode_frames_done in H.
  destruct H as (m1 & p1 & bufs1 & evs2 & Hf & _ & Hlog & Henq & Hall & _).
  pose proof Hf as Hf'.
  apply frames_loop_ok in Hf; [|apply max_mtu_len_range|apply frag_inv_start].
  destruct Hf as (evs1 & k & s & Hlog1 & Hshape & Hinv & Hpay & _ & _).
  assert (Hnone : p1 = None /\ bufs1 = []).
  { destruct HM as [H0|Hw].
    - rewrite H0 in Hf'. eapply frames_loop_no_room. exact Hf'.
    - unfold frag_inv in Hinv.
      replace (max_mtu_len (cb m) <? 2 ^ 16) with false in Hinv
        by (symmetry; apply Z.ltb_ge; lia).
      exact Hinv. }
  destruct Hnone as [-> ->]. cbn [opt_list app] in *.
  exists (evs1 ++ evs2).
  split; [rewrite Hlog, Hlog1, app_assoc; reflexivity|].
  rewrite encoded_app, enqueued_app, (encoded_enqueues _ Hall),
    (frames_log_quiet _ _ _ _ Hshape), Henq.
  cbn in Hpay. rewrite <- Hpay. auto.
Qed.

(** *** Short reads *)

(** X4.  A PCM read that returns some bytes but fewer than a block is
    made up to a full block with silence: [a2dp_lhdc_read_feeding] returns
    [true], and [read_buffer] holds the bytes read followed by zeros, one
    block in all. *)
Theorem short_read_padded (m : machine) :
  let sz := enc_block_bytes (cb m) in
  let data := fst (read_callback (world m) sz) in
  (0 < length data)%nat -> Z.of_nat (length data) <= sz ->
  exists read_buffer,
    fst (a2dp_lhdc_read_feeding m) = Some read_buffer
    /\ read_buffer = data ++ repeat Byte.x00 (Z.to_nat sz - length data)
    /\ Z.of_nat (length read_buffer) = sz.
Proof.
  intros sz data Hpos Hle.
  assert (Hsz : 0 <= sz < 2 ^ 32) by (apply u32_range).
  unfold a2dp_lhdc_read_feeding. fold sz.
  subst data. destruct (read_callback (world m) sz) as [d w1]. cbn [fst] in *.
  rewrite (u32_small (Z.of_nat (length d))) by lia.
  destruct (Z.of_nat (length d) <? sz) eqn:E.
  - apply Z.ltb_lt in E.
    replace (Z.of_nat (length d) =? 0) with false by (symmetry; apply Z.eqb_neq; lia).
    cbn [fst]. eexists. split; [reflexivity|].
    replace (Z.to_nat (sz - Z.of_nat (length d))) with (Z.to_nat sz - length d)%nat by lia.
    split; [reflexivity|].
    rewrite length_app, repeat_length. lia.
  - apply Z.ltb_ge in E. cbn [fst]. exists d. split; [reflexivity|].
    replace (Z.to_nat sz - length d)%nat with O by lia.
    cbn [repeat]. rewrite app_nil_r. split; [reflexivity|lia].
Qed.

(** *** Ticks that complete, from the entry point *)

(** X5.  [a2dp_vendor_lhdc_send_frames] runs to its end whenever the
    frames the pacer hands out, at no more than [cap] compressed bytes
    each, fit the sixteen buffers of the tick (the allocator succeeding and
    the codec staying inside [write_buffer]). *)
Theorem send_frames_completes (timestamp_us cap noi nof : Z)
  (c1 : tA2DP_LHDC_ENCODER_CB) (m : machine) :
  Pacer.a2dp_lhdc_get_num_frame_iteration 512 (cb m) timestamp_us
  = Some (noi, nof, c1) ->
  0 < max_mtu_len (cb m) < 2 ^ 16 -> 0 <= cap ->
  malloc_succeeds -> codec_within cap ->
  nof * cap <= P_BTBUFS_LEN * max_mtu_len (cb m) ->
  exists m', a2dp_vendor_lhdc_send_frames timestamp_us m = Done m'.
Proof.
  intros Hp HM Hcap Halloc Hcodec Hfit.
  unfold a2dp_vendor_lhdc_send_frames. rewrite Hp.
  assert (Hshape : noi = 1 /\ u8 nof = nof /\ max_mtu_len c1 = max_mtu_len (cb m)).
  { unfold Pacer.a2dp_lhdc_get_num_frame_iteration in Hp.
    destruct (_ =? 0); [discriminate|]. cbv zeta in Hp.
    inversion Hp. repeat split. unfold u8. apply Z.mod_mod. lia. }
  destruct Hshape as (-> & Hu & HM1).
  destruct (nof =? 0); [eexists; reflexivity|].
  change (Z.to_nat 1) with 1%nat. cbn [iterations].
  destruct (encode_frames_completes nof cap (mkMachine c1 (world m) (log m)))
    as (m' & ->); cbn [cb]; rewrite ?HM1, ?Hu; auto.
  eexists; reflexivity.
Qed.

(** *** Read statistics *)

Lemma usize_add_l (a b : Z) : usize (usize a + b) = usize (a + b).
Proof. unfold usize. apply Z.add_mod_idemp_l. lia. Qed.

Lemma usize_congr (a a' b : Z) : usize a = usize a' -> usize (a + b) = usize (a' + b).
Proof. intros H. rewrite <- (usize_add_l a), <- (usize_add_l a'), H. reflexivity. Qed.

Lemma read_calls_app l1 l2 : read_calls (l1 ++ l2) = read_calls l1 + read_calls l2.
Proof. unfold read_calls, reads. rewrite flat_map_app, length_app. lia. Qed.

Lemma read_bytes_app l1 l2 : read_bytes (l1 ++ l2) = read_bytes l1 + read_bytes l2.
Proof.
  unfold read_bytes. induction l1 as [|e l1 IH]; cbn [app fold_right]; [lia|].
  destruct e; lia.
Qed.

Lemma encode_calls_app l1 l2 : encode_calls (l1 ++ l2) = encode_calls l1 + encode_calls l2.
Proof. unfold encode_calls. rewrite flat_map_app, length_app. lia. Qed.

Lemma reads_accounted_refl sz s : reads_accounted sz s s [].
Proof.
  unfold reads_accounted, read_calls, encode_calls, read_bytes. cbn.
  rewrite !Z.add_0_r. repeat split.
Qed.

Lemma reads_accounted_trans sz s1 s2 s3 e1 e2 :
  reads_accounted sz s1 s2 e1 -> reads_accounted sz s2 s3 e2 ->
  reads_accounted sz s1 s3 (e1 ++ e2).
Proof.
  intros (A1 & A2 & A3 & A4 & A5 & A6) (B1 & B2 & B3 & B4 & B5 & B6).
  unfold reads_accounted.
  rewrite read_calls_app, encode_calls_app, read_bytes_app, Z.mul_add_distr_r, !Z.add_assoc.
  rewrite B1, B2, B3, B4, B5, B6.
  repeat split; try assumption; apply usize_congr; assumption.
Qed.

(** One call of [a2dp_lhdc_read_feeding], with the encode call that
    follows a block. *)
Lemma read_feeding_accounted (m : machine) :
  let sz := enc_block_bytes (cb m) in
  let d := fst (read_callback (world m) sz) in
  let m1 := snd (a2dp_lhdc_read_feeding m) in
  exists s1,
    cb m1 = set_stats s1 (cb m)
    /\ log m1 = log m ++ [EvRead sz d]
    /\ match fst (a2dp_lhdc_read_feeding m) with
       | None => reads_accounted sz (stats (cb m)) s1 [EvRead sz d]
       | Some _ =>
           forall out_len wb,
             reads_accounted sz (stats (cb m)) s1 [EvRead sz d; EvEncode out_len wb]
       end.
Proof.
  cbv zeta. unfold a2dp_lhdc_read_feeding.
  destruct (read_callback (world m) (enc_block_bytes (cb m))) as [d w1]. cbn [fst].
  destruct (u32 (Z.of_nat (length d)) <? enc_block_bytes (cb m));
    [destruct (u32 (Z.of_nat (length d)) =? 0)|];
    cbn [fst snd cb log]; eexists; (split; [reflexivity|]); (split; [reflexivity|]);
    intros; unfold reads_accounted, read_calls, encode_calls, read_bytes;
    cbn [reads flat_map app length fold_right Z.of_nat Pos.of_succ_nat Pos.succ
         media_read_total_expected_packets media_read_total_expected_reads_count
         media_read_total_expected_read_bytes media_read_total_dropped_packets
         media_read_total_actual_reads_count media_read_total_actual_read_bytes];
    rewrite ?Z.mul_1_l, ?Z.add_0_r; unfold usize; rewrite ?Z.mod_mod by lia;
    repeat split.
Qed.

Lemma frames_loop_accounted (M : Z) :
  forall n m p bufs m1 p1 bufs1,
    frames_loop n M m p bufs = Done (m1, p1, bufs1) ->
    exists evs,
      log m1 = log m ++ evs
      /\ reads_accounted (enc_block_bytes (cb m)) (stats (cb m)) (stats (cb m1)) evs
      /\ enc_block_bytes (cb m1) = enc_block_bytes (cb m).
Proof.
  induction n as [|n IH]; intros m p bufs m1 p1 bufs1 H; cbn [frames_loop] in H.
  - inversion H; subst. exists []. rewrite app_nil_r.
    split; [reflexivity|]. split; [apply reads_accounted_refl|reflexivity].
  - destruct (read_feeding_accounted m) as (s1 & Hcb & Hlog & Hacc). cbv zeta in *.
    destruct (a2dp_lhdc_read_feeding m) as [[read_buffer|] m0]; cbn [fst snd] in *.
    + destruct (lhdc_encode_func _ _ _) as [[out_len wb] w2].
      destruct (frag_loop _ _ _ _ _ _ _ _) as [[[p2 bufs2] w3]| |]; try discriminate.
      apply IH in H. destruct H as (evs & Hl & Ha & Hsz).
      cbn [log cb] in *. rewrite Hcb in *. cbn [stats set_stats] in *.
      change (enc_block_bytes (set_stats s1 (cb m))) with (enc_block_bytes (cb m)) in *.
      eexists (_ :: _ :: evs).
      split; [rewrite Hl, Hlog, <- !app_assoc; reflexivity|].
      split; [|exact Hsz].
      apply (reads_accounted_trans _ _ s1 _ [_; _] evs); [apply Hacc|exact Ha].
    + inversion H; subst. cbn [log cb]. rewrite Hcb.
      eexists. split; [exact Hlog|]. split; [exact Hacc|reflexivity].
Qed.

(** X6.  What a tick that runs to its end does to the control block.  The
    read statistics advance with the log of the tick: one expected read of
    a block per call of the PCM callback, the bytes the callback returned,
    and one actual read per block handed to the codec (all modulo 2^64).
    The two packet counters are never touched by this variant, and neither
    are the transmit MTU, the feeding parameters, the latency index, the
    codec handle, [bytes_per_tick] and [last_frame_us]. *)
Theorem tick_read_statistics (nb : Z) (m m' : machine) :
  a2dp_lhdc_encode_frames nb m = Done m' ->
  exists evs,
    log m' = log m ++ evs
    /\ reads_accounted (enc_block_bytes (cb m)) (stats (cb m)) (stats (cb m')) evs
    /\ TxAaMtuSize (cb m') = TxAaMtuSize (cb m)
    /\ feeding_params (cb m') = feeding_params (cb m)
    /\ latency_mode_index (cb m') = latency_mode_index (cb m)
    /\ lhdc_handle (cb m') = lhdc_handle (cb m)
    /\ bytes_per_tick (lhdc_feeding_state (cb m'))
       = bytes_per_tick (lhdc_feeding_state (cb m))
    /\ last_frame_us (lhdc_feeding_state (cb m'))
       = last_frame_us (lhdc_feeding_state (cb m)).
Proof.
  intros H. apply encode_frames_done in H.
  destruct H as (m1 & p1 & bufs1 & evs2 & Hf & _ & Hlog & _ & Hall & Hcb).
  pose proof Hf as Hf'. apply frames_loop_accounted in Hf'.
  destruct Hf' as (evs1 & Hlog1 & Hacc & _).
  apply frames_loop_ok in Hf; [|apply max_mtu_len_range|apply frag_inv_start].
  destruct Hf as (evs1' & k & s & _ & _ & _ & _ & Hcb1 & _).
  destruct (enqueues_only _ Hall) as (Hr & Hc & _).
  exists (evs1 ++ evs2).
  split; [rewrite Hlog, Hlog1, app_assoc; reflexivity|].
  split.
  { replace (stats (cb m')) with (stats (cb m1)) by (rewrite Hcb; reflexivity).
    apply (reads_accounted_trans _ _ (stats (cb m1))); [exact Hacc|].
    unfold reads_accounted, read_calls. rewrite Hr, Hc.
    assert (Hb : read_bytes evs2 = 0).
    { clear - Hall. induction Hall as [|e l He _ IH]; [reflexivity|].
      destruct e; cbn in He; try contradiction. exact IH. }
    rewrite Hb. cbn [length Z.of_nat]. rewrite Z.mul_0_l, !Z.add_0_r. repeat split. }
  rewrite Hcb, Hcb1. repeat split.
Qed.

End FragmentingEdges.

Lemma no_room_for_payload_witness :
  exists evs,
    Fragmenting.log (Script.finish Script.mtu_of_one_byte
                       (Script.tick 2 Script.mtu_of_one_byte))
    = Fragmenting.log Script.mtu_of_one_byte ++ evs
    /\ Fragmenting.encoded evs = [] /\ Fragmenting.enqueued evs = [].
Proof.
  apply (@no_room_for_payload (Script.platform 512 2) 2 Script.mtu_of_one_byte).
  - vm_compute. discriminate.
  - vm_compute. reflexivity.
Defined.

Lemma short_read_padded_witness :
  exists read_buffer,
    fst (Fragmenting.a2dp_lhdc_read_feeding Script.hundred_bytes_left)
    = Some read_buffer
    /\ read_buffer = Script.ramp 0 100 ++ repeat Byte.x00 (3072 - 100)
    /\ Z.of_nat (length read_buffer) = 3072.
Proof.
  apply (@short_read_padded (Script.platform 512 2) Script.hundred_bytes_left).
  - vm_compute. lia.
  - vm_compute. discriminate.
Defined.

Lemma send_frames_completes_witness :
  exists m',
    @Fragmenting.a2dp_vendor_lhdc_send_frames (Script.steady 512 2 600) 1000000
      Script.steady_start
    = Fragmenting.Done m'.
Proof.
  apply (@send_frames_completes (Script.steady 512 2 600) 1000000 600 1 3
           (set_feeding_state (mkFeedingState 2304 11520 1000000) (Script.cb0 664))
           Script.steady_start).
  - vm_compute. reflexivity.
  - vm_compute. split; reflexivity.
  - lia.
  - intros w. reflexivity.
  - intros w h pcm. vm_compute. split; discriminate.
  - vm_compute. discriminate.
Defined.

Lemma tick_read_statistics_witness :
  let m := Script.second_read_empty in
  let m' := Script.finish m (Script.tick 2 m) in
  exists evs,
    Fragmenting.log m' = Fragmenting.log m ++ evs
    /\ reads_accounted 3072 (stats (Fragmenting.cb m)) (stats (Fragmenting.cb m')) evs
    /\ TxAaMtuSize (Fragmenting.cb m') = TxAaMtuSize (Fragmenting.cb m)
    /\ feeding_params (Fragmenting.cb m') = feeding_params (Fragmenting.cb m)
    /\ latency_mode_index (Fragmenting.cb m') = latency_mode_index (Fragmenting.cb m)
    /\ lhdc_handle (Fragmenting.cb m') = lhdc_handle (Fragmenting.cb m)
    /\ bytes_per_tick (lhdc_feeding_state (Fragmenting.cb m'))
       = bytes_per_tick (lhdc_feeding_state (Fragmenting.cb m))
    /\ last_frame_us (lhdc_feeding_state (Fragmenting.cb m'))
       = last_frame_us (lhdc_feeding_state (Fragmenting.cb m)).
Proof.
  intros m m'.
  apply (@tick_read_statistics (Script.platform 512 2) 2 m m').
  vm_compute. reflexivity.
Defined.

Lemma tick_timestamps_witness :
  let m := Script.one_big_frame in
  let m' := Script.finish m (Script.tick 1 m) in
  exists evs,
    Fragmenting.log m' = Fragmenting.log m ++ evs
    /\ Forall (fun p => media_timestamp p = Some 1000) (Fragmenting.enqueued evs)
    /\ timestamp (Fragmenting.cb m') = u32 (1000 + u8 1 * 512).
Proof.
  intros m m'.
  apply (@tick_timestamps (Script.platform 512 2) 1 m m').
  vm_compute. reflexivity.
Defined.

(** ** The single-buffer packetizer: buffers and timestamps *)

Section StreamingAccounts.
Import Streaming.
Context {P : Platform}.

Lemma disposals_app l1 l2 : disposals (l1 ++ l2) = disposals l1 + disposals l2.
Proof. unfold disposals. rewrite flat_map_app, length_app. lia. Qed.

Lemma enqueued_app_s l1 l2 : enqueued (l1 ++ l2) = enqueued l1 ++ enqueued l2.
Proof. apply flat_map_app. Qed.

Lemma timestamps_chain_app ts1 ts2 ts3 l1 l2 :
  timestamps_chain ts1 l1 ts2 -> timestamps_chain ts2 l2 ts3 ->
  timestamps_chain ts1 (l1 ++ l2) ts3.
Proof.
  revert ts1. induction l1 as [|p l1 IH]; intros ts1 H1 H2; cbn in *.
  - subst. exact H2.
  - destruct H1 as [Hp H1]. split; [exact Hp|]. eapply IH; eassumption.
Qed.

Lemma accounted_refl (m : machine) : accounted m m [].
Proof.
  unfold accounted. cbn. rewrite app_nil_r, Z.add_0_r. repeat split. constructor.
Qed.

Lemma accounted_trans (m1 m2 m3 : machine) (e1 e2 : list event) :
  accounted m1 m2 e1 -> accounted m2 m3 e2 -> accounted m1 m3 (e1 ++ e2).
Proof.
  intros (L1 & X1 & N1 & T1) (L2 & X2 & N2 & T2). unfold accounted.
  rewrite L2, L1, app_assoc, disposals_app, enqueued_app_s.
  split; [reflexivity|]. split.
  - rewrite X2, Z.add_assoc. unfold usize in *.
    rewrite <- (Z.add_mod_idemp_l (expected_packets (cb m2))) by lia.
    rewrite X1. rewrite Z.add_mod_idemp_l by lia. reflexivity.
  - split; [apply Forall_app; auto|]. eapply timestamps_chain_app; eassumption.
Qed.

Lemma held_back_refl (m : machine) : held_back m m [].
Proof. unfold held_back. rewrite app_nil_r. auto. Qed.

Lemma held_back_trans (m1 m2 m3 : machine) (e1 e2 : list event) :
  held_back m1 m2 e1 -> held_back m2 m3 e2 -> held_back m1 m3 (e1 ++ e2).
Proof.
  intros (L1 & E1 & X1 & T1) (L2 & E2 & X2 & T2). unfold held_back.
  rewrite L2, L1, app_assoc, enqueued_app_s, E1, E2, X2, X1, T2, T1. auto.
Qed.

Lemma read_feeding_held_back (m : machine) :
  held_back m (snd (a2dp_lhdc_read_feeding m))
            [EvRead (enc_block_bytes (cb m))
                    (fst (read_callback (world m) (enc_block_bytes (cb m))))].
Proof.
  unfold held_back, a2dp_lhdc_read_feeding.
  destruct (read_callback (world m) (enc_block_bytes (cb m))) as [d w1]. cbn [fst].
  destruct (u32 (Z.of_nat (length d)) <? enc_block_bytes (cb m));
    [destruct (u32 (Z.of_nat (length d)) =? 0)|]; cbn [fst snd cb log];
    repeat split.
Qed.

(** The [do ... while] loop hands nothing to the sink; it gives a buffer
    away only when it ends the tick, by freeing the one it holds. *)
Lemma pcm_loop_held_back :
  forall n c w p m,
    match pcm_loop n c w p m with
    | Done st =>
        exists evs, held_back m (machine_ st) evs /\ disposals evs = 0
    | Halt h m' => exists evs, held_back m m' evs /\ disposals evs = 1
    | Fault _ => True
    end.
Proof.
  induction n as [|n IH]; intros c w p m; cbn [pcm_loop].
  - exists []. split; [apply held_back_refl|reflexivity].
  - destruct (read_feeding_spec_s m) as (s & Hcb & Hd & Hlog & Hres).
    cbv zeta in *.
    set (sz := enc_block_bytes (cb m)) in *.
    set (d := fst (read_callback (world m) sz)) in *.
    pose proof (read_feeding_held_back m) as Hq. fold sz d in Hq.
    destruct (a2dp_lhdc_read_feeding m) as [[read_buffer|] m1]; cbn [fst snd] in *.
    + destruct (lhdc_handle (cb m1)); cbn [negb].
      * destruct (lhdc_encode_func (world m1) read_buffer) as [r w2].
        set (m2 := mkMachine (cb m1) w2 (log m1 ++ [EvEncode r])).
        assert (Hq2 : held_back m m2 [EvRead sz d; EvEncode r]).
        { apply (held_back_trans m m1 m2 [_] [_]); [exact Hq|].
          unfold held_back, m2. cbn. auto. }
        destruct (result r =? 0); cbn [negb].
        -- destruct ((written r =? 0) && negb (Nat.eqb n 0)).
           ++ match goal with
              | |- context [pcm_loop n ?c' ?w' ?p' m2] =>
                  specialize (IH c' w' p' m2);
                  destruct (pcm_loop n c' w' p' m2) as [st|h m'|f]
              end; [| |exact I];
                destruct IH as (evs & Hh & Hdis);
                exists ([EvRead sz d; EvEncode r] ++ evs);
                (split; [eapply held_back_trans; eassumption|]);
                rewrite disposals_app, Hdis; reflexivity.
           ++ cbn [machine_]. eexists. split; [exact Hq2|reflexivity].
        -- exists ([EvRead sz d; EvEncode r] ++ [EvFree p]). split; [|reflexivity].
           apply (held_back_trans m m2); [exact Hq2|].
           unfold held_back, m2. cbn. auto.
      * exists ([EvRead sz d] ++ [EvFree p]). split; [|reflexivity].
        apply (held_back_trans m m1); [exact Hq|].
        unfold held_back. cbn. auto.
    + cbn [machine_]. exists ([EvRead sz d] ++ []). split; [|reflexivity].
      apply (held_back_trans m m1); [exact Hq|].
      unfold held_back. cbn. rewrite app_nil_r. auto.
Qed.

Lemma held_back_accounted (m0 m m' : machine) (evs : list event) :
  held_back m m' evs ->
  log m = log m0 -> timestamp (cb m) = timestamp (cb m0) ->
  expected_packets (cb m) = usize (expected_packets (cb m0) + 1) ->
  disposals evs = 1 ->
  accounted m0 m' evs.
Proof.
  intros (L & E & X & T) L0 T0 X0 D. unfold accounted.
  rewrite L, L0, E, X, X0, T, T0, D. cbn [timestamps_chain].
  unfold usize. rewrite Z.mod_mod by lia. repeat split. constructor.
Qed.

Lemma packets_loop_accounted :
  forall fuel nb_frame remain w m,
    match packets_loop fuel nb_frame remain w m with
    | Done m' | Halt _ m' => exists evs, accounted m m' evs
    | Fault _ => True
    end.
Proof.
  induction fuel as [|fuel IH]; intros nb_frame remain w m;
    destruct nb_frame as [|nb]; cbn [packets_loop];
    try (exists []; apply accounted_refl); try exact I.
  cbv zeta.
  set (m0 := mkMachine (count_expected_packet (cb m)) (world m) (log m)).
  match goal with
  | |- context [pcm_loop ?n' ?c' ?w' ?p' m0] =>
      pose proof (pcm_loop_held_back n' c' w' p' m0) as Hp;
      destruct (pcm_loop n' c' w' p' m0) as [st|h m'|f]
  end; [| |exact I].
  - destruct Hp as (evs1 & Hh & Hd1).
    destruct (len (p_buf_ st) =? 0) eqn:El; cbn [negb].
    + set (m2 := mkMachine (cb (machine_ st)) (world (machine_ st))
                           (log (machine_ st) ++ [EvFree (p_buf_ st)])).
      assert (H2 : accounted m m2 (evs1 ++ [EvFree (p_buf_ st)])).
      { apply (held_back_accounted m m0); try reflexivity.
        - apply (held_back_trans m0 (machine_ st)); [exact Hh|].
          unfold held_back, m2. cbn. auto.
        - rewrite disposals_app, Hd1. reflexivity. }
      specialize (IH (nb_frame_left st) remain (written_ st) m2).
      destruct (packets_loop fuel (nb_frame_left st) remain (written_ st) m2)
        as [m'|h m'|f]; [| |exact I];
        destruct IH as (evs & Ha); eexists; eapply accounted_trans; eassumption.
    + apply Z.eqb_neq in El.
      destruct (enqueue_callback _ _ _) as [accepted w2].
      match goal with
      | |- context [mkMachine ?c' w2 ?l'] => set (m2 := mkMachine c' w2 l')
      end.
      destruct Hh as (L & E & X & T).
      assert (H2 : exists e, accounted m m2 (evs1 ++ [e])).
      { eexists. unfold accounted, m2. cbn [log cb timestamp set_timestamp].
        rewrite L, <- app_assoc. split; [reflexivity|].
        rewrite disposals_app, enqueued_app_s, E, Hd1.
        cbn [enqueued flat_map app timestamps_chain media_timestamp layer_specific len].
        unfold expected_packets in *. cbn [stats set_timestamp].
        rewrite X, T. cbn [m0 cb count_expected_packet stats set_stats
                           media_read_total_expected_packets timestamp].
        unfold usize. rewrite Z.mod_mod by lia.
        repeat split. constructor; [exact El|constructor]. }
      destruct H2 as (e & H2).
      destruct accepted; cbn [negb]; [|eexists; exact H2].
      specialize (IH (nb_frame_left st) (Z.of_nat (nb_frame_left st)) (written_ st) m2).
      destruct (packets_loop fuel (nb_frame_left st) _ (written_ st) m2)
        as [m'|h m'|f]; [| |exact I];
        destruct IH as (evs & Ha); eexists; eapply accounted_trans; eassumption.
  - destruct Hp as (evs1 & Hh & Hd1). exists evs1.
    apply (held_back_accounted m m0); try reflexivity; assumption.
Qed.

(** X7.  Whichever way a tick of the single-buffer variant ends, every
    buffer it took (and counted as an expected packet) has been given away
    exactly once, to the sink or to [osi_free], and no packet reaches the
    sink empty. *)
Theorem buffers_accounted (nb : Z) (m m' : machine) :
  final (a2dp_lhdc_encode_frames nb m) = Some m' ->
  exists evs,
    log m' = log m ++ evs
    /\ usize (expected_packets (cb m'))
       = usize (expected_packets (cb m) + disposals evs)
    /\ Forall (fun p => len p <> 0) (enqueued evs).
Proof.
  unfold a2dp_lhdc_encode_frames. cbv zeta. intros H.
  pose proof (packets_loop_accounted (Z.to_nat (u8 nb)) (Z.to_nat (u8 nb)) (u8 nb) 0 m)
    as Ha.
  destruct (packets_loop _ _ _ _ m) as [m1|h m1|f]; cbn in H; inversion H; subst m1;
    destruct Ha as (evs & L & X & N & _); exists evs; auto.
Qed.

(** X8.  In the single-buffer variant every packet carries the session
    timestamp as it was before the packet, and the session timestamp then
    advances by 512 samples for each frame the codec reported into that
    packet ([layer_specific]), so it moves only for frames that were
    produced and sent. *)
Theorem packet_timestamps_chain (nb : Z) (m m' : machine) :
  final (a2dp_lhdc_encode_frames nb m) = Some m' ->
  exists evs,
    log m' = log m ++ evs
    /\ timestamps_chain (timestamp (cb m)) (enqueued evs) (timestamp (cb m')).
Proof.
  unfold a2dp_lhdc_encode_frames. cbv zeta. intros H.
  pose proof (packets_loop_accounted (Z.to_nat (u8 nb)) (Z.to_nat (u8 nb)) (u8 nb) 0 m)
    as Ha.
  destruct (packets_loop _ _ _ _ m) as [m1|h m1|f]; cbn in H; inversion H; subst m1;
    destruct Ha as (evs & L & _ & _ & T); exists evs; auto.
Qed.

(** *** Frames read and frames given back *)

Lemma full_reads_app l1 l2 : full_reads (l1 ++ l2) = full_reads l1 + full_reads l2.
Proof. unfold full_reads. rewrite flat_map_app, length_app. lia. Qed.

Lemma underflows_app l1 l2 : underflows (l1 ++ l2) = underflows l1 + underflows l2.
Proof. unfold underflows. rewrite flat_map_app, length_app. lia. Qed.

Lemma full_reads_nonneg l : 0 <= full_reads l.
Proof. unfold full_reads. lia. Qed.

Lemma underflows_nonneg l : 0 <= underflows l.
Proof. unfold underflows. lia. Qed.

Lemma settled_trans (n k left : Z) (m1 m2 m3 : machine) (e1 e2 : list event) :
  settled n k m1 m2 e1 -> settled k left m2 m3 e2 ->
  settled n left m1 m3 (e1 ++ e2).
Proof.
  intros (L1 & F1 & K1 & C1) (L2 & F2 & K2 & C2). unfold settled.
  rewrite L2, L1, app_assoc, F2, F1, underflows_app, full_reads_app.
  pose proof (full_reads_nonneg e1). pose proof (full_reads_nonneg e2).
  pose proof (underflows_nonneg e1). pose proof (underflows_nonneg e2).
  repeat (split; [first [reflexivity | assumption]|]).
  destruct C1 as [(U1 & R1 & S1)|(U1 & -> & R1 & S1)];
    destruct C2 as [(U2 & R2 & S2)|(U2 & Hl & R2 & S2)].
  - left. rewrite S2, S1. repeat split; lia.
  - right. rewrite S2, S1. unfold frames_budget. rewrite F1.
    replace (k - full_reads e2) with (n - (full_reads e1 + full_reads e2)) by lia.
    repeat split; lia.
  - right. rewrite S2, S1.
    replace (full_reads e1 + full_reads e2) with (full_reads e1) by lia.
    repeat split; lia.
  - lia.
Qed.

(** A step that reads nothing and leaves the feeding alone. *)
Lemma settled_quiet (n : Z) (m m' : machine) (evs : list event) :
  0 <= n -> log m' = log m ++ evs ->
  feeding_params (cb m') = feeding_params (cb m) ->
  lhdc_feeding_state (cb m') = lhdc_feeding_state (cb m) ->
  underflows evs = 0 -> full_reads evs = 0 ->
  settled n n m m' evs.
Proof.
  intros Hn L F S U R. unfold settled. repeat (split; [assumption|]).
  left. repeat split; [assumption|lia|assumption].
Qed.

Ltac quiet_step :=
  apply settled_quiet; first [lia | reflexivity | symmetry; apply app_nil_r].

Lemma pcm_loop_settled :
  forall n c w p m,
    match pcm_loop n c w p m with
    | Done st =>
        exists evs,
          settled (Z.of_nat n) (Z.of_nat (nb_frame_left st)) m (machine_ st) evs
    | _ => True
    end.
Proof.
  induction n as [|n IH]; intros c w p m; cbn [pcm_loop].
  - exists []. cbn [nb_frame_left machine_].
    quiet_step.
  - destruct (read_feeding_spec_s m) as (s & Hcb & Hd & Hlog & Hres).
    cbv zeta in *.
    set (sz := enc_block_bytes (cb m)) in *.
    set (d := fst (read_callback (world m) sz)) in *.
    destruct (a2dp_lhdc_read_feeding m) as [[read_buffer|] m1]; cbn [fst snd] in *.
    + assert (Hu : underflow_s sz d = false).
      { destruct (underflow_s sz d); [discriminate|reflexivity]. }
      destruct (lhdc_handle (cb m1)); cbn [negb]; [|exact I].
      destruct (lhdc_encode_func (world m1) read_buffer) as [r w2].
      set (m2 := mkMachine (cb m1) w2 (log m1 ++ [EvEncode r])).
      assert (Hq : settled (Z.of_nat (S n)) (Z.of_nat n) m m2 [EvRead sz d; EvEncode r]).
      { unfold settled, m2. cbn [log cb]. rewrite Hlog, Hcb, <- app_assoc.
        split; [reflexivity|]. split; [reflexivity|]. split; [lia|].
        left. unfold underflows, full_reads. cbn [flat_map]. rewrite Hu.
        cbn [app length]. repeat split; lia. }
      destruct (result r =? 0); cbn [negb]; [|exact I].
      destruct ((written r =? 0) && negb (Nat.eqb n 0)).
      * match goal with
        | |- context [pcm_loop n ?c' ?w' ?p' m2] =>
            specialize (IH c' w' p' m2);
            destruct (pcm_loop n c' w' p' m2) as [st|h m'|f]
        end; try exact I.
        destruct IH as (evs & Hs). eexists. eapply settled_trans; eassumption.
      * cbn [nb_frame_left machine_]. eexists. exact Hq.
    + assert (Hu : underflow_s sz d = true).
      { destruct (underflow_s sz d); [reflexivity|].
        destruct Hres as [rb Hrb]. discriminate. }
      cbn [nb_frame_left machine_]. exists [EvRead sz d].
      unfold settled. cbn [log cb]. rewrite Hlog, Hcb.
      split; [reflexivity|]. split; [reflexivity|]. split; [lia|].
      right. unfold underflows, full_reads. cbn [flat_map]. rewrite Hu.
      cbn [app length]. repeat split; lia.
Qed.

Lemma packets_loop_settled :
  forall fuel nb_frame remain w m,
    match packets_loop fuel nb_frame remain w m with
    | Done m' => exists evs, settled (Z.of_nat nb_frame) 0 m m' evs
    | _ => True
    end.
Proof.
  induction fuel as [|fuel IH]; intros nb_frame remain w m;
    destruct nb_frame as [|nb]; cbn [packets_loop];
    try (exists []; quiet_step);
    try exact I.
  cbv zeta.
  set (m0 := mkMachine (count_expected_packet (cb m)) (world m) (log m)).
  assert (H0 : settled (Z.of_nat (S nb)) (Z.of_nat (S nb)) m m0 []).
  { quiet_step. }
  match goal with
  | |- context [pcm_loop ?n' ?c' ?w' ?p' m0] =>
      pose proof (pcm_loop_settled n' c' w' p' m0) as Hp;
      destruct (pcm_loop n' c' w' p' m0) as [st|h m'|f]
  end; try exact I.
  destruct Hp as (evs1 & Hs).
  pose proof (settled_trans _ _ _ _ _ _ _ _ H0 Hs) as H1. cbn [app] in H1.
  destruct (len (p_buf_ st) =? 0); cbn [negb].
  - set (m2 := mkMachine (cb (machine_ st)) (world (machine_ st))
                         (log (machine_ st) ++ [EvFree (p_buf_ st)])).
    assert (H2 : settled (Z.of_nat (nb_frame_left st)) (Z.of_nat (nb_frame_left st))
                         (machine_ st) m2 [EvFree (p_buf_ st)]).
    { quiet_step. }
    specialize (IH (nb_frame_left st) remain (written_ st) m2).
    destruct (packets_loop fuel (nb_frame_left st) remain (written_ st) m2)
      as [m'|h m'|f]; try exact I.
    destruct IH as (evs & Ha). eexists.
    eapply settled_trans; [eapply settled_trans; eassumption|exact Ha].
  - destruct (enqueue_callback _ _ _) as [accepted w2].
    match goal with
    | |- context [mkMachine ?c' w2 ?l'] => set (m2 := mkMachine c' w2 l')
    end.
    destruct accepted; cbn [negb]; [|exact I].
    assert (H2 : exists e, settled (Z.of_nat (nb_frame_left st))
                                   (Z.of_nat (nb_frame_left st)) (machine_ st) m2 [e]).
    { eexists. quiet_step. }
    destruct H2 as (e & H2).
    specialize (IH (nb_frame_left st) (Z.of_nat (nb_frame_left st)) (written_ st) m2).
    destruct (packets_loop fuel (nb_frame_left st) _ (written_ st) m2)
      as [m'|h m'|f]; try exact I.
    destruct IH as (evs & Ha). eexists.
    eapply settled_trans; [eapply settled_trans; eassumption|exact Ha].
Qed.

(** X22.  A tick of the single-buffer variant that runs to its end has
    made one read that delivered PCM for each frame it was asked for and
    left the feeding state alone; or else exactly one read came back
    empty while a frame was still due, and the counter of the pacer got
    back the PCM bytes of all the frames not read. *)
Theorem frames_read_or_returned (nb : Z) (m m' : machine) :
  a2dp_lhdc_encode_frames nb m = Done m' ->
  exists evs,
    log m' = log m ++ evs
    /\ (underflows evs = 0 /\ full_reads evs = u8 nb
        /\ lhdc_feeding_state (cb m') = lhdc_feeding_state (cb m)
        \/ underflows evs = 1 /\ full_reads evs < u8 nb
           /\ lhdc_feeding_state (cb m')
              = mkFeedingState
                  (u32 (counter (lhdc_feeding_state (cb m))
                        + frames_budget (cb m) (u8 nb - full_reads evs)))
                  (bytes_per_tick (lhdc_feeding_state (cb m)))
                  (last_frame_us (lhdc_feeding_state (cb m)))).
Proof.
  unfold a2dp_lhdc_encode_frames. cbv zeta. intros H.
  pose proof (packets_loop_settled (Z.to_nat (u8 nb)) (Z.to_nat (u8 nb)) (u8 nb) 0 m)
    as Hs.
  rewrite H in Hs. destruct Hs as (evs & L & _ & _ & Hc).
  assert (Hn : Z.of_nat (Z.to_nat (u8 nb)) = u8 nb).
  { apply Z2Nat.id. unfold u8. apply Z.mod_pos_bound. lia. }
  rewrite Hn in Hc. exists evs. split; [exact L|].
  destruct Hc as [(U & R & S)|(U & _ & R & S)]; [left|right]; repeat split;
    try assumption; lia.
Qed.

End StreamingAccounts.

Example two_packets_run :
  map (fun p => (len p, layer_specific p, media_timestamp p))
      (Streaming.enqueued
         (Streaming.log (Script.finish_s (Script.tick_s 3 Script.two_packets)
                                         Script.two_packets)))
  = [(500, 2, Some 1000); (200, 1, Some 2024)].
Proof. vm_compute. reflexivity. Qed.

Lemma buffers_accounted_witness :
  let m := Script.second_encode_fails in
  let m' := Script.finish_s (Script.tick_s 2 m) m in
  exists evs,
    Streaming.log m' = Streaming.log m ++ evs
    /\ usize (expected_packets (Streaming.cb m'))
       = usize (expected_packets (Streaming.cb m) + disposals evs)
    /\ Forall (fun p => len p <> 0) (Streaming.enqueued evs).
Proof.
  intros m m'.
  apply (@buffers_accounted (Script.platform_s 512) 2 m m').
  vm_compute. reflexivity.
Defined.

Lemma frames_read_or_returned_witness :
  let m := Script.pcm_runs_dry in
  let m' := Script.finish_s (Script.tick_s 3 m) m in
  exists evs,
    Streaming.log m' = Streaming.log m ++ evs
    /\ (underflows evs = 0 /\ full_reads evs = u8 3
        /\ lhdc_feeding_state (Streaming.cb m')
           = lhdc_feeding_state (Streaming.cb m)
        \/ underflows evs = 1 /\ full_reads evs < u8 3
           /\ lhdc_feeding_state (Streaming.cb m')
              = mkFeedingState
                  (u32 (counter (lhdc_feeding_state (Streaming.cb m))
                        + @frames_budget (Script.platform_s 512) (Streaming.cb m)
                            (u8 3 - full_reads evs)))
                  (bytes_per_tick (lhdc_feeding_state (Streaming.cb m)))
                  (last_frame_us (lhdc_feeding_state (Streaming.cb m)))).
Proof.
  intros m m'.
  apply (@frames_read_or_returned (Script.platform_s 512) 3 m m').
  vm_compute. reflexivity.
Defined.

(** The tick of [Script.pcm_runs_dry]: one packet of one frame goes out,
    and the bytes of the two frames not read, 2 * 512 * 2 * 24 / 8, are
    back in the counter. *)
Example pcm_runs_dry_run :
  let m' := Script.finish_s (Script.tick_s 3 Script.pcm_runs_dry)
                            Script.pcm_runs_dry in
  map len (Streaming.enqueued (Streaming.log m')) = [300]
  /\ counter (lhdc_feeding_state (Streaming.cb m')) = 6144.
Proof. vm_compute. split; reflexivity. Qed.

Lemma packet_timestamps_chain_witness :
  let m := Script.two_packets in
  let m' := Script.finish_s (Script.tick_s 3 m) m in
  exists evs,
    Streaming.log m' = Streaming.log m ++ evs
    /\ timestamps_chain 1000 (Streaming.enqueued evs) 2536.
Proof.
  intros m m'.
  apply (@packet_timestamps_chain (Script.platform_s 512) 3 m m').
  vm_compute. reflexivity.
Defined.

Lemma backpressure_halts_streaming_witness :
  let m := Script.two_packets_refused in
  let o := @Streaming.a2dp_lhdc_encode_frames (Script.platform_s 512) 3 m in
  let m' := Script.finish_s o m in
  o = Streaming.Halt SinkBackpressure m'
  /\ skipn 5 (Streaming.log m') = []
  /\ dropped (Streaming.cb m') = dropped (Streaming.cb m).
Proof.
  intros m o m'.
  apply (@backpressure_halts_streaming (Script.platform_s 512) 3 m m' o
           (firstn 4 (Streaming.log m')) (skipn 5 (Streaming.log m'))
           (mkBuf 24 500 2 (Some 1000) (Script.ramp 7 500)) 2).
  - reflexivity.
  - vm_compute. reflexivity.
  - vm_compute. reflexivity.
Defined.

(** ** The codec information element: properties *)

(** *** Bytes and fields *)

Lemma byte_to_Z_range (b : byte) : 0 <= byte_to_Z b < 256.
Proof.
  unfold byte_to_Z. pose proof (Stdlib.Strings.Byte.to_N_bounded b). lia.
Qed.

Lemma byte_to_Z_to_byte (x : Z) : byte_to_Z (Z_to_byte x) = u8 x.
Proof.
  unfold Z_to_byte, byte_to_Z.
  assert (Hr : 0 <= u8 x < 2 ^ 8) by (unfold u8; apply Z.mod_pos_bound; lia).
  destruct (Stdlib.Strings.Byte.of_N (Z.to_N (u8 x))) as [b|] eqn:E.
  - apply Stdlib.Strings.Byte.to_of_N in E. rewrite E. lia.
  - apply Stdlib.Strings.Byte.of_N_None_iff in E. lia.
Qed.

Lemma Z_to_byte_to_Z (b : byte) : Z_to_byte (byte_to_Z b) = b.
Proof.
  unfold Z_to_byte, byte_to_Z. pose proof (byte_to_Z_range b) as Hr.
  unfold byte_to_Z in Hr. unfold u8. rewrite Z.mod_small by lia.
  rewrite N2Z.id, Stdlib.Strings.Byte.of_to_N. reflexivity.
Qed.

Lemma byte_to_Z_inj (a b : byte) : byte_to_Z a = byte_to_Z b -> a = b.
Proof. intros E. rewrite <- (Z_to_byte_to_Z a), E. apply Z_to_byte_to_Z. Qed.

(** Or-ing a field in above the bits of [a] is adding it. *)
Lemma lor_above (a b n : Z) :
  0 <= n -> 0 <= a < 2 ^ n -> Z.lor a (b * 2 ^ n) = a + b * 2 ^ n.
Proof.
  intros Hn Ha.
  assert (Hd : Z.land a (b * 2 ^ n) = 0).
  { apply Z.bits_inj'. intros k Hk. rewrite Z.land_spec, Z.bits_0.
    destruct (Z_lt_le_dec k n).
    - rewrite Z.mul_pow2_bits_low by lia. apply andb_false_r.
    - rewrite (testbit_below a n k) by lia. reflexivity. }
  rewrite <- Z.lxor_lor by exact Hd. symmetry. apply Z.add_nocarry_lxor. exact Hd.
Qed.

(** A byte shifted into place passes the mask of its place. *)
Lemma land_byte_field (v n : Z) :
  0 <= v < 256 -> 0 <= n -> Z.land (Z.shiftl v n) (Z.shiftl 255 n) = v * 2 ^ n.
Proof.
  intros Hv Hn. rewrite <- Z.shiftl_land. change 255 with (Z.ones 8).
  rewrite Z.land_ones by lia. rewrite Z.mod_small by lia.
  apply Z.shiftl_mul_pow2. exact Hn.
Qed.

Lemma land_low_byte (v : Z) : 0 <= v < 256 -> Z.land v 255 = v.
Proof.
  intros Hv. change 255 with (Z.ones 8). rewrite Z.land_ones by lia.
  apply Z.mod_small. lia.
Qed.

(** The two assembled fields, as sums. *)
Lemma codec_field (c0 c1 : Z) :
  0 <= c0 < 256 -> 0 <= c1 < 256 ->
  u16 (Z.lor (Z.land c0 0x00FF) (Z.land (Z.shiftl c1 8) 0xFF00)) = c0 + c1 * 2 ^ 8.
Proof.
  intros H0 H1. rewrite (land_low_byte c0 H0).
  change 0xFF00 with (Z.shiftl 255 8). rewrite (land_byte_field c1 8 H1) by lia.
  rewrite lor_above by lia. apply u16_small. lia.
Qed.

Lemma vendor_field (v0 v1 v2 v3 : Z) :
  0 <= v0 < 256 -> 0 <= v1 < 256 -> 0 <= v2 < 256 -> 0 <= v3 < 256 ->
  u32 (Z.lor (Z.lor (Z.lor (Z.land v0 0x000000FF)
                           (Z.land (Z.shiftl v1 8) 0x0000FF00))
                    (Z.land (Z.shiftl v2 16) 0x00FF0000))
             (Z.land (Z.shiftl v3 24) 0xFF000000))
  = v0 + v1 * 2 ^ 8 + v2 * 2 ^ 16 + v3 * 2 ^ 24.
Proof.
  intros H0 H1 H2 H3. rewrite (land_low_byte v0 H0).
  change 0x0000FF00 with (Z.shiftl 255 8).
  change 0x00FF0000 with (Z.shiftl 255 16).
  change 0xFF000000 with (Z.shiftl 255 24).
  rewrite (land_byte_field v1 8 H1), (land_byte_field v2 16 H2),
    (land_byte_field v3 24 H3) by lia.
  rewrite (lor_above v0) by lia.
  rewrite (lor_above (v0 + v1 * 2 ^ 8)) by lia.
  rewrite (lor_above (v0 + v1 * 2 ^ 8 + v2 * 2 ^ 16)) by lia.
  apply u32_small. lia.
Qed.

Section CodecInfoFacts.
Import CodecInfo.
Context {H : Headers}.

Lemma fmt_cases (b : byte) :
  let f := Z.land (byte_to_Z b) A2DP_LHDC_BIT_FMT_MASK in
  f = 0 \/ f = A2DP_LHDC_BIT_FMT_24 \/ f = A2DP_LHDC_BIT_FMT_16
  \/ f = A2DP_LHDC_BIT_FMT_MASK.
Proof. destruct b; vm_compute; tauto. Qed.

Lemma sampling_bits_range (x : Z) :
  0 <= Z.land x A2DP_LHDC_SAMPLING_FREQ_MASK < 8.
Proof.
  unfold A2DP_LHDC_SAMPLING_FREQ_MASK. change 7 with (Z.ones 3).
  rewrite Z.land_ones by lia. apply Z.mod_pos_bound. lia.
Qed.

(** Running the parser on ten bytes or more. *)
Lemma parse_ten_bytes (ie0 : tA2DP_LHDC_CIE) (a0 a1 a2 a3 a4 a5 a6 a7 a8 a9 : byte)
  (rest : list byte) (cap : bool) :
  A2DP_ParseInfoLhdc (Some ie0)
    (Some (a0 :: a1 :: a2 :: a3 :: a4 :: a5 :: a6 :: a7 :: a8 :: a9 :: rest)) cap
  = if negb (byte_to_Z a0 =? A2DP_LHDC_CODEC_LEN) then Some (A2DP_WRONG_CODEC, Some ie0)
    else if negb (Z.shiftr (byte_to_Z a1) 4 =? AVDT_MEDIA_TYPE_AUDIO)
            || negb (byte_to_Z a2 =? A2DP_MEDIA_CT_NON_A2DP)
    then Some (A2DP_WRONG_CODEC, Some ie0)
    else
      let vendor := byte_to_Z a3 + byte_to_Z a4 * 2 ^ 8 + byte_to_Z a5 * 2 ^ 16
                    + byte_to_Z a6 * 2 ^ 24 in
      let codec := byte_to_Z a7 + byte_to_Z a8 * 2 ^ 8 in
      if negb (vendor =? A2DP_LHDC_VENDOR_ID) || negb (codec =? A2DP_LHDC_CODEC_ID)
      then Some (A2DP_WRONG_CODEC,
                 Some (mkCie vendor codec (sampleRate ie0) (channelMode ie0)
                             (bits_per_sample ie0)))
      else
        match parsed_element a9 with
        | None =>
            Some (A2DP_WRONG_CODEC,
                  Some (mkCie vendor codec
                              (Z.land (byte_to_Z a9) A2DP_LHDC_SAMPLING_FREQ_MASK)
                              A2DP_LHDC_CHANNEL_MODE_STEREO (bits_per_sample ie0)))
        | Some ie =>
            if cap then Some (A2DP_SUCCESS, Some ie)
            else if negb (A2DP_BitsSet (sampleRate ie) =? A2DP_SET_ONE_BIT)
            then Some (A2DP_BAD_SAMP_FREQ, Some ie)
            else if negb (A2DP_BitsSet (channelMode ie) =? A2DP_SET_ONE_BIT)
            then Some (A2DP_BAD_CH_MODE, Some ie)
            else Some (A2DP_SUCCESS, Some ie)
        end.
Proof.
  unfold A2DP_ParseInfoLhdc, byte_at. cbn [nth_error option_map and_then].
  destruct (negb (byte_to_Z a0 =? A2DP_LHDC_CODEC_LEN)); [reflexivity|].
  destruct (negb (Z.shiftr (byte_to_Z a1) 4 =? AVDT_MEDIA_TYPE_AUDIO)
            || negb (byte_to_Z a2 =? A2DP_MEDIA_CT_NON_A2DP)); [reflexivity|].
  rewrite (vendor_field _ _ _ _ (byte_to_Z_range a3) (byte_to_Z_range a4)
             (byte_to_Z_range a5) (byte_to_Z_range a6)).
  rewrite (codec_field _ _ (byte_to_Z_range a7) (byte_to_Z_range a8)).
  cbv zeta.
  destruct (negb (_ =? A2DP_LHDC_VENDOR_ID) || negb (_ =? A2DP_LHDC_CODEC_ID)) eqn:Eid;
    [reflexivity|].
  apply orb_false_elim in Eid. destruct Eid as [Ev Ec].
  apply negb_false_iff, Z.eqb_eq in Ev. apply negb_false_iff, Z.eqb_eq in Ec.
  rewrite Ev, Ec. unfold parsed_element. cbv zeta. cbn [sampleRate channelMode].
  rewrite (u8_small (Z.land (byte_to_Z a9) A2DP_LHDC_SAMPLING_FREQ_MASK))
    by (pose proof (sampling_bits_range (byte_to_Z a9)); lia).
  destruct (_ =? A2DP_LHDC_BIT_FMT_24); [reflexivity|].
  destruct (_ =? A2DP_LHDC_BIT_FMT_16); [reflexivity|].
  destruct (_ =? A2DP_LHDC_BIT_FMT_MASK); reflexivity.
Qed.

(** A codec information of fewer than ten bytes is not parsed with
    success: the parser refuses it, or reads past its end. *)
Lemma parse_needs_ten_bytes (ie0 : tA2DP_LHDC_CIE) (info : list byte) (cap : bool)
  (ie : option tA2DP_LHDC_CIE) :
  A2DP_ParseInfoLhdc (Some ie0) (Some info) cap = Some (A2DP_SUCCESS, ie) ->
  exists a0 a1 a2 a3 a4 a5 a6 a7 a8 a9 rest,
    info = a0 :: a1 :: a2 :: a3 :: a4 :: a5 :: a6 :: a7 :: a8 :: a9 :: rest.
Proof.
  intros Hp.
  do 10 (destruct info as [|? info];
         [exfalso; revert Hp; unfold A2DP_ParseInfoLhdc, byte_at;
          cbn [nth_error option_map and_then];
          repeat match goal with
                 | |- context [if ?c then _ else _] => destruct c
                 end; discriminate|]).
  repeat eexists.
Qed.

(** What a successful parse has seen, and what it has stored. *)
Lemma parse_success_inv (ie0 : tA2DP_LHDC_CIE) (info : list byte) (cap : bool)
  (o : option tA2DP_LHDC_CIE) :
  A2DP_ParseInfoLhdc (Some ie0) (Some info) cap = Some (A2DP_SUCCESS, o) ->
  exists b1 b2 b9 rest ie,
    info = with_header b1 b2 b9 rest
    /\ Z.shiftr (byte_to_Z b1) 4 = AVDT_MEDIA_TYPE_AUDIO
    /\ byte_to_Z b2 = A2DP_MEDIA_CT_NON_A2DP
    /\ parsed_element b9 = Some ie /\ o = Some ie
    /\ (cap = false -> one_rate_one_mode ie = true).
Proof.
  intros Hp. destruct (parse_needs_ten_bytes _ _ _ _ Hp)
    as (a0 & a1 & a2 & a3 & a4 & a5 & a6 & a7 & a8 & a9 & rest & ->).
  rewrite parse_ten_bytes in Hp.
  destruct (byte_to_Z a0 =? A2DP_LHDC_CODEC_LEN) eqn:E0; cbn [negb] in Hp;
    [|discriminate].
  destruct (Z.shiftr (byte_to_Z a1) 4 =? AVDT_MEDIA_TYPE_AUDIO) eqn:E1;
    cbn [negb orb] in Hp; [|discriminate].
  destruct (byte_to_Z a2 =? A2DP_MEDIA_CT_NON_A2DP) eqn:E2;
    cbn [negb orb] in Hp; [|discriminate].
  cbv zeta in Hp.
  destruct (_ =? A2DP_LHDC_VENDOR_ID) eqn:Ev; cbn [negb orb] in Hp; [|discriminate].
  destruct (_ =? A2DP_LHDC_CODEC_ID) eqn:Ec; cbn [negb orb] in Hp; [|discriminate].
  apply Z.eqb_eq in E0, E1, E2, Ev, Ec.
  unfold A2DP_LHDC_CODEC_LEN, A2DP_LHDC_VENDOR_ID, A2DP_LHDC_CODEC_ID in *.
  pose proof (byte_to_Z_range a3). pose proof (byte_to_Z_range a4).
  pose proof (byte_to_Z_range a5). pose proof (byte_to_Z_range a6).
  pose proof (byte_to_Z_range a7). pose proof (byte_to_Z_range a8).
  assert (a0 = Byte.x09) by (apply byte_to_Z_inj; rewrite E0; reflexivity).
  assert (a3 = Byte.x3a) by (apply byte_to_Z_inj; change (byte_to_Z Byte.x3a) with 58; lia).
  assert (a4 = Byte.x05) by (apply byte_to_Z_inj; change (byte_to_Z Byte.x05) with 5; lia).
  assert (a5 = Byte.x00) by (apply byte_to_Z_inj; change (byte_to_Z Byte.x00) with 0; lia).
  assert (a6 = Byte.x00) by (apply byte_to_Z_inj; change (byte_to_Z Byte.x00) with 0; lia).
  assert (a7 = Byte.x4c) by (apply byte_to_Z_inj; change (byte_to_Z Byte.x4c) with 76; lia).
  assert (a8 = Byte.x48) by (apply byte_to_Z_inj; change (byte_to_Z Byte.x48) with 72; lia).
  subst. destruct (parsed_element a9) as [ie|] eqn:Hel; [|discriminate].
  exists a1, a2, a9, rest, ie. unfold with_header.
  assert (Ho : o = Some ie /\ (cap = false -> one_rate_one_mode ie = true)).
  { unfold one_rate_one_mode. destruct cap.
    - inversion Hp. split; [reflexivity|discriminate].
    - destruct (A2DP_BitsSet (sampleRate ie) =? A2DP_SET_ONE_BIT); cbn [negb] in Hp;
        [|discriminate].
      destruct (A2DP_BitsSet (channelMode ie) =? A2DP_SET_ONE_BIT); cbn [negb] in Hp;
        [|discriminate].
      inversion Hp. split; reflexivity. }
  destruct Ho as [Ho Hone]. repeat split; assumption.
Qed.

(** Running the parser on a codec information with the header. *)
Lemma parse_header (ie0 : tA2DP_LHDC_CIE) (b1 b2 b9 : byte) (rest : list byte)
  (cap : bool) :
  Z.shiftr (byte_to_Z b1) 4 = AVDT_MEDIA_TYPE_AUDIO ->
  byte_to_Z b2 = A2DP_MEDIA_CT_NON_A2DP ->
  A2DP_ParseInfoLhdc (Some ie0)
    (Some (with_header b1 b2 b9 rest)) cap
  = match parsed_element b9 with
    | None =>
        Some (A2DP_WRONG_CODEC,
              Some (mkCie A2DP_LHDC_VENDOR_ID A2DP_LHDC_CODEC_ID
                          (Z.land (byte_to_Z b9) A2DP_LHDC_SAMPLING_FREQ_MASK)
                          A2DP_LHDC_CHANNEL_MODE_STEREO (bits_per_sample ie0)))
    | Some ie =>
        if cap || one_rate_one_mode ie then Some (A2DP_SUCCESS, Some ie)
        else if negb (A2DP_BitsSet (sampleRate ie) =? A2DP_SET_ONE_BIT)
        then Some (A2DP_BAD_SAMP_FREQ, Some ie)
        else Some (A2DP_BAD_CH_MODE, Some ie)
    end.
Proof.
  intros E1 E2. unfold with_header. rewrite parse_ten_bytes, E1, E2, !Z.eqb_refl.
  change (byte_to_Z Byte.x09 =? A2DP_LHDC_CODEC_LEN) with true.
  cbn [negb orb]. cbv zeta.
  change (byte_to_Z Byte.x3a + byte_to_Z Byte.x05 * 2 ^ 8 + byte_to_Z Byte.x00 * 2 ^ 16
          + byte_to_Z Byte.x00 * 2 ^ 24) with A2DP_LHDC_VENDOR_ID.
  change (byte_to_Z Byte.x4c + byte_to_Z Byte.x48 * 2 ^ 8) with A2DP_LHDC_CODEC_ID.
  rewrite !Z.eqb_refl. cbn [negb orb].
  destruct (parsed_element b9) as [ie|]; [|reflexivity].
  unfold one_rate_one_mode. destruct cap; [reflexivity|]. cbn [orb].
  destruct (A2DP_BitsSet (sampleRate ie) =? A2DP_SET_ONE_BIT); [|reflexivity].
  destruct (A2DP_BitsSet (channelMode ie) =? A2DP_SET_ONE_BIT); reflexivity.
Qed.

Lemma parsed_element_some (b9 : byte) :
  Z.land (byte_to_Z b9) A2DP_LHDC_BIT_FMT_MASK <> 0 <->
  exists ie, parsed_element b9 = Some ie.
Proof.
  unfold parsed_element. cbv zeta.
  destruct (fmt_cases b9) as [E|[E|[E|E]]]; cbv zeta in E; rewrite E; cbn [Z.eqb];
    split; try (intros _; eexists; reflexivity); try discriminate.
  - intros Hne. contradiction.
  - intros [ie Hie]. discriminate.
Qed.

(** X9.  What [A2DP_ParseInfoLhdc] accepts as a capability: exactly the
    codec informations that begin with length octet 9, the audio media
    type in the high half of the next byte, the non-A2DP codec type, the
    vendor 0x0000053a and the codec 0x484C (low byte first), and that name
    a PCM format in the tenth byte.  Neither the low half of the second
    byte, nor the sampling bits, nor anything after the tenth byte is looked
    at, and what the element held before makes no difference. *)
Theorem capability_accepted_iff (ie0 : tA2DP_LHDC_CIE) (info : list byte) :
  (exists ie, A2DP_ParseInfoLhdc (Some ie0) (Some info) true
              = Some (A2DP_SUCCESS, Some ie))
  <-> lhdc_header info.
Proof.
  split.
  - intros [ie Hp]. apply parse_success_inv in Hp.
    destruct Hp as (b1 & b2 & b9 & rest & ie' & -> & E1 & E2 & Hel & _ & _).
    exists b1, b2, b9, rest. repeat split; try assumption.
    apply parsed_element_some. eauto.
  - intros (b1 & b2 & b9 & rest & -> & E1 & E2 & Hf).
    apply parsed_element_some in Hf. destruct Hf as [ie Hie].
    exists ie. pose proof (parse_header ie0 b1 b2 b9 rest true E1 E2) as Hp.
    rewrite Hie in Hp. exact Hp.
Qed.

(** Case analysis along a run of the parser: the reads first, then the
    tests as they come. *)
Ltac parse_cases :=
  repeat (cbn [and_then option_map fst snd is_success negb orb andb];
          cbv beta zeta;
          match goal with
          | |- context [and_then (byte_at ?p ?i) _] => destruct (byte_at p i)
          | |- context [if ?c then _ else _] => destruct c
          end);
  cbn [and_then option_map fst snd is_success negb orb andb].

(** X10.  The "liberal check" of [A2DP_IsVendorSourceCodecValidLhdc] and
    [A2DP_IsVendorPeerSinkCodecValidLhdc] (valid as a configuration, or
    else as a capability) accepts exactly what parses as a capability, the
    answer of [A2DP_VendorAdjustCodecLhdc]; and none of the three answers
    depends on what the uninitialised local element holds. *)
Theorem liberal_check_is_capability_check (cfg_cie cfg_cie' : tA2DP_LHDC_CIE)
  (p_codec_info : option (list byte)) :
  A2DP_IsVendorSourceCodecValidLhdc cfg_cie p_codec_info
  = A2DP_VendorAdjustCodecLhdc cfg_cie' p_codec_info
  /\ A2DP_IsVendorPeerSinkCodecValidLhdc cfg_cie p_codec_info
     = A2DP_VendorAdjustCodecLhdc cfg_cie' p_codec_info.
Proof.
  unfold A2DP_IsVendorSourceCodecValidLhdc, A2DP_IsVendorPeerSinkCodecValidLhdc,
    A2DP_VendorAdjustCodecLhdc, A2DP_ParseInfoLhdc.
  destruct p_codec_info as [info|]; [|split; reflexivity].
  split; parse_cases; reflexivity.
Qed.

(** *** Building and parsing *)

(** The tenth byte as [A2DP_BuildInfoLhdc] puts it together: sampling
    bits [x] below, format bits [f] above. *)
Lemma para_fields (x f : Z) :
  0 <= x < 8 ->
  f = A2DP_LHDC_BIT_FMT_24 \/ f = A2DP_LHDC_BIT_FMT_16 \/ f = A2DP_LHDC_BIT_FMT_MASK ->
  let b := Z_to_byte (u8 (Z.lor (u8 x) f)) in
  Z.land (byte_to_Z b) A2DP_LHDC_BIT_FMT_MASK = f
  /\ Z.land (byte_to_Z b) A2DP_LHDC_SAMPLING_FREQ_MASK = x
  /\ u8 (Z.lor (u8 x) f) <> 0.
Proof.
  intros Hx Hf.
  assert (Hc : x = 0 \/ x = 1 \/ x = 2 \/ x = 3 \/ x = 4 \/ x = 5 \/ x = 6 \/ x = 7)
    by lia.
  repeat (destruct Hc as [->|Hc]); try subst x;
    repeat (destruct Hf as [->|Hf]); try subst f;
    vm_compute; repeat split; discriminate.
Qed.

Lemma media_type_nibble (t : Z) :
  0 <= t < 16 -> Z.shiftr (byte_to_Z (Z_to_byte (Z.shiftl (u8 t) 4))) 4 = t.
Proof.
  intros Ht. rewrite byte_to_Z_to_byte, (u8_small t) by lia.
  rewrite Z.shiftl_mul_pow2 by lia. rewrite u8_small by lia.
  rewrite Z.shiftr_div_pow2 by lia. apply Z.div_mul. lia.
Qed.

(** The shared core of the round trips: what [A2DP_BuildInfoLhdc] stores
    for an element with the LHDC identifiers and a PCM format, and how it
    parses. *)
Lemma build_then_parse (ie ie0 : tA2DP_LHDC_CIE) (buf : list byte) (cap : bool) :
  0 <= AVDT_MEDIA_TYPE_AUDIO < 16 -> 0 <= A2DP_MEDIA_CT_NON_A2DP < 256 ->
  vendorId ie = A2DP_LHDC_VENDOR_ID -> codecId ie = A2DP_LHDC_CODEC_ID ->
  pcm_format (bits_per_sample ie) ->
  (10 <= length buf)%nat ->
  let parsed :=
    mkCie A2DP_LHDC_VENDOR_ID A2DP_LHDC_CODEC_ID
          (Z.land (sampleRate ie) A2DP_LHDC_SAMPLING_FREQ_MASK)
          A2DP_LHDC_CHANNEL_MODE_STEREO (bits_per_sample ie) in
  exists b1 b2 b9,
    A2DP_BuildInfoLhdc AVDT_MEDIA_TYPE_AUDIO (Some ie) (Some buf)
    = Some (A2DP_SUCCESS,
            Some (with_header b1 b2 b9 (skipn 10 buf)))
    /\ Z.shiftr (byte_to_Z b1) 4 = AVDT_MEDIA_TYPE_AUDIO
    /\ byte_to_Z b2 = A2DP_MEDIA_CT_NON_A2DP
    /\ parsed_element b9 = Some parsed.
Proof.
  intros Ha Hn Hv Hc Hbits Hlen parsed.
  pose proof (sampling_bits_range (sampleRate ie)) as Hx.
  set (x := Z.land (sampleRate ie) A2DP_LHDC_SAMPLING_FREQ_MASK) in *.
  set (B16 := BTAV_A2DP_CODEC_BITS_PER_SAMPLE_16) in *.
  set (B24 := BTAV_A2DP_CODEC_BITS_PER_SAMPLE_24) in *.
  (* the format bits the builder chooses, and the PCM formats they parse to *)
  assert (Hpara : exists f,
             (f = A2DP_LHDC_BIT_FMT_24 \/ f = A2DP_LHDC_BIT_FMT_16
              \/ f = A2DP_LHDC_BIT_FMT_MASK)
             /\ (if bits_per_sample ie =? Z.lor B24 B16
                 then u8 (Z.lor (u8 x) (Z.lor A2DP_LHDC_BIT_FMT_24 A2DP_LHDC_BIT_FMT_16))
                 else if bits_per_sample ie =? B24
                 then u8 (Z.lor (u8 x) A2DP_LHDC_BIT_FMT_24)
                 else if bits_per_sample ie =? B16
                 then u8 (Z.lor (u8 x) A2DP_LHDC_BIT_FMT_16)
                 else u8 x) = u8 (Z.lor (u8 x) f)
             /\ (if f =? A2DP_LHDC_BIT_FMT_24 then B24
                 else if f =? A2DP_LHDC_BIT_FMT_16 then B16
                 else Z.lor B16 B24) = bits_per_sample ie).
  { destruct (bits_per_sample ie =? Z.lor B24 B16) eqn:E1.
    { apply Z.eqb_eq in E1. exists A2DP_LHDC_BIT_FMT_MASK.
      split; [auto|]. split; [reflexivity|]. rewrite E1. cbn. apply Z.lor_comm. }
    destruct (bits_per_sample ie =? B24) eqn:E2.
    { apply Z.eqb_eq in E2. exists A2DP_LHDC_BIT_FMT_24.
      split; [auto|]. split; [reflexivity|]. rewrite E2. reflexivity. }
    destruct (bits_per_sample ie =? B16) eqn:E3.
    { apply Z.eqb_eq in E3. exists A2DP_LHDC_BIT_FMT_16.
      split; [auto|]. split; [reflexivity|]. rewrite E3. reflexivity. }
    apply Z.eqb_neq in E1, E2, E3. exfalso.
    destruct Hbits as [Hb|[Hb|Hb]]; fold B16 B24 in Hb;
      [apply E3|apply E2|apply E1; rewrite Z.lor_comm]; exact Hb. }
  destruct Hpara as (f & Hf & Hbuild & Hparse).
  destruct (para_fields x f Hx Hf) as (Hfmt & Hrate & Hnz). cbv zeta in *.
  exists (Z_to_byte (Z.shiftl (u8 AVDT_MEDIA_TYPE_AUDIO) 4)),
    (Z_to_byte A2DP_MEDIA_CT_NON_A2DP), (Z_to_byte (u8 (Z.lor (u8 x) f))).
  split; [|split; [apply media_type_nibble; exact Ha|split]].
  - unfold A2DP_BuildInfoLhdc. cbv zeta. fold x B16 B24. rewrite Hbuild, Hv, Hc.
    unfold store_bytes. cbn [length].
    replace (10 <=? length buf)%nat with true by (symmetry; apply Nat.leb_le; exact Hlen).
    cbn [and_then app].
    replace (u8 (Z.lor (u8 x) f) =? 0) with false
      by (symmetry; apply Z.eqb_neq; exact Hnz).
    reflexivity.
  - rewrite byte_to_Z_to_byte. apply u8_small. lia.
  - unfold parsed_element. cbv zeta. rewrite Hfmt, Hrate.
    unfold parsed. fold x. rewrite <- Hparse.
    destruct Hf as [-> | [-> | ->]]; reflexivity.
Qed.

(** X11.  Round trip of the codec information: what
    [A2DP_BuildInfoLhdc] stores for an element with the LHDC identifiers
    and a PCM format (16 bit, 24 bit or both) is parsed back with success,
    to the same PCM format, to the sampling bits that fit the mask 0x07 and
    to stereo, whatever the channel mode of the element was.  The bytes of
    the buffer after the tenth are left as they were. *)
Theorem parse_build_round_trip (ie ie0 : tA2DP_LHDC_CIE) (buf : list byte) :
  0 <= AVDT_MEDIA_TYPE_AUDIO < 16 -> 0 <= A2DP_MEDIA_CT_NON_A2DP < 256 ->
  vendorId ie = A2DP_LHDC_VENDOR_ID -> codecId ie = A2DP_LHDC_CODEC_ID ->
  pcm_format (bits_per_sample ie) ->
  (10 <= length buf)%nat ->
  exists info,
    A2DP_BuildInfoLhdc AVDT_MEDIA_TYPE_AUDIO (Some ie) (Some buf)
    = Some (A2DP_SUCCESS, Some info)
    /\ skipn 10 info = skipn 10 buf
    /\ A2DP_ParseInfoLhdc (Some ie0) (Some info) true
       = Some (A2DP_SUCCESS,
               Some (mkCie A2DP_LHDC_VENDOR_ID A2DP_LHDC_CODEC_ID
                           (Z.land (sampleRate ie) A2DP_LHDC_SAMPLING_FREQ_MASK)
                           A2DP_LHDC_CHANNEL_MODE_STEREO (bits_per_sample ie))).
Proof.
  intros Ha Hn Hv Hc Hbits Hlen.
  destruct (build_then_parse ie ie0 buf true Ha Hn Hv Hc Hbits Hlen)
    as (b1 & b2 & b9 & Hb & E1 & E2 & Hel).
  eexists. split; [exact Hb|]. split; [reflexivity|].
  pose proof (parse_header ie0 b1 b2 b9 (skipn 10 buf) true E1 E2) as Hp.
  rewrite Hel in Hp. exact Hp.
Qed.

(** *** The track getters *)

(** X12.  [A2DP_VendorGetTrackBitsPerSampleLhdc] never reports a sample
    size: its [switch] is on the capabilities of the source, which name
    both 16 and 24 bit and so match neither [case], and it answers -1 for
    every codec information it can read, valid or not (the other outcome
    is a read past the end of the codec information).  The two PCM format
    flags are taken to be different formats, neither containing the
    other. *)
Theorem track_bits_per_sample_unknown (lhdc_cie : tA2DP_LHDC_CIE)
  (p_codec_info : option (list byte)) :
  Z.lor BTAV_A2DP_CODEC_BITS_PER_SAMPLE_16 BTAV_A2DP_CODEC_BITS_PER_SAMPLE_24
  <> BTAV_A2DP_CODEC_BITS_PER_SAMPLE_16 ->
  Z.lor BTAV_A2DP_CODEC_BITS_PER_SAMPLE_16 BTAV_A2DP_CODEC_BITS_PER_SAMPLE_24
  <> BTAV_A2DP_CODEC_BITS_PER_SAMPLE_24 ->
  A2DP_VendorGetTrackBitsPerSampleLhdc lhdc_cie p_codec_info = Some (-1)
  \/ A2DP_VendorGetTrackBitsPerSampleLhdc lhdc_cie p_codec_info = None.
Proof.
  intros H16 H24. unfold A2DP_VendorGetTrackBitsPerSampleLhdc.
  destruct (A2DP_ParseInfoLhdc _ _ _) as [[status [cie|]]|]; auto.
  destruct (negb (is_success status)); [auto|].
  cbn [bits_per_sample a2dp_lhdc_caps].
  apply Z.eqb_neq in H16, H24. rewrite H16, H24. auto.
Qed.

(** X13.  The getters on a configuration that [A2DP_BuildInfoLhdc] built
    for one of the three sampling rates of the mask: the track sample rate
    is the rate of the element, the channel count is 2 and the channel mode
    code is stereo.  ([A2DP_BitsSet] is taken to answer "one bit" for the
    rate and for the stereo flag, and the constant of 88.2 kHz to differ
    from that of 96 kHz.) *)
Theorem getters_on_built_configuration (ie lhdc_cie : tA2DP_LHDC_CIE)
  (buf : list byte) (hz : Z) :
  0 <= AVDT_MEDIA_TYPE_AUDIO < 16 -> 0 <= A2DP_MEDIA_CT_NON_A2DP < 256 ->
  vendorId ie = A2DP_LHDC_VENDOR_ID -> codecId ie = A2DP_LHDC_CODEC_ID ->
  pcm_format (bits_per_sample ie) ->
  (10 <= length buf)%nat ->
  (sampleRate ie = A2DP_LHDC_SAMPLING_FREQ_44100 /\ hz = 44100
   \/ sampleRate ie = A2DP_LHDC_SAMPLING_FREQ_48000 /\ hz = 48000
   \/ sampleRate ie = A2DP_LHDC_SAMPLING_FREQ_96000 /\ hz = 96000) ->
  A2DP_LHDC_SAMPLING_FREQ_88200 <> A2DP_LHDC_SAMPLING_FREQ_96000 ->
  A2DP_BitsSet (sampleRate ie) = A2DP_SET_ONE_BIT ->
  A2DP_BitsSet A2DP_LHDC_CHANNEL_MODE_STEREO = A2DP_SET_ONE_BIT ->
  exists info,
    A2DP_BuildInfoLhdc AVDT_MEDIA_TYPE_AUDIO (Some ie) (Some buf)
    = Some (A2DP_SUCCESS, Some info)
    /\ A2DP_VendorGetTrackSampleRateLhdc lhdc_cie (Some info) = Some hz
    /\ A2DP_VendorGetTrackChannelCountLhdc lhdc_cie (Some info) = Some 2
    /\ A2DP_VendorGetChannelModeCodeLhdc lhdc_cie (Some info)
       = Some A2DP_LHDC_CHANNEL_MODE_STEREO.
Proof.
  intros Ha Hn Hv Hc Hbits Hlen Hrate H88 Hone Hst.
  destruct (build_then_parse ie lhdc_cie buf false Ha Hn Hv Hc Hbits Hlen)
    as (b1 & b2 & b9 & Hb & E1 & E2 & Hel).
  eexists. split; [exact Hb|].
  pose proof (parse_header lhdc_cie b1 b2 b9 (skipn 10 buf) false E1 E2) as Hp.
  rewrite Hel in Hp.
  assert (Hmask : Z.land (sampleRate ie) A2DP_LHDC_SAMPLING_FREQ_MASK = sampleRate ie)
    by (destruct Hrate as [[-> _]|[[-> _]|[-> _]]]; reflexivity).
  rewrite Hmask in Hp.
  unfold one_rate_one_mode in Hp. cbn [sampleRate channelMode orb] in Hp.
  rewrite Hone, Hst, !Z.eqb_refl in Hp. cbn [andb] in Hp.
  unfold A2DP_VendorGetTrackSampleRateLhdc, A2DP_VendorGetTrackChannelCountLhdc,
    A2DP_VendorGetChannelModeCodeLhdc.
  assert (Hp' : A2DP_ParseInfoLhdc (Some lhdc_cie)
                  (Some (with_header b1 b2 b9 (skipn 10 buf))) false
                = Some (A2DP_SUCCESS,
                        Some (mkCie A2DP_LHDC_VENDOR_ID A2DP_LHDC_CODEC_ID (sampleRate ie)
                                    A2DP_LHDC_CHANNEL_MODE_STEREO (bits_per_sample ie))))
    by exact Hp.
  rewrite Hp'. cbn [is_success negb sampleRate channelMode].
  split; [|split; reflexivity].
  destruct Hrate as [[-> ->]|[[-> ->]|[-> ->]]]; try reflexivity.
  replace (A2DP_LHDC_SAMPLING_FREQ_96000 =? A2DP_LHDC_SAMPLING_FREQ_88200) with false
    by (symmetry; apply Z.eqb_neq; congruence).
  reflexivity.
Qed.

(** *** Comparing codec informations *)

(** A successful parse as a capability does not depend on what the
    element held before. *)
Lemma parse_capability_success (l : tA2DP_LHDC_CIE) (oi : option (list byte))
  (o : option tA2DP_LHDC_CIE) :
  A2DP_ParseInfoLhdc (Some l) oi true = Some (A2DP_SUCCESS, o) ->
  exists a, o = Some a
            /\ forall l', A2DP_ParseInfoLhdc (Some l') oi true
                          = Some (A2DP_SUCCESS, Some a).
Proof.
  intros Hp. destruct oi as [info|]; [|discriminate].
  apply parse_success_inv in Hp.
  destruct Hp as (b1 & b2 & b9 & rest & a & -> & E1 & E2 & Hel & -> & _).
  exists a. split; [reflexivity|]. intros l'.
  rewrite (parse_header l' b1 b2 b9 rest true E1 E2), Hel. reflexivity.
Qed.

Lemma codec_equals_true (la lb : tA2DP_LHDC_CIE) (ia ib : option (list byte)) :
  A2DP_VendorCodecEqualsLhdc la lb ia ib = Some true <->
  exists a b,
    (forall l, A2DP_ParseInfoLhdc (Some l) ia true = Some (A2DP_SUCCESS, Some a))
    /\ (forall l, A2DP_ParseInfoLhdc (Some l) ib true = Some (A2DP_SUCCESS, Some b))
    /\ sampleRate a = sampleRate b /\ bits_per_sample a = bits_per_sample b.
Proof.
  unfold A2DP_VendorCodecEqualsLhdc. split.
  - destruct (A2DP_ParseInfoLhdc (Some la) ia true) as [[sa [a|]]|] eqn:Ea;
      try discriminate.
    destruct sa; cbn [is_success negb]; try discriminate.
    destruct (A2DP_ParseInfoLhdc (Some lb) ib true) as [[sb [b|]]|] eqn:Eb;
      try discriminate.
    destruct sb; cbn [is_success negb]; try discriminate.
    intros E. injection E as E'. apply andb_prop in E'. destruct E' as [Er Eb'].
    apply Z.eqb_eq in Er, Eb'.
    apply parse_capability_success in Ea, Eb.
    destruct Ea as (a' & Ha & Hpa). destruct Eb as (b' & Hb & Hpb).
    inversion Ha; inversion Hb; subst a' b'. exists a, b. auto.
  - intros (a & b & Ha & Hb & Er & Eb). rewrite (Ha la), (Hb lb).
    cbn [is_success negb]. rewrite Er, Eb, !Z.eqb_refl. reflexivity.
Qed.

(** X14.  [A2DP_VendorCodecEqualsLhdc] is an equivalence on the codec
    informations that parse as a capability: symmetric, transitive, and
    reflexive on what [A2DP_VendorAdjustCodecLhdc] accepts; it is finer
    than [A2DP_VendorCodecTypeEqualsLhdc].  None of this depends on what
    the uninitialised local elements hold. *)
Theorem codec_equals_equivalence :
  (forall la lb la' lb' ia ib,
      A2DP_VendorCodecEqualsLhdc la lb ia ib = Some true ->
      A2DP_VendorCodecEqualsLhdc la' lb' ib ia = Some true)
  /\ (forall la lb la' lb' la'' lb'' ia ib ic,
         A2DP_VendorCodecEqualsLhdc la lb ia ib = Some true ->
         A2DP_VendorCodecEqualsLhdc la' lb' ib ic = Some true ->
         A2DP_VendorCodecEqualsLhdc la'' lb'' ia ic = Some true)
  /\ (forall c la lb i,
         A2DP_VendorAdjustCodecLhdc c i = Some true ->
         A2DP_VendorCodecEqualsLhdc la lb i i = Some true)
  /\ (forall la lb la' lb' ia ib,
         A2DP_VendorCodecEqualsLhdc la lb ia ib = Some true ->
         A2DP_VendorCodecTypeEqualsLhdc la' lb' ia ib = Some true).
Proof.
  repeat split.
  - intros la lb la' lb' ia ib E. apply codec_equals_true in E.
    destruct E as (a & b & Ha & Hb & Er & Eb).
    apply codec_equals_true. exists b, a. auto.
  - intros la lb la' lb' la'' lb'' ia ib ic E1 E2.
    apply codec_equals_true in E1, E2.
    destruct E1 as (a & b & Ha & Hb & Er & Eb).
    destruct E2 as (b' & c & Hb' & Hc & Er' & Eb').
    pose proof (Hb la) as X. rewrite (Hb' la) in X. inversion X; subst b'.
    apply codec_equals_true. exists a, c. repeat split; auto; congruence.
  - intros c la lb i E. unfold A2DP_VendorAdjustCodecLhdc in E.
    destruct (A2DP_ParseInfoLhdc (Some c) i true) as [[st o]|] eqn:Ep;
      cbn [and_then] in E; [|discriminate].
    destruct st; cbn [is_success] in E; try discriminate.
    apply parse_capability_success in Ep. destruct Ep as (a & _ & Ha).
    apply codec_equals_true. exists a, a. auto.
  - intros la lb la' lb' ia ib E. apply codec_equals_true in E.
    destruct E as (a & b & Ha & Hb & _ & _).
    unfold A2DP_VendorCodecTypeEqualsLhdc. rewrite (Ha la'). cbn [and_then is_success negb].
    rewrite (Hb lb'). reflexivity.
Qed.

(** *** The capability the source advertises *)

Lemma caps_sampling_bits :
  Z.land (sampleRate a2dp_lhdc_caps) A2DP_LHDC_SAMPLING_FREQ_MASK = 7.
Proof.
  cbn [sampleRate a2dp_lhdc_caps]. unfold u8, A2DP_LHDC_SAMPLING_FREQ_MASK.
  apply Z.bits_inj'. intros k Hk. rewrite Z.land_spec.
  destruct (Z_lt_le_dec k 3).
  - rewrite Z.mod_pow2_bits_low by lia. rewrite !Z.lor_spec.
    assert (Hc : k = 0 \/ k = 1 \/ k = 2) by lia.
    destruct Hc as [-> | [-> | ->]]; cbn; rewrite ?orb_true_r; reflexivity.
  - replace (Z.testbit 7 k) with false; [apply andb_false_r|].
    symmetry. apply (testbit_below 7 3); lia.
Qed.

(** X15.  [A2DP_VendorInitCodecConfigLhdc] cannot fail on a codec
    information buffer of ten bytes or more, and what it stores is valid
    for [A2DP_IsVendorSourceCodecValidLhdc]: it parses as a capability
    with the three sampling rates of the mask (a flag for 88.2 kHz outside
    the mask is not advertised), stereo, and both PCM formats. *)
Theorem init_codec_config_valid (codec_info : list byte) (cfg_cie : tA2DP_LHDC_CIE) :
  0 <= AVDT_MEDIA_TYPE_AUDIO < 16 -> 0 <= A2DP_MEDIA_CT_NON_A2DP < 256 ->
  (10 <= length codec_info)%nat ->
  exists info,
    A2DP_VendorInitCodecConfigLhdc codec_info = Some (true, info)
    /\ A2DP_IsVendorSourceCodecValidLhdc cfg_cie (Some info) = Some true
    /\ A2DP_ParseInfoLhdc (Some cfg_cie) (Some info) true
       = Some (A2DP_SUCCESS,
               Some (mkCie A2DP_LHDC_VENDOR_ID A2DP_LHDC_CODEC_ID 7
                           A2DP_LHDC_CHANNEL_MODE_STEREO
                           (Z.lor BTAV_A2DP_CODEC_BITS_PER_SAMPLE_16
                                  BTAV_A2DP_CODEC_BITS_PER_SAMPLE_24))).
Proof.
  intros Ha Hn Hlen.
  destruct (build_then_parse a2dp_lhdc_caps cfg_cie codec_info true Ha Hn
              eq_refl eq_refl) as (b1 & b2 & b9 & Hb & E1 & E2 & Hel);
    [right; right; reflexivity|exact Hlen|].
  rewrite caps_sampling_bits in Hel. cbn [bits_per_sample a2dp_lhdc_caps] in Hel.
  exists (with_header b1 b2 b9 (skipn 10 codec_info)).
  split; [unfold A2DP_VendorInitCodecConfigLhdc; rewrite Hb; reflexivity|].
  split.
  - unfold A2DP_IsVendorSourceCodecValidLhdc.
    rewrite (parse_header cfg_cie b1 b2 b9 _ false E1 E2), Hel. cbn [orb].
    destruct (one_rate_one_mode _); cbn [and_then is_success]; [reflexivity|].
    destruct (negb _); cbn [and_then is_success];
      rewrite (parse_header _ b1 b2 b9 _ true E1 E2), Hel; reflexivity.
  - rewrite (parse_header cfg_cie b1 b2 b9 _ true E1 E2), Hel. reflexivity.
Qed.

End CodecInfoFacts.

(** *** Instances *)

(** A sink that offers 44.1 and 48 kHz at 16 bit: accepted as a
    capability, refused as a configuration for naming two rates, valid by
    the liberal check. *)
Example sink_capability_parses :
  @CodecInfo.A2DP_ParseInfoLhdc Samples.headers (Some Samples.junk)
    (Some Samples.info_sink_44k_48k_16) true
  = Some (CodecInfo.A2DP_SUCCESS, Some (CodecInfo.mkCie 0x53a 0x484C 6 1 1))
  /\ @CodecInfo.A2DP_ParseInfoLhdc Samples.headers (Some Samples.junk)
       (Some Samples.info_sink_44k_48k_16) false
     = Some (CodecInfo.A2DP_BAD_SAMP_FREQ, Some (CodecInfo.mkCie 0x53a 0x484C 6 1 1))
  /\ @CodecInfo.A2DP_IsVendorSourceCodecValidLhdc Samples.headers Samples.junk
       (Some Samples.info_sink_44k_48k_16)
     = Some true.
Proof. repeat split; vm_compute; reflexivity. Qed.

(** A codec information cut short after its ninth byte is read past its
    end; one with a wrong length octet is refused at the first byte. *)
Example short_codec_information :
  @CodecInfo.A2DP_ParseInfoLhdc Samples.headers (Some Samples.junk)
    (Some (firstn 9 Samples.info_96k_24)) true = None
  /\ @CodecInfo.A2DP_ParseInfoLhdc Samples.headers (Some Samples.junk)
       (Some [Byte.x08]) true
     = Some (CodecInfo.A2DP_WRONG_CODEC, Some Samples.junk).
Proof. split; vm_compute; reflexivity. Qed.

(** Two configurations with the same rate and PCM format are equal
    whatever follows the tenth byte. *)
Example same_rate_and_format :
  @CodecInfo.A2DP_VendorCodecEqualsLhdc Samples.headers Samples.junk Samples.junk
    (Some Samples.info_96k_24) (Some (firstn 10 Samples.info_96k_24 ++ [Byte.xff]))
  = Some true.
Proof. vm_compute. reflexivity. Qed.

Lemma parse_build_round_trip_witness :
  exists info,
    @CodecInfo.A2DP_BuildInfoLhdc Samples.headers 0 (Some Samples.cie_96k_24)
      (Some Samples.blank)
    = Some (CodecInfo.A2DP_SUCCESS, Some info)
    /\ skipn 10 info = skipn 10 Samples.blank
    /\ @CodecInfo.A2DP_ParseInfoLhdc Samples.headers (Some Samples.junk) (Some info) true
       = Some (CodecInfo.A2DP_SUCCESS,
               Some (CodecInfo.mkCie CodecInfo.A2DP_LHDC_VENDOR_ID
                       CodecInfo.A2DP_LHDC_CODEC_ID
                       (Z.land 1 CodecInfo.A2DP_LHDC_SAMPLING_FREQ_MASK)
                       CodecInfo.A2DP_LHDC_CHANNEL_MODE_STEREO 2)).
Proof.
  apply (@parse_build_round_trip Samples.headers Samples.cie_96k_24 Samples.junk
           Samples.blank).
  - vm_compute. split; [discriminate|reflexivity].
  - vm_compute. split; [discriminate|reflexivity].
  - reflexivity.
  - reflexivity.
  - right. left. reflexivity.
  - vm_compute. lia.
Defined.

Lemma track_bits_per_sample_unknown_witness :
  @CodecInfo.A2DP_VendorGetTrackBitsPerSampleLhdc Samples.headers Samples.junk
    (Some Samples.info_96k_24) = Some (-1)
  \/ @CodecInfo.A2DP_VendorGetTrackBitsPerSampleLhdc Samples.headers Samples.junk
       (Some Samples.info_96k_24) = None.
Proof.
  apply (@track_bits_per_sample_unknown Samples.headers Samples.junk
           (Some Samples.info_96k_24)); vm_compute; discriminate.
Defined.

Lemma getters_on_built_configuration_witness :
  exists info,
    @CodecInfo.A2DP_BuildInfoLhdc Samples.headers 0 (Some Samples.cie_96k_24)
      (Some Samples.blank)
    = Some (CodecInfo.A2DP_SUCCESS, Some info)
    /\ @CodecInfo.A2DP_VendorGetTrackSampleRateLhdc Samples.headers Samples.junk
         (Some info) = Some 96000
    /\ @CodecInfo.A2DP_VendorGetTrackChannelCountLhdc Samples.headers Samples.junk
         (Some info) = Some 2
    /\ @CodecInfo.A2DP_VendorGetChannelModeCodeLhdc Samples.headers Samples.junk
         (Some info) = Some CodecInfo.A2DP_LHDC_CHANNEL_MODE_STEREO.
Proof.
  apply (@getters_on_built_configuration Samples.headers Samples.cie_96k_24
           Samples.junk Samples.blank 96000).
  - vm_compute. split; [discriminate|reflexivity].
  - vm_compute. split; [discriminate|reflexivity].
  - reflexivity.
  - reflexivity.
  - right. left. reflexivity.
  - vm_compute. lia.
  - right. right. split; reflexivity.
  - vm_compute. discriminate.
  - reflexivity.
  - reflexivity.
Defined.

Lemma init_codec_config_valid_witness :
  exists info,
    @CodecInfo.A2DP_VendorInitCodecConfigLhdc Samples.headers Samples.blank
    = Some (true, info)
    /\ @CodecInfo.A2DP_IsVendorSourceCodecValidLhdc Samples.headers Samples.junk
         (Some info) = Some true
    /\ @CodecInfo.A2DP_ParseInfoLhdc Samples.headers (Some Samples.junk) (Some info) true
       = Some (CodecInfo.A2DP_SUCCESS,
               Some (CodecInfo.mkCie CodecInfo.A2DP_LHDC_VENDOR_ID
                       CodecInfo.A2DP_LHDC_CODEC_ID 7
                       CodecInfo.A2DP_LHDC_CHANNEL_MODE_STEREO (Z.lor 1 2))).
Proof.
  apply (@init_codec_config_valid Samples.headers Samples.blank Samples.junk).
  - vm_compute. split; [discriminate|reflexivity].
  - vm_compute. split; [discriminate|reflexivity].
  - vm_compute. lia.
Defined.

(** ** The media payload header *)

Section MediaPayloadHeader.
Import CodecInfo.



End MediaPayloadHeader.


Example header_bytes_of_buffer_of_five :
  option_map CodecInfo.packet
    (CodecInfo.A2DP_VendorBuildCodecHeaderLhdc Samples.buffer_of_five 0xfe05)
  = Some [Byte.x05; Byte.xfe; Byte.x22; Byte.x33; Byte.x44; Byte.x55].
Proof. vm_compute. reflexivity. Qed.

(** ** Selecting a configuration *)

Section Negotiation.
Import CodecInfo CodecConfig.
Context {H : Headers}.

(** A frequency found among those that both sides have is one of the
    peer's. *)
Lemma flag_common (a b f : Z) :
  flag (u8 (Z.land a b)) f = true -> Z.land b f <> 0.
Proof.
  unfold flag, u8. intros Hf Hz. apply negb_true_iff, Z.eqb_neq in Hf. apply Hf.
  apply Z.bits_inj'. intros k Hk.
  assert (Hb : Z.testbit b k && Z.testbit f k = false)
    by (rewrite <- Z.land_spec, Hz; apply Z.bits_0).
  rewrite Z.land_spec, Z.bits_0.
  destruct (Z_lt_le_dec k 8).
  - rewrite Z.mod_pow2_bits_low, Z.land_spec by lia.
    destruct (Z.testbit a k), (Z.testbit b k), (Z.testbit f k);
      cbn in *; congruence.
  - rewrite Z.mod_pow2_bits_high by lia. reflexivity.
Qed.

Lemma select_best_sample_rate_spec (x : Z) (r : tA2DP_LHDC_CIE)
  (c : btav_a2dp_codec_config_t) :
  rate_selected x r c (select_best_sample_rate x r c).
Proof.
  unfold select_best_sample_rate, rate_selected, rate_pair.
  repeat match goal with
         | |- context [if flag ?a ?b then _ else _] => destruct (flag a b) eqn:?
         end;
    [right; do 2 eexists; split; [|split; [eassumption|reflexivity]]; tauto ..
    |left; reflexivity].
Qed.

Lemma select_audio_sample_rate_spec (audio : btav_a2dp_codec_config_t) (x : Z)
  (r : tA2DP_LHDC_CIE) (c : btav_a2dp_codec_config_t) :
  rate_selected x r c (select_audio_sample_rate audio x r c).
Proof.
  unfold select_audio_sample_rate, rate_selected, rate_pair. cbv zeta.
  repeat match goal with
         | |- context [if ?a =? ?b then _ else _] => destruct (a =? b)
         end;
    try (left; reflexivity);
    match goal with
    | |- context [if flag ?a ?b then _ else _] => destruct (flag a b) eqn:?
    end;
    try (left; reflexivity);
    right; do 2 eexists; (split; [|split; [eassumption|reflexivity]]); tauto.
Qed.

Lemma select_best_bits_per_sample_spec (x : Z) (r : tA2DP_LHDC_CIE)
  (c : btav_a2dp_codec_config_t) :
  format_selected r c (select_best_bits_per_sample x r c).
Proof.
  unfold select_best_bits_per_sample, format_selected.
  repeat match goal with
         | |- context [if flag ?a ?b then _ else _] => destruct (flag a b)
         end;
    [right; eexists; split; [|reflexivity]; tauto ..|left; reflexivity].
Qed.

Lemma select_audio_bits_per_sample_spec (audio : btav_a2dp_codec_config_t) (x : Z)
  (r : tA2DP_LHDC_CIE) (c : btav_a2dp_codec_config_t) :
  format_selected r c (select_audio_bits_per_sample audio x r c).
Proof.
  unfold select_audio_bits_per_sample, format_selected. cbv zeta.
  repeat match goal with
         | |- context [if ?a =? ?b then _ else _] => destruct (a =? b)
         end;
    try (left; reflexivity);
    match goal with
    | |- context [if flag ?a ?b then _ else _] => destruct (flag a b)
    end;
    try (left; reflexivity);
    right; eexists; (split; [|reflexivity]); tauto.
Qed.

Lemma select_best_channel_mode_spec (x : Z) (r : tA2DP_LHDC_CIE)
  (c : btav_a2dp_codec_config_t) :
  mode_selected r c (select_best_channel_mode x r c).
Proof.
  unfold select_best_channel_mode, mode_selected.
  destruct (flag _ _); auto.
Qed.

Lemma select_audio_channel_mode_spec (audio : btav_a2dp_codec_config_t) (x : Z)
  (r : tA2DP_LHDC_CIE) (c : btav_a2dp_codec_config_t) :
  mode_selected r c (select_audio_channel_mode audio x r c).
Proof.
  unfold select_audio_channel_mode, mode_selected.
  destruct (_ && _); auto.
Qed.

Ltac negotiation_cases :=
  repeat match goal with
         | |- context [if ?x =? ?y then _ else _] => destruct (x =? y) eqn:?
         | |- context [if flag ?a ?b then _ else _] => destruct (flag a b) eqn:?
         | |- context [if ?a || ?b then _ else _] => destruct (a || b) eqn:?
         | |- context [if negb (?x =? ?y) then _ else _] =>
             destruct (x =? y) eqn:?; cbn [negb]
         | |- context [select_audio_sample_rate ?a ?x ?r ?c] =>
             destruct (select_audio_sample_rate_spec a x r c)
               as [->|(? & ? & ? & ? & ->)]
         | |- context [select_best_sample_rate ?x ?r ?c] =>
             destruct (select_best_sample_rate_spec x r c)
               as [->|(? & ? & ? & ? & ->)]
         | |- context [select_audio_bits_per_sample ?a ?x ?r ?c] =>
             destruct (select_audio_bits_per_sample_spec a x r c)
               as [->|(? & ? & ->)]
         | |- context [select_best_bits_per_sample ?x ?r ?c] =>
             destruct (select_best_bits_per_sample_spec x r c)
               as [->|(? & ? & ->)]
         | |- context [select_audio_channel_mode ?a ?x ?r ?c] =>
             destruct (select_audio_channel_mode_spec a x r c) as [->| ->]
         | |- context [select_best_channel_mode ?x ?r ?c] =>
             destruct (select_best_channel_mode_spec x r c) as [->| ->]
         end.

Ltac records :=
  cbn [fst snd codec_config_ codec_capability_ codec_selectable_capability_
       codec_user_config_ codec_audio_config_ ota_codec_config_
       ota_codec_peer_capability_ ota_codec_peer_config_
       set_codec_config set_codec_capability set_codec_selectable_capability
       set_ota_codec_config set_ota_codec_peer_capability set_ota_codec_peer_config
       sample_rate CodecConfig.bits_per_sample channel_mode
       codec_specific_1 codec_specific_2 codec_specific_3 codec_specific_4
       set_sample_rate set_bits_per_sample set_channel_mode
       vendorId codecId sampleRate channelMode CodecInfo.bits_per_sample
       set_sampleRate set_channelMode set_bits] in *.

Ltac eqb_hyps :=
  repeat match goal with
         | E : (_ =? _) = true |- _ => apply Z.eqb_eq in E
         | E : (_ =? _) = false |- _ => apply Z.eqb_neq in E
         end.

Ltac selected_rate :=
  intros ?; eqb_hyps;
  first [ congruence
        | match goal with |- exists freq, _ /\ ?x = freq /\ _ => exists x end;
          split; [first [assumption | unfold rate_pair; intuition congruence]
                 | split; [reflexivity | eapply flag_common; eassumption]] ].

(** The three parts of the selection, each with what it leaves alone. *)
Lemma select_sample_frequency_spec (sink r : tA2DP_LHDC_CIE)
  (o : A2dpCodecConfigLhdc) :
  let a := select_sample_frequency sink r o in
  only_read o (fst a)
  /\ snd a = set_sampleRate (sampleRate (snd a)) r
  /\ (sample_rate (codec_config_ (fst a)) <> BTAV_A2DP_CODEC_SAMPLE_RATE_NONE ->
      exists freq,
        rate_pair freq (sample_rate (codec_config_ (fst a)))
        /\ sampleRate (snd a) = freq
        /\ Z.land (sampleRate sink) freq <> 0).
Proof.
  intros a. subst a. unfold select_sample_frequency, only_read. cbv zeta.
  destruct o as [cc cap sel user audio oc opc opg], r as [v c sr cm bps]. records.
  negotiation_cases; records; (split; [tauto|]); (split; [reflexivity|]);
    selected_rate.
Qed.

Lemma select_bits_per_sample_spec (sink r : tA2DP_LHDC_CIE)
  (o : A2dpCodecConfigLhdc) :
  let a := select_bits_per_sample sink r o in
  only_read o (fst a)
  /\ sample_rate (codec_config_ (fst a)) = sample_rate (codec_config_ o)
  /\ snd a = set_bits (CodecInfo.bits_per_sample (snd a)) r
  /\ (CodecConfig.bits_per_sample (codec_config_ (fst a))
      <> BTAV_A2DP_CODEC_BITS_PER_SAMPLE_NONE ->
      (CodecInfo.bits_per_sample (snd a) = BTAV_A2DP_CODEC_BITS_PER_SAMPLE_16
       \/ CodecInfo.bits_per_sample (snd a) = BTAV_A2DP_CODEC_BITS_PER_SAMPLE_24)
      /\ CodecConfig.bits_per_sample (codec_config_ (fst a))
         = CodecInfo.bits_per_sample (snd a)).
Proof.
  intros a. subst a. unfold select_bits_per_sample, only_read. cbv zeta.
  destruct o as [cc cap sel user audio oc opc opg], r as [v c sr cm bps]. records.
  negotiation_cases; records; (split; [tauto|]); do 2 (split; [reflexivity|]);
    intros ?; eqb_hyps;
    first [congruence | split; [intuition congruence | reflexivity]].
Qed.

Lemma select_channel_mode_spec (sink r : tA2DP_LHDC_CIE)
  (o : A2dpCodecConfigLhdc) :
  let a := select_channel_mode sink r o in
  only_read o (fst a)
  /\ sample_rate (codec_config_ (fst a)) = sample_rate (codec_config_ o)
  /\ CodecConfig.bits_per_sample (codec_config_ (fst a))
     = CodecConfig.bits_per_sample (codec_config_ o)
  /\ snd a = set_channelMode (channelMode (snd a)) r.
Proof.
  intros a. subst a. unfold select_channel_mode, only_read. cbv zeta.
  destruct o as [cc cap sel user audio oc opc opg], r as [v c sr cm bps]. records.
  negotiation_cases; records; (split; [tauto|]); do 2 (split; [reflexivity|]);
    reflexivity.
Qed.

(** With no preference of the user or of the audio framework the format
    is the one of the default configuration. *)
Lemma select_bits_no_preference (sink r : tA2DP_LHDC_CIE) (o : A2dpCodecConfigLhdc) :
  formats_distinct ->
  CodecConfig.bits_per_sample (codec_user_config_ o)
  = BTAV_A2DP_CODEC_BITS_PER_SAMPLE_NONE ->
  CodecConfig.bits_per_sample (codec_audio_config_ o)
  = BTAV_A2DP_CODEC_BITS_PER_SAMPLE_NONE ->
  let a := select_bits_per_sample sink r o in
  CodecInfo.bits_per_sample (snd a) = BTAV_A2DP_CODEC_BITS_PER_SAMPLE_24
  /\ CodecConfig.bits_per_sample (codec_config_ (fst a))
     = BTAV_A2DP_CODEC_BITS_PER_SAMPLE_24.
Proof.
  intros (H16 & H24 & H0 & _) Hu Ha a. subst a.
  unfold select_bits_per_sample, select_audio_bits_per_sample,
    select_best_bits_per_sample. cbv zeta.
  destruct o as [cc cap sel user audio oc opc opg], r as [v c sr cm bps]. records.
  assert (Hf : flag BTAV_A2DP_CODEC_BITS_PER_SAMPLE_24
                    BTAV_A2DP_CODEC_BITS_PER_SAMPLE_24 = true).
  { unfold flag. rewrite Z.land_diag. apply negb_true_iff, Z.eqb_neq. exact H0. }
  apply Z.eqb_neq in H16, H24.
  rewrite Hu, H16, H24, Z.eqb_refl, orb_true_r. records.
  rewrite Z.eqb_refl. cbn [negb]. rewrite Ha, H16, H24.
  cbn [a2dp_lhdc_default_config CodecInfo.bits_per_sample]. rewrite Hf. records.
  split; reflexivity.
Qed.

(** *** A run of [setCodecConfig] *)

Lemma parse_total (ie0 : tA2DP_LHDC_CIE) (info : list byte) (cap : bool) :
  (10 <= length info)%nat ->
  exists status ie,
    A2DP_ParseInfoLhdc (Some ie0) (Some info) cap = Some (status, Some ie).
Proof.
  intros Hl. do 10 (destruct info as [|? info]; [cbn in Hl; lia|]).
  rewrite parse_ten_bytes. cbv zeta.
  repeat match goal with
         | |- context [if ?c then _ else _] => destruct c
         | |- context [match parsed_element ?b with _ => _ end] =>
             destruct (parsed_element b)
         end; eauto.
Qed.

Lemma parsed_element_fields (b9 : byte) (ie : tA2DP_LHDC_CIE) :
  parsed_element b9 = Some ie ->
  vendorId ie = A2DP_LHDC_VENDOR_ID /\ codecId ie = A2DP_LHDC_CODEC_ID
  /\ sampleRate ie = Z.land (byte_to_Z b9) A2DP_LHDC_SAMPLING_FREQ_MASK
  /\ pcm_format (CodecInfo.bits_per_sample ie).
Proof.
  unfold parsed_element, pcm_format. cbv zeta.
  repeat match goal with
         | |- context [if ?c then _ else _] => destruct c
         end; intros E; inversion E; cbn; tauto.
Qed.

(** The ten bytes that [A2DP_BuildInfoLhdc] stores depend on the element
    alone. *)
Lemma build_same_prefix (t : Z) (ie : tA2DP_LHDC_CIE) (buf1 buf2 : list byte)
  (s1 s2 : tA2DP_STATUS) (i1 i2 : list byte) :
  A2DP_BuildInfoLhdc t (Some ie) (Some buf1) = Some (s1, Some i1) ->
  A2DP_BuildInfoLhdc t (Some ie) (Some buf2) = Some (s2, Some i2) ->
  firstn 10 i1 = firstn 10 i2.
Proof.
  unfold A2DP_BuildInfoLhdc, store_bytes. cbv zeta. cbn [length].
  destruct (10 <=? length buf1)%nat; [|discriminate].
  destruct (10 <=? length buf2)%nat; [|discriminate].
  cbn [and_then].
  match goal with
  | |- context [if ?c then _ else _] => destruct c
  end; intros E1 E2; inversion E1; inversion E2; reflexivity.
Qed.

Lemma set_codec_config_run (sink0 : tA2DP_LHDC_CIE) (o : A2dpCodecConfigLhdc)
  (info : list byte) (cap : bool) (r : list byte) :
  0 <= AVDT_MEDIA_TYPE_AUDIO < 16 -> 0 <= A2DP_MEDIA_CT_NON_A2DP < 256 ->
  (10 <= length info)%nat -> (10 <= length r)%nat ->
  (10 <= length (ota_codec_config_ o))%nat ->
  (10 <= length (ota_codec_peer_capability_ o))%nat ->
  (10 <= length (ota_codec_peer_config_ o))%nat ->
  setCodecConfig sink0 o info cap r = Returned false o r
  \/ exists b1 b2 b9 rest sink o1 r1 o2 r2 o3 r3 h1 h2 out9 o',
      info = with_header b1 b2 b9 rest
      /\ parsed_element b9 = Some sink
      /\ select_sample_frequency sink
           (mkCie A2DP_LHDC_VENDOR_ID A2DP_LHDC_CODEC_ID 0 0 0) o = (o1, r1)
      /\ sample_rate (codec_config_ o1) <> BTAV_A2DP_CODEC_SAMPLE_RATE_NONE
      /\ select_bits_per_sample sink r1 o1 = (o2, r2)
      /\ CodecConfig.bits_per_sample (codec_config_ o2)
         <> BTAV_A2DP_CODEC_BITS_PER_SAMPLE_NONE
      /\ select_channel_mode sink r2 o2 = (o3, r3)
      /\ channel_mode (codec_config_ o3) <> BTAV_A2DP_CODEC_CHANNEL_MODE_NONE
      /\ setCodecConfig sink0 o info cap r
         = Returned true o' (with_header h1 h2 out9 (skipn 10 r))
      /\ Z.shiftr (byte_to_Z h1) 4 = AVDT_MEDIA_TYPE_AUDIO
      /\ byte_to_Z h2 = A2DP_MEDIA_CT_NON_A2DP
      /\ parsed_element out9
         = Some (mkCie A2DP_LHDC_VENDOR_ID A2DP_LHDC_CODEC_ID
                       (Z.land (sampleRate r3) A2DP_LHDC_SAMPLING_FREQ_MASK)
                       A2DP_LHDC_CHANNEL_MODE_STEREO
                       (CodecInfo.bits_per_sample r3))
      /\ firstn 10 (ota_codec_config_ o')
         = firstn 10 (with_header h1 h2 out9 (skipn 10 r))
      /\ codec_user_config_ o' = codec_user_config_ o
      /\ codec_audio_config_ o' = codec_audio_config_ o
      /\ sample_rate (codec_config_ o') = sample_rate (codec_config_ o3)
      /\ CodecConfig.bits_per_sample (codec_config_ o')
         = CodecConfig.bits_per_sample (codec_config_ o3)
      /\ channel_mode (codec_config_ o') = channel_mode (codec_config_ o3).
Proof.
  intros Ha Hn Hi Hr Hoc Hopc Hopg.
  unfold setCodecConfig.
  destruct (parse_total sink0 info cap Hi) as (status & sink & Hp). rewrite Hp.
  destruct (is_success status) eqn:Hs; cbn [negb]; [|left; reflexivity].
  destruct status; try discriminate Hs.
  destruct (parse_success_inv _ _ _ _ Hp)
    as (b1 & b2 & b9 & rest & ie & -> & E1 & E2 & Hel & Hie & _).
  injection Hie as <-.
  cbn [vendorId codecId a2dp_lhdc_caps].
  set (r0 := mkCie A2DP_LHDC_VENDOR_ID A2DP_LHDC_CODEC_ID 0 0 0).
  pose proof (select_sample_frequency_spec sink r0 o) as S1. cbv zeta in S1.
  destruct (select_sample_frequency sink r0 o) as [o1 r1] eqn:F1.
  cbn [fst snd] in S1. destruct S1 as (K1 & R1 & _).
  destruct (sample_rate (codec_config_ o1) =? _) eqn:T1; [left; reflexivity|].
  pose proof (select_bits_per_sample_spec sink r1 o1) as S2. cbv zeta in S2.
  destruct (select_bits_per_sample sink r1 o1) as [o2 r2] eqn:F2.
  cbn [fst snd] in S2. destruct S2 as (K2 & _ & R2 & B2).
  destruct (CodecConfig.bits_per_sample (codec_config_ o2) =? _) eqn:T2;
    [left; reflexivity|].
  pose proof (select_channel_mode_spec sink r2 o2) as S3. cbv zeta in S3.
  destruct (select_channel_mode sink r2 o2) as [o3 r3] eqn:F3.
  cbn [fst snd] in S3. destruct S3 as (K3 & Q3 & Q3' & R3).
  destruct (channel_mode (codec_config_ o3) =? _) eqn:T3; [left; reflexivity|].
  apply Z.eqb_neq in T1, T2, T3.
  destruct (B2 T2) as (Hfmt & _).
  destruct (parsed_element_fields _ _ Hel) as (Vs & Cs & _ & Ps).
  assert (V3 : vendorId r3 = A2DP_LHDC_VENDOR_ID
               /\ codecId r3 = A2DP_LHDC_CODEC_ID
               /\ CodecInfo.bits_per_sample r3 = CodecInfo.bits_per_sample r2).
  { rewrite R3, R2, R1. cbn. auto. }
  destruct V3 as (V3 & C3 & P3).
  assert (Pr : pcm_format (CodecInfo.bits_per_sample r3))
    by (rewrite P3; unfold pcm_format; tauto).
  destruct K1 as (U1 & A1 & O1 & OC1 & OG1), K2 as (U2 & A2 & O2 & OC2 & OG2),
           K3 as (U3 & A3 & O3 & OC3 & OG3).
  destruct (build_then_parse r3 sink0 r false Ha Hn V3 C3 Pr Hr)
    as (h1 & h2 & out9 & Hb & G1 & G2 & Gel).
  rewrite Hb. cbn [is_success negb].
  set (o4 := copy_codec_specific o3).
  assert (K4 : only_read o3 o4) by (unfold only_read; subst o4; cbn; tauto).
  destruct K4 as (U4 & A4 & O4 & OC4 & OG4).
  assert (Hpeer : (10 <= length (if cap then ota_codec_peer_capability_ o4
                                 else ota_codec_peer_config_ o4))%nat).
  { destruct cap; congruence. }
  destruct (build_then_parse sink sink0 _ false Ha Hn Vs Cs Ps Hpeer)
    as (p1 & p2 & p9 & Hbp & _).
  rewrite Hbp. cbn [is_success negb].
  set (peer1 := with_header p1 p2 p9 _).
  set (o5 := if cap then set_ota_codec_peer_capability peer1 o4
             else set_ota_codec_peer_config peer1 o4).
  assert (K5 : ota_codec_config_ o5 = ota_codec_config_ o4
               /\ codec_user_config_ o5 = codec_user_config_ o4
               /\ codec_audio_config_ o5 = codec_audio_config_ o4
               /\ codec_config_ o5 = codec_config_ o4)
    by (subst o5; destruct cap; cbn; tauto).
  destruct K5 as (O5 & U5 & A5 & C5).
  assert (Hota : (10 <= length (ota_codec_config_ o5))%nat) by congruence.
  destruct (build_then_parse r3 sink0 _ false Ha Hn V3 C3 Pr Hota)
    as (q1 & q2 & q9 & Hbo & _).
  rewrite Hbo. cbn [is_success negb].
  right.
  exists b1, b2, b9, rest, sink, o1, r1, o2, r2, o3, r3, h1, h2, out9.
  eexists. repeat (split; [first [reflexivity | eassumption]|]).
  cbn [ota_codec_config_ codec_user_config_ codec_audio_config_ codec_config_
       set_ota_codec_config].
  rewrite C5. subst o4. unfold copy_codec_specific.
  cbn [codec_config_ set_codec_config sample_rate CodecConfig.bits_per_sample
       channel_mode].
  repeat split; try reflexivity; try congruence.
  exact (build_same_prefix _ _ _ _ _ _ _ _ Hbo Hb).
Qed.

(** X17.  [setCodecConfig] always returns when its buffers hold a codec
    information: no [CHECK] fails and nothing is read or written out of
    bounds.  When it returns false the object and [p_result_codec_config]
    are as they were; when it returns true only the first ten bytes of
    [p_result_codec_config] have changed; the user and audio
    configurations are never changed. *)
Theorem set_codec_config_all_or_nothing (sink_info_cie : tA2DP_LHDC_CIE)
  (o : A2dpCodecConfigLhdc) (p_peer_codec_info : list byte) (is_capability : bool)
  (p_result_codec_config : list byte) :
  0 <= AVDT_MEDIA_TYPE_AUDIO < 16 -> 0 <= A2DP_MEDIA_CT_NON_A2DP < 256 ->
  hold_codec_information o p_peer_codec_info p_result_codec_config ->
  exists result o' p_result,
    setCodecConfig sink_info_cie o p_peer_codec_info is_capability
                   p_result_codec_config
    = Returned result o' p_result
    /\ (result = false -> o' = o /\ p_result = p_result_codec_config)
    /\ skipn 10 p_result = skipn 10 p_result_codec_config
    /\ codec_user_config_ o' = codec_user_config_ o
    /\ codec_audio_config_ o' = codec_audio_config_ o.
Proof.
  intros Ha Hn (Hi & Hr & Hoc & Hopc & Hopg).
  destruct (set_codec_config_run sink_info_cie o p_peer_codec_info is_capability
              p_result_codec_config Ha Hn Hi Hr Hoc Hopc Hopg)
    as [E|(b1 & b2 & b9 & rest & sink & o1 & r1 & o2 & r2 & o3 & r3 & h1 & h2
           & out9 & o' & _ & _ & _ & _ & _ & _ & _ & _ & E & _ & _ & _ & _
           & U & A & _)].
  - exists false, o, p_result_codec_config. rewrite E. repeat split; reflexivity.
  - exists true, o', (with_header h1 h2 out9 (skipn 10 p_result_codec_config)).
    rewrite E. repeat split; try assumption; discriminate.
Qed.

(** X18.  What a successful [setCodecConfig] has selected:
    [p_result_codec_config] holds a codec information that
    [A2DP_ParseInfoLhdc] accepts as a capability, [ota_codec_config_] holds
    the same ten bytes, and for the sample rate of [codec_config_] there is
    a sampling frequency flag that is set among the sampling bits of the
    peer's codec information and gives the sampling bits written. *)
Theorem set_codec_config_rate_offered (sink_info_cie : tA2DP_LHDC_CIE)
  (o o' : A2dpCodecConfigLhdc) (p_peer_codec_info : list byte)
  (is_capability : bool) (p_result_codec_config p_result : list byte) :
  0 <= AVDT_MEDIA_TYPE_AUDIO < 16 -> 0 <= A2DP_MEDIA_CT_NON_A2DP < 256 ->
  hold_codec_information o p_peer_codec_info p_result_codec_config ->
  setCodecConfig sink_info_cie o p_peer_codec_info is_capability
                 p_result_codec_config
  = Returned true o' p_result ->
  lhdc_header p_result
  /\ firstn 10 (ota_codec_config_ o') = firstn 10 p_result
  /\ exists peer9 out9 freq,
      nth_error p_peer_codec_info 9 = Some peer9
      /\ nth_error p_result 9 = Some out9
      /\ rate_pair freq (sample_rate (codec_config_ o'))
      /\ Z.land (Z.land (byte_to_Z peer9) A2DP_LHDC_SAMPLING_FREQ_MASK) freq <> 0
      /\ Z.land (byte_to_Z out9) A2DP_LHDC_SAMPLING_FREQ_MASK
         = Z.land freq A2DP_LHDC_SAMPLING_FREQ_MASK.
Proof.
  intros Ha Hn (Hi & Hr & Hoc & Hopc & Hopg) Hrun.
  destruct (set_codec_config_run sink_info_cie o p_peer_codec_info is_capability
              p_result_codec_config Ha Hn Hi Hr Hoc Hopc Hopg)
    as [E|(b1 & b2 & b9 & rest & sink & o1 & r1 & o2 & r2 & o3 & r3 & h1 & h2
           & out9 & o'' & -> & Hel & F1 & T1 & F2 & T2 & F3 & T3 & E & G1 & G2
           & Gel & Hota & _ & _ & Q & _)];
    rewrite E in Hrun; [discriminate|].
  injection Hrun as <- <-.
  pose proof (select_sample_frequency_spec sink
                (mkCie A2DP_LHDC_VENDOR_ID A2DP_LHDC_CODEC_ID 0 0 0) o) as S1.
  pose proof (select_bits_per_sample_spec sink r1 o1) as S2.
  pose proof (select_channel_mode_spec sink r2 o2) as S3.
  cbv zeta in S1, S2, S3. rewrite F1 in S1. rewrite F2 in S2. rewrite F3 in S3.
  cbn [fst snd] in S1, S2, S3.
  destruct S1 as (_ & _ & S1), S2 as (_ & Q2 & R2 & _), S3 as (_ & Q3 & _ & R3).
  destruct (S1 T1) as (freq & Hpair & Hfreq & Hoffer).
  destruct (parsed_element_fields _ _ Hel) as (_ & _ & Hsr & _).
  destruct (parsed_element_fields _ _ Gel) as (_ & _ & Hout & _).
  cbn [sampleRate] in Hout.
  assert (R : sampleRate r3 = freq).
  { rewrite R3. cbn [sampleRate set_channelMode]. rewrite R2.
    cbn [sampleRate set_bits]. exact Hfreq. }
  split; [|split; [exact Hota|]].
  - exists h1, h2, out9, (skipn 10 p_result_codec_config).
    repeat split; try assumption. apply parsed_element_some. eauto.
  - exists b9, out9, freq. repeat split.
    + rewrite Q, Q3, Q2. exact Hpair.
    + rewrite <- Hsr. exact Hoffer.
    + rewrite <- Hout, R. reflexivity.
Qed.

(** X19.  The PCM format is not negotiated with the peer: when neither
    the user configuration nor the audio configuration names a format, a
    successful [setCodecConfig] selects 24 bit, the format of the default
    configuration, and sets the format bits of the codec information to
    24 bit, whatever formats the peer's codec information offers. *)
Theorem set_codec_config_format_of_default (sink_info_cie : tA2DP_LHDC_CIE)
  (o o' : A2dpCodecConfigLhdc) (p_peer_codec_info : list byte)
  (is_capability : bool) (p_result_codec_config p_result : list byte) :
  0 <= AVDT_MEDIA_TYPE_AUDIO < 16 -> 0 <= A2DP_MEDIA_CT_NON_A2DP < 256 ->
  formats_distinct ->
  hold_codec_information o p_peer_codec_info p_result_codec_config ->
  CodecConfig.bits_per_sample (codec_user_config_ o)
  = BTAV_A2DP_CODEC_BITS_PER_SAMPLE_NONE ->
  CodecConfig.bits_per_sample (codec_audio_config_ o)
  = BTAV_A2DP_CODEC_BITS_PER_SAMPLE_NONE ->
  setCodecConfig sink_info_cie o p_peer_codec_info is_capability
                 p_result_codec_config
  = Returned true o' p_result ->
  CodecConfig.bits_per_sample (codec_config_ o')
  = BTAV_A2DP_CODEC_BITS_PER_SAMPLE_24
  /\ exists out9,
      nth_error p_result 9 = Some out9
      /\ Z.land (byte_to_Z out9) A2DP_LHDC_BIT_FMT_MASK = A2DP_LHDC_BIT_FMT_24.
Proof.
  intros Ha Hn Hd (Hi & Hr & Hoc & Hopc & Hopg) Hu Hau Hrun.
  destruct (set_codec_config_run sink_info_cie o p_peer_codec_info is_capability
              p_result_codec_config Ha Hn Hi Hr Hoc Hopc Hopg)
    as [E|(b1 & b2 & b9 & rest & sink & o1 & r1 & o2 & r2 & o3 & r3 & h1 & h2
           & out9 & o'' & -> & Hel & F1 & T1 & F2 & T2 & F3 & T3 & E & G1 & G2
           & Gel & Hota & _ & _ & _ & Q & _)];
    rewrite E in Hrun; [discriminate|].
  injection Hrun as <- <-.
  pose proof (select_sample_frequency_spec sink
                (mkCie A2DP_LHDC_VENDOR_ID A2DP_LHDC_CODEC_ID 0 0 0) o) as S1.
  pose proof (select_channel_mode_spec sink r2 o2) as S3.
  cbv zeta in S1, S3. rewrite F1 in S1. rewrite F3 in S3.
  cbn [fst snd] in S1, S3.
  destruct S1 as ((U1 & A1 & _) & _), S3 as (_ & _ & Q3 & R3).
  assert (Hu1 : CodecConfig.bits_per_sample (codec_user_config_ o1)
                = BTAV_A2DP_CODEC_BITS_PER_SAMPLE_NONE) by congruence.
  assert (Ha1 : CodecConfig.bits_per_sample (codec_audio_config_ o1)
                = BTAV_A2DP_CODEC_BITS_PER_SAMPLE_NONE) by congruence.
  pose proof (select_bits_no_preference sink r1 o1 Hd Hu1 Ha1) as S2.
  cbv zeta in S2. rewrite F2 in S2. cbn [fst snd] in S2. destruct S2 as (B2 & C2).
  assert (R : CodecInfo.bits_per_sample r3 = BTAV_A2DP_CODEC_BITS_PER_SAMPLE_24).
  { rewrite R3. cbn [CodecInfo.bits_per_sample set_channelMode]. exact B2. }
  split; [congruence|].
  exists out9. split; [reflexivity|].
  rewrite R in Gel. destruct Hd as (_ & _ & H0 & H24).
  revert Gel. unfold parsed_element. cbv zeta.
  destruct (_ =? A2DP_LHDC_BIT_FMT_24) eqn:E24; [intros _; apply Z.eqb_eq, E24|].
  destruct (_ =? A2DP_LHDC_BIT_FMT_16) eqn:E16.
  - intros Gel. exfalso. apply H24. injection Gel as _ G. rewrite G.
    apply Z.lor_diag.
  - destruct (_ =? A2DP_LHDC_BIT_FMT_MASK); [|discriminate].
    intros Gel. exfalso. apply H24. injection Gel as _ G.
    rewrite Z.lor_comm. exact G.
Qed.

End Negotiation.

(** A sink that offers 44.1 and 48 kHz at 16 bit, and a source without
    preferences: 48 kHz is selected, at 24 bit. *)
Example sink_of_16_bit_gets_24_bit :
  match @CodecConfig.setCodecConfig Samples.headers Samples.junk
          Samples.fresh_object Samples.info_sink_44k_48k_16 true Samples.blank with
  | CodecConfig.Returned true o' p_result =>
      p_result = [Byte.x09; Byte.x00; Byte.xff; Byte.x3a; Byte.x05; Byte.x00;
                  Byte.x00; Byte.x4c; Byte.x48; Byte.x0a] ++ repeat Byte.x00 10
      /\ CodecConfig.sample_rate (CodecConfig.codec_config_ o') = 2
      /\ CodecConfig.bits_per_sample (CodecConfig.codec_config_ o') = 2
  | _ => False
  end.
Proof. vm_compute. repeat split; reflexivity. Qed.

Lemma set_codec_config_all_or_nothing_witness :
  exists result o' p_result,
    @CodecConfig.setCodecConfig Samples.headers Samples.junk Samples.asks_44k_16
      Samples.info_96k_24 false Samples.blank
    = CodecConfig.Returned result o' p_result
    /\ (result = false -> o' = Samples.asks_44k_16 /\ p_result = Samples.blank)
    /\ skipn 10 p_result = skipn 10 Samples.blank
    /\ CodecConfig.codec_user_config_ o'
       = CodecConfig.codec_user_config_ Samples.asks_44k_16
    /\ CodecConfig.codec_audio_config_ o'
       = CodecConfig.codec_audio_config_ Samples.asks_44k_16.
Proof.
  apply (@set_codec_config_all_or_nothing Samples.headers Samples.junk
           Samples.asks_44k_16 Samples.info_96k_24 false Samples.blank).
  - vm_compute. split; [discriminate|reflexivity].
  - vm_compute. split; [discriminate|reflexivity].
  - unfold hold_codec_information. cbn. lia.
Defined.

Lemma set_codec_config_rate_offered_witness :
  exists o' p_result,
    @CodecConfig.setCodecConfig Samples.headers Samples.junk Samples.asks_44k_16
      Samples.info_sink_44k_48k_16 true Samples.blank
    = CodecConfig.Returned true o' p_result
    /\ @lhdc_header Samples.headers p_result
    /\ firstn 10 (CodecConfig.ota_codec_config_ o') = firstn 10 p_result
    /\ exists peer9 out9 freq,
        nth_error Samples.info_sink_44k_48k_16 9 = Some peer9
        /\ nth_error p_result 9 = Some out9
        /\ @rate_pair Samples.headers freq
             (CodecConfig.sample_rate (CodecConfig.codec_config_ o'))
        /\ Z.land (Z.land (byte_to_Z peer9) CodecInfo.A2DP_LHDC_SAMPLING_FREQ_MASK)
                  freq <> 0
        /\ Z.land (byte_to_Z out9) CodecInfo.A2DP_LHDC_SAMPLING_FREQ_MASK
           = Z.land freq CodecInfo.A2DP_LHDC_SAMPLING_FREQ_MASK.
Proof.
  eexists. eexists. split; [vm_compute; reflexivity|].
  apply (@set_codec_config_rate_offered Samples.headers Samples.junk
           Samples.asks_44k_16 _ Samples.info_sink_44k_48k_16 true Samples.blank).
  - vm_compute. split; [discriminate|reflexivity].
  - vm_compute. split; [discriminate|reflexivity].
  - unfold hold_codec_information. cbn. lia.
  - vm_compute. reflexivity.
Defined.

Lemma set_codec_config_format_of_default_witness :
  exists o' p_result,
    @CodecConfig.setCodecConfig Samples.headers Samples.junk Samples.fresh_object
      Samples.info_sink_44k_48k_16 true Samples.blank
    = CodecConfig.Returned true o' p_result
    /\ CodecConfig.bits_per_sample (CodecConfig.codec_config_ o') = 2
    /\ exists out9,
        nth_error p_result 9 = Some out9
        /\ Z.land (byte_to_Z out9) CodecInfo.A2DP_LHDC_BIT_FMT_MASK
           = CodecInfo.A2DP_LHDC_BIT_FMT_24.
Proof.
  eexists. eexists. split; [vm_compute; reflexivity|].
  apply (@set_codec_config_format_of_default Samples.headers Samples.junk
           Samples.fresh_object _ Samples.info_sink_44k_48k_16 true Samples.blank).
  - vm_compute. split; [discriminate|reflexivity].
  - vm_compute. split; [discriminate|reflexivity].
  - unfold formats_distinct. cbn. repeat split; discriminate.
  - unfold hold_codec_information. cbn. lia.
  - reflexivity.
  - reflexivity.
  - vm_compute. reflexivity.
Defined.
